(** * Narrative Metrics Engine: the metrics endpoint and the horizon-move
      helpers, embedded from [backend/backend.py] and [utils.py].

    Conventions of the embedding.
    - A calendar date is its day number counted from 1970-01-01, an integer
      ([Z]).  A Python [date] lies between [date.min] and [date.max], and a
      subtraction that leaves these bounds raises [OverflowError]; a pandas
      timestamp is a signed 64-bit count of nanoseconds, and a [timedelta]
      holds at most 999999999 days.  The arithmetic of the endpoint and of
      [calculate_horizon_moves] is modelled with these bounds.  The date
      helpers of [utils.py] work on what [strptime] returns and [strftime]
      takes, which are parameters; the bounds of [datetime] are left to them.
    - A float (Python [float], SQL [double precision] / [numeric]) is an exact
      rational ([Q]); rounding is not modelled, and an arithmetic expression
      of the code is read as the same expression on rationals.  Results of
      divisions are compared with [==].
    - SQL [NULL] and Python [None] are [None] of an [option].
    - The square root used by the database inside [STDDEV_SAMP] is a
      parameter ([sqrt_dp]) of the engine. *)

From Stdlib Require Import ZArith NArith QArith Qabs Qminmax List String Ascii Bool Arith Lia.
From Stdlib Require Import Sorting.Sorted Sorting.Permutation.
Import ListNotations.

Local Open Scope Z_scope.

(** ** Python and SQL primitives *)

(** The values that are present in a list of optional values: the non-NULL
    values of an SQL column, and [[v for v in l if v is not None]]. *)
Fixpoint present {A} (col : list (option A)) : list A :=
  match col with
  | [] => []
  | Some v :: r => v :: present r
  | None :: r => present r
  end.

Module Py.

(** [x < y] on floats. *)
Definition lt (x y : Q) : bool := negb (Qle_bool y x).

(** [x > y] on floats. *)
Definition gt (x y : Q) : bool := negb (Qle_bool x y).

(** [sum(1 for v in l if p v)] *)
Definition count_if {A} (p : A -> bool) (l : list A) : Z :=
  Z.of_nat (List.length (filter p l)).

(** [len(l)] *)
Definition len {A} (l : list A) : Z := Z.of_nat (List.length l).

(** Normalisation of one slice bound against a list of length [n]:
    a negative bound counts from the end, and every bound is clipped to
    [0 .. n]. *)
Definition clip (n k : Z) : Z :=
  if k <? 0 then Z.max 0 (n + k) else Z.min k n.

(** [l[a:b]] *)
Definition slice {A} (l : list A) (a b : Z) : list A :=
  let n := len l in
  let a' := clip n a in
  let b' := clip n b in
  firstn (Z.to_nat (b' - a')) (skipn (Z.to_nat a') l).

(** [range(n)] *)
Definition range (n : Z) : list Z :=
  map Z.of_nat (seq 0 (Z.to_nat n)).

(** [l[i]] for [0 <= i < len(l)].  The loops of the endpoint index lists of
    one common length with [i] from [range] of that length, so the
    [IndexError] of an index out of range cannot occur there; [d] stands in
    for it. *)
Definition index {A} (d : A) (l : list A) (i : Z) : A :=
  nth (Z.to_nat i) l d.

(** [enumerate(l)] *)
Definition enumerate {A} (l : list A) : list (Z * A) :=
  combine (range (len l)) l.

(** [float(x) if x is not None else d] *)
Definition float_or (d : Q) (x : option Q) : Q :=
  match x with Some v => v | None => d end.

(** [int / int]: true division. *)
Definition truediv (a b : Z) : Q := inject_Z a / inject_Z b.

End Py.

(** ** The SQL fragment used by the metrics query *)

Module Sql.

(** [COALESCE(x, d)] *)
Definition COALESCE {A} (x : option A) (d : A) : A :=
  match x with Some v => v | None => d end.

(** [GREATEST(a, b)] on two non-null numbers. *)
Definition GREATEST (a b : Q) : Q := Qmax a b.

(** The sum of a list of numbers. *)
Definition Qsum (l : list Q) : Q := fold_right Qplus 0%Q l.

(** [COUNT( * )] and [COUNT(col)] *)
Definition COUNT_star {A} (rows : list A) : Z := Z.of_nat (List.length rows).
Definition COUNT {A} (col : list (option A)) : Z :=
  Z.of_nat (List.length (present col)).

(** [AVG(col)]: NULL over no non-null value. *)
Definition AVG (col : list (option Q)) : option Q :=
  match present col with
  | [] => None
  | v => Some (Qsum v / inject_Z (Z.of_nat (List.length v)))%Q
  end.

(** [SELECT DISTINCT]: one representative of every class of [eqb]. *)
Definition distinct {A} (eqb : A -> A -> bool) (rows : list A) : list A :=
  fold_right (fun x acc => if existsb (eqb x) acc then acc else x :: acc) [] rows.

(** [generate_series(a, b, interval '1 day')]: [a, a+1, ..., b], empty when
    [b < a]. *)
Definition generate_series (a b : Z) : list Z :=
  map (fun k => a + Z.of_nat k) (seq 0 (Z.to_nat (b - a + 1))).

(** [ORDER BY key] (ascending; rows with equal keys keep their order). *)
Fixpoint insert_by {A} (key : A -> Z) (x : A) (l : list A) : list A :=
  match l with
  | [] => [x]
  | y :: r => if key x <=? key y then x :: l else y :: insert_by key x r
  end.

Definition order_by {A} (key : A -> Z) (rows : list A) : list A :=
  fold_right (insert_by key) [] rows.

(** [ORDER BY] on a text column, ascending under the collation [le]. *)
Fixpoint insert_text (le : string -> string -> bool) (x : string)
         (l : list string) : list string :=
  match l with
  | [] => [x]
  | y :: r => if le x y then x :: l else y :: insert_text le x r
  end.

Definition order_by_text (le : string -> string -> bool) (rows : list string)
  : list string :=
  fold_right (insert_text le) [] rows.

(** Row numbers [0, 1, ...] paired with the rows of an ordered partition. *)
Definition numbered {A} (rows : list A) : list (Z * A) :=
  combine (map Z.of_nat (seq 0 (List.length rows))) rows.

(** The window frame [ROWS BETWEEN hi PRECEDING AND lo PRECEDING] of the row
    numbered [i]: the rows numbered [i - hi .. i - lo] that exist. *)
Definition rows_between_preceding {A} (rows : list A) (i hi lo : Z) : list A :=
  map snd (filter (fun jr => (i - hi <=? fst jr) && (fst jr <=? i - lo))
                  (numbered rows)).

Section StdDev.
Variable sqrt_dp : Q -> Q.

(** [STDDEV_SAMP(col)]: NULL over fewer than two non-null values,
    otherwise the square root of the sample variance. *)
Definition STDDEV_SAMP (col : list (option Q)) : option Q :=
  let v := present col in
  let n := Z.of_nat (List.length v) in
  if n <? 2 then None
  else
    let m := (Qsum v / inject_Z n)%Q in
    Some (sqrt_dp (Qsum (map (fun x => (x - m) * (x - m)) v)
                   / inject_Z (n - 1)))%Q.
End StdDev.

End Sql.

(** ** backend/backend.py *)

Module Backend.

(** A row of table [articles], with the columns the query reads;
    [published_at] holds the value of [published_at::date]. *)
Record article := {
  id : Z;
  primary_label_v2 : option string;
  published_at : Z;
  sentiment_score : option Q
}.

(** [class Metric(BaseModel)] *)
Record Metric := {
  date : Z;
  article_count : Z;
  rolling_mean : Q;
  rolling_std : Q;
  intensity : Q;
  sentiment_mean : option Q;
  intensity_percentile : Q;
  sentiment_percentile : option Q
}.

(** What the endpoint answers: a validation error of the framework (a
    [Query] constraint fails), the [HTTPException] of the body, the list of
    metrics, or the error the framework reports when the function raises an
    exception it does not handle (the [OverflowError] of a date out of
    range). *)
Inductive response :=
| HTTP_422
| HTTP_400 (detail : string)
| HTTP_200 (body : list Metric)
| HTTP_500.

(** [date.min] (0001-01-01) and [date.max] (9999-12-31) as day numbers. *)
Definition date_min : Z := -719162.
Definition date_max : Z := 2932896.

Definition is_date (d : Z) : bool := (date_min <=? d) && (d <=? date_max).

(** [d - timedelta(days=days)] on a [date]; [None] is the [OverflowError] of
    a result out of range. *)
Definition date_sub (d days : Z) : option Z :=
  if is_date (d - days) then Some (d - days) else None.

(** [_percent_rank(window_values, x)] *)
Definition _percent_rank (window_values : list Q) (x : Q) : Q :=
  let n := Py.len window_values in
  if n <=? 1 then 0%Q
  else
    let less := Py.count_if (fun v => Py.lt v x) window_values in
    let rank := 1 + less in
    Py.truediv (rank - 1) (n - 1).

(** *** The query *)

(** Rows of the CTE [daily_items]. *)
Record item := {
  item_id : Z;
  item_date : Z;
  item_score : option Q
}.

Definition score_eqb (a b : option Q) : bool :=
  match a, b with
  | Some x, Some y => Qeq_bool x y
  | None, None => true
  | _, _ => false
  end.

Definition item_eqb (a b : item) : bool :=
  (item_id a =? item_id b) && (item_date a =? item_date b)
  && score_eqb (item_score a) (item_score b).

(** [primary_label_v2 = $1] (a NULL label never matches). *)
Definition label_is (a : article) (narrative : string) : bool :=
  match primary_label_v2 a with
  | Some l => String.eqb l narrative
  | None => false
  end.

(** [x BETWEEN lo AND hi] *)
Definition between (x lo hi : Z) : bool := (lo <=? x) && (x <=? hi).

Definition daily_items (articles : list article) (narrative : string)
           (calc_start end_date : Z) : list item :=
  Sql.distinct item_eqb
    (map (fun a => {| item_id := id a;
                      item_date := published_at a;
                      item_score := sentiment_score a |})
         (filter (fun a => label_is a narrative
                           && between (published_at a) calc_start end_date)
                 articles)).

(** Rows of the CTE [daily_agg]: one per date that has an item. *)
Record agg_row := {
  agg_date : Z;
  agg_article_count : Z;
  agg_sentiment_mean : option Q
}.

Definition daily_agg (items : list item) : list agg_row :=
  map (fun d =>
         let g := filter (fun it => item_date it =? d) items in
         {| agg_date := d;
            agg_article_count := Sql.COUNT_star g;
            agg_sentiment_mean := Sql.AVG (map item_score g) |})
      (Sql.distinct Z.eqb (map item_date items)).

(** Rows of the CTE [daily_series]. *)
Record series_row := {
  s_date : Z;
  s_article_count : Z;
  s_sentiment_mean : option Q
}.

(** [calendar c LEFT JOIN daily_agg a ON c.narrative_date = a.narrative_date] *)
Definition daily_series (calendar : list Z) (agg : list agg_row)
  : list series_row :=
  flat_map
    (fun c =>
       match filter (fun a => c =? agg_date a) agg with
       | [] => [ {| s_date := c;
                    s_article_count := Sql.COALESCE None 0;
                    s_sentiment_mean := None |} ]
       | matched =>
           map (fun a => {| s_date := c;
                            s_article_count :=
                              Sql.COALESCE (Some (agg_article_count a)) 0;
                            s_sentiment_mean := agg_sentiment_mean a |})
               matched
       end)
    calendar.

(** Rows of the CTE [rolling_stats]. *)
Record stats_row := {
  r_date : Z;
  r_article_count : Z;
  r_sentiment_mean : option Q;
  r_baseline_n : Z;
  r_rolling_mean : option Q;
  r_rolling_std : option Q
}.

(** A row as the driver hands it to Python. *)
Record db_row := {
  row_narrative_date : Z;
  row_article_count : Z;
  row_rolling_mean : option Q;
  row_rolling_std : option Q;
  row_intensity : option Q;
  row_sentiment_mean : option Q
}.

Section Engine.
(** The square root of the database. *)
Variable sqrt_dp : Q -> Q.

(** The column [article_count] of a window frame, as the aggregates see it. *)
Definition frame_counts (frame : list series_row) : list (option Q) :=
  map (fun r => Some (inject_Z (s_article_count r))) frame.

(** The row of [rolling_stats] for the row numbered [fst ir] of the
    ordered partition: the three aggregates run over the same frame,
    [ROWS BETWEEN win PRECEDING AND 1 PRECEDING]. *)
Definition window_stats (win : Z) (ordered : list series_row)
           (ir : Z * series_row) : stats_row :=
  let frame := Sql.rows_between_preceding ordered (fst ir) win 1 in
  {| r_date := s_date (snd ir);
     r_article_count := s_article_count (snd ir);
     r_sentiment_mean := s_sentiment_mean (snd ir);
     r_baseline_n := Sql.COUNT (frame_counts frame);
     r_rolling_mean := Sql.AVG (frame_counts frame);
     r_rolling_std := Sql.STDDEV_SAMP sqrt_dp (frame_counts frame) |}.

Definition rolling_stats (win : Z) (series : list series_row)
  : list stats_row :=
  let ordered := Sql.order_by s_date series in
  map (window_stats win ordered) (Sql.numbered ordered).

(** [CASE WHEN baseline_n = 0 THEN 0.0 ELSE ... END AS intensity] *)
Definition intensity_case (eps : Q) (r : stats_row) : Q :=
  if r_baseline_n r =? 0 then 0%Q
  else ((inject_Z (r_article_count r) - Sql.COALESCE (r_rolling_mean r) 0)
        / Sql.GREATEST (Sql.COALESCE (r_rolling_std r) 0) eps)%Q.

Definition select_row (eps : Q) (r : stats_row) : db_row :=
  {| row_narrative_date := r_date r;
     row_article_count := r_article_count r;
     row_rolling_mean := r_rolling_mean r;
     row_rolling_std := r_rolling_std r;
     row_intensity := Some (intensity_case eps r);
     row_sentiment_mean := r_sentiment_mean r |}.

(** The outer [SELECT ... FROM rolling_stats ORDER BY narrative_date]. *)
Definition select_intensity (eps : Q) (stats : list stats_row)
  : list db_row :=
  Sql.order_by row_narrative_date (map (select_row eps) stats).

(** [conn.fetch(query, narrative, calc_start, end_date, eps)] *)
Definition fetch (articles : list article) (win : Z) (narrative : string)
           (calc_start end_date : Z) (eps : Q) : list db_row :=
  let calendar := Sql.generate_series calc_start end_date in
  let items := daily_items articles narrative calc_start end_date in
  let series := daily_series calendar (daily_agg items) in
  select_intensity eps (rolling_stats win series).

(** *** The endpoint *)

(** The six lists filled by the loop over [rows]. *)
Record columns := {
  dates : list Z;
  counts : list Z;
  rmean : list Q;
  rstd : list Q;
  intensities : list Q;
  sentiments : list (option Q)
}.

Definition read_rows (rows : list db_row) : columns :=
  {| dates := map row_narrative_date rows;
     counts := map row_article_count rows;
     rmean := map (fun r => Py.float_or 0 (row_rolling_mean r)) rows;
     rstd := map (fun r => Py.float_or 0 (row_rolling_std r)) rows;
     intensities := map (fun r => Py.float_or 0 (row_intensity r)) rows;
     sentiments := map row_sentiment_mean rows |}.

(** The loop [for i in range(len(dates))] appends to two lists; each is
    the image of the range under its own part of the loop body. *)
Definition intensity_pcts (pwin : Z) (c : columns) : list Q :=
  map (fun i =>
         let start_idx := Z.max 0 (i - pwin + 1) in
         let w_int := Py.slice (intensities c) start_idx (i + 1) in
         _percent_rank w_int (Py.index 0%Q (intensities c) i))
      (Py.range (Py.len (dates c))).

Definition sentiment_pcts (pwin : Z) (c : columns) : list (option Q) :=
  map (fun i =>
         let start_idx := Z.max 0 (i - pwin + 1) in
         match Py.index None (sentiments c) i with
         | None => None
         | Some s =>
             let w_sent :=
               present (Py.slice (sentiments c) start_idx (i + 1)) in
             Some (_percent_rank w_sent s)
         end)
      (Py.range (Py.len (dates c))).

(** The loop [for i, d in enumerate(dates)]. *)
Definition build_metrics (start_date end_date : Z) (c : columns)
           (ipcts : list Q) (spcts : list (option Q)) : list Metric :=
  flat_map
    (fun id =>
       let i := fst id in
       let d := snd id in
       if (start_date <=? d) && (d <=? end_date) then
         [ {| date := d;
              article_count := Py.index 0 (counts c) i;
              rolling_mean := Py.index 0%Q (rmean c) i;
              rolling_std := Py.index 0%Q (rstd c) i;
              intensity := Py.index 0%Q (intensities c) i;
              sentiment_mean := Py.index None (sentiments c) i;
              intensity_percentile := Py.index 0%Q ipcts i;
              sentiment_percentile := Py.index None spcts i |} ]
       else [])
    (Py.enumerate (dates c)).

(** [if end_date is None: end_date = today] *)
Definition default_end (today : Z) (end_date : option Z) : Z :=
  match end_date with Some e => e | None => today end.

(** [if start_date is None: start_date = end_date - timedelta(days=365)],
    with [end_date] already resolved; [None] when the subtraction raises. *)
Definition resolve_start (end_date : Z) (start_date : option Z) : option Z :=
  match start_date with
  | Some s => Some s
  | None => date_sub end_date 365
  end.

(** The start date [resolve_start] gives when nothing is raised. *)
Definition default_start (end_date : Z) (start_date : option Z) : Z :=
  match start_date with Some s => s | None => end_date - 365 end.

(** The constraints declared on the query parameters
    ([ge=1, le=365], [ge=1, le=730], [gt=0.0, le=10.0]); the framework
    checks them before it calls the function. *)
Definition query_valid (window percentile_window : Z) (epsilon : Q) : bool :=
  between window 1 365 && between percentile_window 1 730
  && (Py.lt 0 epsilon && Qle_bool epsilon 10).

(** The lists the function computes for the span [calc_start .. end_date]. *)
Definition compute_columns (articles : list article) (narrative : string)
           (calc_start end_date win : Z) (eps : Q) : columns :=
  read_rows (fetch articles win narrative calc_start end_date eps).

(** [narrative_metrics]; [today] is [date.today()], and an omitted
    [window], [percentile_window] or [epsilon] arrives as its default
    (60, 365, 0.25). *)
Definition narrative_metrics (articles : list article) (today : Z)
           (narrative : string) (start_date end_date : option Z)
           (window percentile_window : Z) (epsilon : Q) : response :=
  if negb (query_valid window percentile_window epsilon) then HTTP_422
  else
    let end_date := default_end today end_date in
    match resolve_start end_date start_date with
    | None => HTTP_500
    | Some start_date =>
        if end_date <? start_date then
          HTTP_400 "start_date must be on or before end_date"
        else
          let win := Z.max 1 (Z.min window 365) in
          let pwin := Z.max 1 (Z.min percentile_window 730) in
          let eps := epsilon in
          let history_days := Z.max win pwin in
          match date_sub start_date history_days with
          | None => HTTP_500
          | Some calc_start =>
              let c := compute_columns articles narrative calc_start end_date
                                       win eps in
              HTTP_200 (build_metrics start_date end_date c
                                      (intensity_pcts pwin c)
                                      (sentiment_pcts pwin c))
          end
    end.

End Engine.

(** [list_narratives]: [SELECT DISTINCT primary_label_v2 FROM articles WHERE
    primary_label_v2 IS NOT NULL ORDER BY primary_label_v2]; [collation] is
    the order of the text column. *)
Definition list_narratives (collation : string -> string -> bool)
           (articles : list article) : list string :=
  Sql.order_by_text collation
    (Sql.distinct String.eqb (present (map primary_label_v2 articles))).

End Backend.

(** ** utils.py *)

Module Utils.

(** *** A store of DataFrames

    A DataFrame is an object that several names can share, so the functions
    of this module run in a store of DataFrames and receive references. *)

(** A cell of column ['date']: a string as the API delivers it, or a
    timestamp (nanoseconds since the epoch) once converted. *)
Inductive datecell :=
| DStr (s : string)
| DTime (t : Z).

(** The two columns the function reads; ['date'] may be absent (the
    function tests for it). *)
Record DataFrame := {
  df_date : option (list datecell);
  df_intensity : list Q
}.

Definition ref := nat.
Definition store := list DataFrame.

(** The exceptions: [KeyError], the [ValueError] of a date that does not
    parse, the [OverflowError] of [timedelta], the error pandas raises when a
    timedelta or a timestamp leaves its bounds ([OutOfBoundsDatetime],
    [OutOfBoundsTimedelta] or [OverflowError], by its version), and the use
    of a reference that names no object. *)
Inductive exn :=
| KeyError (key : string)
| DateParseError
| OverflowError
| OutOfBounds
| Dangling.

(** Computations that read and write the store and may raise. *)
Definition M (A : Type) : Type := store -> (exn + A) * store.

Definition ret {A} (a : A) : M A := fun h => (inr a, h).
Definition raise {A} (e : exn) : M A := fun h => (inl e, h).
Definition bind {A B} (c : M A) (k : A -> M B) : M B :=
  fun h => match c h with
           | (inl e, h') => (inl e, h')
           | (inr a, h') => k a h'
           end.

Notation "x <- c ;; k" := (bind c (fun x => k))
  (at level 61, c at next level, right associativity).

Definition load (r : ref) : M DataFrame :=
  fun h => match nth_error h r with
           | Some df => (inr df, h)
           | None => (inl Dangling, h)
           end.

(** A new object holding [df]. *)
Definition alloc (df : DataFrame) : M ref :=
  fun h => (inr (List.length h), h ++ [df]).

(** In-place replacement of the object at [r]. *)
Fixpoint update (h : store) (r : ref) (df : DataFrame) : store :=
  match h, r with
  | [], _ => []
  | _ :: t, O => df :: t
  | x :: t, S r' => x :: update t r' df
  end.

Definition write (r : ref) (df : DataFrame) : M unit :=
  fun h => (inr tt, update h r df).

(** [df.copy()] *)
Definition copy (r : ref) : M ref :=
  df <- load r ;; alloc df.

(** [df['date'] = col]: mutates the object [r] refers to. *)
Definition setitem_date (r : ref) (col : list datecell) : M unit :=
  df <- load r ;;
  write r {| df_date := Some col; df_intensity := df_intensity df |}.

(** One day in nanoseconds, the unit of a timestamp. *)
Definition NS_PER_DAY : Z := 86400000000000.

(** [timedelta(days=days)], as its length in nanoseconds: a [timedelta]
    holds at most 999999999 days either way, and raises beyond. *)
Definition MAX_DELTA_DAYS : Z := 999999999.

Definition timedelta (days : Z) : M Z :=
  if Z.abs days <=? MAX_DELTA_DAYS then ret (days * NS_PER_DAY)
  else raise OverflowError.

(** A timestamp and a timedelta of pandas are signed 64-bit counts, the
    least value being kept for [NaT]; the unit is the nanosecond, the one of
    a converted column. *)
Definition INT64_MAX : Z := 9223372036854775807.

Definition in_bounds (ns : Z) : bool := Z.abs ns <=? INT64_MAX.

(** [t - delta] for a timestamp [t] and a [timedelta]: raises when the
    timedelta or the result is out of bounds. *)
Definition timestamp_sub (t delta : Z) : M Z :=
  if in_bounds delta && in_bounds (t - delta) then ret (t - delta)
  else raise OutOfBounds.

(** *** Python dicts (insertion-ordered) *)

Section Dict.
Context {V : Type}.

(** [d[k] = v] *)
Fixpoint dict_set (d : list (Z * V)) (k : Z) (v : V) : list (Z * V) :=
  match d with
  | [] => [(k, v)]
  | (k', v') :: r =>
      if k' =? k then (k', v) :: r else (k', v') :: dict_set r k v
  end.

(** [d.get(k)] *)
Fixpoint dict_get (d : list (Z * V)) (k : Z) : option V :=
  match d with
  | [] => None
  | (k', v') :: r => if k' =? k then Some v' else dict_get r k
  end.

Definition dict_keys (d : list (Z * V)) : list Z := map fst d.
End Dict.

Section Pandas.
(** [pd.to_datetime] on a string; [None] when it raises. *)
Variable parse_datetime : string -> option Z.

Definition to_datetime_cell (c : datecell) : option Z :=
  match c with
  | DStr s => parse_datetime s
  | DTime t => Some t
  end.

(** [pd.to_datetime] on a column of cells that all parse on their own:
    pandas infers one format from the first string and reads every cell with
    it, so the column can still fail to convert (strings of mixed formats),
    and a cell can get another value than it gets alone; [None] when it
    raises. *)
Variable to_datetime_series : list datecell -> option (list Z).

Definition parses (c : datecell) : bool :=
  match to_datetime_cell c with Some _ => true | None => false end.

(** [pd.to_datetime(column)]: raises if a cell does not parse, or if the
    column does not convert as a whole. *)
Definition to_datetime (col : list datecell) : option (list datecell) :=
  if forallb parses col then option_map (map DTime) (to_datetime_series col)
  else None.

Definition cell_eq (c : datecell) (t : Z) : bool :=
  match c with
  | DTime u => u =? t
  | DStr _ => false
  end.

Definition lift_parse {A} (x : option A) : M A :=
  match x with Some a => ret a | None => raise DateParseError end.

(** ['date' in df.columns] *)
Definition has_date (r : ref) : M bool :=
  df <- load r ;;
  ret (match df_date df with Some _ => true | None => false end).

(** [df['date']] *)
Definition getitem_date (r : ref) : M (list datecell) :=
  df <- load r ;;
  match df_date df with
  | Some col => ret col
  | None => raise (KeyError "date")
  end.

(** [df[df['date'] == t]['intensity']]: the intensities of the rows whose
    date equals [t], in row order. *)
Definition rows_at (r : ref) (t : Z) : M (list Q) :=
  col <- getitem_date r ;;
  df <- load r ;;
  ret (map snd (filter (fun ci => cell_eq (fst ci) t)
                       (combine col (df_intensity df)))).

(** The loop [for horizon in horizons], from the dict [moves]. *)
Fixpoint horizon_loop (metrics_df : ref) (target_dt : Z)
         (target_intensity : Q) (horizons : list Z)
         (moves : list (Z * option Q)) : M (list (Z * option Q)) :=
  match horizons with
  | [] => ret moves
  | horizon :: rest =>
      delta <- timedelta horizon ;;
      horizon_date <- timestamp_sub target_dt delta ;;
      horizon_row <- rows_at metrics_df horizon_date ;;
      match horizon_row with
      | [] =>
          horizon_loop metrics_df target_dt target_intensity rest
                       (dict_set moves horizon None)
      | horizon_intensity :: _ =>
          let move := (target_intensity - horizon_intensity)%Q in
          horizon_loop metrics_df target_dt target_intensity rest
                       (dict_set moves horizon (Some move))
      end
  end.

(** [calculate_horizon_moves(metrics_df, target_date, horizons)] *)
Definition calculate_horizon_moves (metrics_df : ref) (target_date : string)
           (horizons : list Z) : M (list (Z * option Q)) :=
  let moves := [] in
  has <- has_date metrics_df ;;
  metrics_df <-
    (if has : bool then
       metrics_df <- copy metrics_df ;;
       col <- getitem_date metrics_df ;;
       col <- lift_parse (to_datetime col) ;;
       _ <- setitem_date metrics_df col ;;
       ret metrics_df
     else ret metrics_df) ;;
  target_dt <- lift_parse (parse_datetime target_date) ;;
  target_row <- rows_at metrics_df target_dt ;;
  match target_row with
  | [] => ret (fold_left (fun d h => dict_set d h None) horizons [])
  | target_intensity :: _ =>
      horizon_loop metrics_df target_dt target_intensity horizons moves
  end.
End Pandas.

(** An alert dict [{"horizon": ..., "move": ..., "abs_move": ...}]. *)
Record alert := {
  horizon : Z;
  move : Q;
  abs_move : Q
}.

(** [detect_alerts(moves_dict, threshold)] *)
Definition detect_alerts (moves_dict : list (Z * option Q)) (threshold : Q)
  : list alert :=
  flat_map
    (fun hm =>
       match snd hm with
       | Some m =>
           if Py.gt (Qabs m) threshold then
             [ {| horizon := fst hm; move := m; abs_move := Qabs m |} ]
           else []
       | None => []
       end)
    moves_dict.

(** [max(l)] of a non-empty list of dates, [first] being its first element. *)
Definition max_date (first : Z) (rest : list Z) : Z := fold_left Z.max rest first.

(** [sorted(l, reverse=True)] on strings (equal strings keep their order). *)
Fixpoint insert_reverse (x : string) (l : list string) : list string :=
  match l with
  | [] => [x]
  | y :: r => if String.leb y x then x :: l else y :: insert_reverse x r
  end.

Definition sorted_reverse (l : list string) : list string :=
  fold_right insert_reverse [] l.

Section Dates.
(** [datetime.strptime(s, "%Y-%m-%d")] as a day number, [None] when it raises
    [ValueError]; and [d.strftime("%Y-%m-%d")]. *)
Variable strptime : string -> option Z.
Variable strftime : Z -> string.

(** [[datetime.strptime(d, "%Y-%m-%d") for d in dates_list]]: raises at the
    first string that does not parse. *)
Fixpoint parse_all (dates_list : list string) : option (list Z) :=
  match dates_list with
  | [] => Some []
  | d :: r =>
      match strptime d with
      | None => None
      | Some t =>
          match parse_all r with
          | None => None
          | Some ts => Some (t :: ts)
          end
      end
  end.

(** [get_latest_date(dates_list)] *)
Definition get_latest_date (dates_list : list string) : option string :=
  match dates_list with
  | [] => None
  | _ =>
      match parse_all dates_list with
      | Some (first :: rest) =>
          let latest := max_date first rest in
          Some (strftime latest)
      | _ =>
          match sorted_reverse dates_list with
          | x :: _ => Some x
          | [] => None
          end
      end
  end.

(** [get_date_range_days(start_date, end_date)] *)
Definition get_date_range_days (start_date end_date : string) : Z :=
  match strptime start_date with
  | None => 0
  | Some start =>
      match strptime end_date with
      | None => 0
      | Some end_ => end_ - start
      end
  end.

(** The number of days [get_date_range_for_period] goes back for [period]. *)
Definition period_days (period : string) : Z :=
  if String.eqb period "30d" then 30
  else if String.eqb period "90d" then 90
  else if String.eqb period "180d" then 180
  else if String.eqb period "365d" then 365
  else 180.

(** [get_date_range_for_period(period, end_date)]; [today] is
    [datetime.now()], and [None] is the [ValueError] of an [end_date] that
    does not parse.  The start date is written by [strftime], which stands
    for the host's on the datetimes it has: a start before [datetime.min],
    where the subtraction raises, is not told apart here. *)
Definition get_date_range_for_period (today : Z) (period : string)
           (end_date : option string) : option (string * string) :=
  let end_date := match end_date with Some e => e | None => strftime today end in
  match strptime end_date with
  | None => None
  | Some end_dt =>
      let start_dt := end_dt - period_days period in
      Some (strftime start_dt, end_date)
  end.
End Dates.

(** [color_intensity(value)] *)
Definition color_intensity (value : Q) : string :=
  if Py.lt value (-(1 # 2)) then "red"
  else if Py.gt value (1 # 2) then "green"
  else "gray".

(** [color_sentiment(value)] *)
Definition color_sentiment (value : Q) : string :=
  if Py.lt value (-(3 # 10)) then "red"
  else if Py.gt value (3 # 10) then "green"
  else "gray".

End Utils.

(** * Notions used to state the properties *)

(** ** Percent rank *)

(** The percentile as the specification words it: the rank is one more than
    the number of window values strictly below [x]. *)
Fixpoint strictly_less (window : list Q) (x : Q) : Z :=
  match window with
  | [] => 0
  | v :: r => if Qlt_le_dec v x then 1 + strictly_less r x else strictly_less r x
  end.

Definition rank (window : list Q) (x : Q) : Z := 1 + strictly_less window x.

(** ** The store and the dict of moves *)

(** A computation that leaves the store as it finds it. *)
Definition read_only {A} (c : Utils.M A) : Prop := forall h, snd (c h) = h.

(** What is left of the function once the DataFrame it reads is fixed. *)
Definition lookup_phase (parse : string -> option Z) (r : Utils.ref)
           (target : string) (hs : list Z) : Utils.M (list (Z * option Q)) :=
  Utils.bind (Utils.lift_parse (parse target)) (fun target_dt =>
  Utils.bind (Utils.rows_at r target_dt) (fun target_row =>
    match target_row with
    | [] => Utils.ret (fold_left (fun d h => Utils.dict_set d h None) hs [])
    | target_intensity :: _ =>
        Utils.horizon_loop r target_dt target_intensity hs []
    end)).

(** A loop that assigns [d[k] = f k] for each [k] of a list. *)
Definition fill {V} (f : Z -> V) (ks : list Z) (d : list (Z * V)) : list (Z * V) :=
  fold_left (fun m k => Utils.dict_set m k (f k)) ks d.

(** The intensities recorded at timestamp [t], in row order. *)
Definition values_at (series : list (Z * Q)) (t : Z) : list Q :=
  map snd (filter (fun p => fst p =? t) series).

(** [hz] days in nanoseconds. *)
Definition horizon_ns (hz : Z) : Z := hz * Utils.NS_PER_DAY.

(** The horizons whose date the host can compute from the timestamp [d]:
    [timedelta] takes the number of days, and the timedelta and the timestamp
    [d - hz days] are within the bounds of pandas. *)
Definition representable (d hz : Z) : bool :=
  (Z.abs hz <=? Utils.MAX_DELTA_DAYS)
  && Utils.in_bounds (horizon_ns hz)
  && Utils.in_bounds (d - horizon_ns hz).

(** The move the loop stores for horizon [hz], on the series of timestamps
    [ts] and intensities [ints], for the target [d] of intensity [a]. *)
Definition stored_move (ts : list Z) (ints : list Q) (d : Z) (a : Q) (hz : Z)
  : option Q :=
  match values_at (combine ts ints) (d - horizon_ns hz) with
  | [] => None
  | b :: _ => Some (a - b)%Q
  end.

(** ** The daily series *)

(** The deduplicated items of day [c], and the row of [daily_series] built
    from them. *)
Definition day_items (items : list Backend.item) (c : Z) : list Backend.item :=
  filter (fun it => Backend.item_date it =? c) items.

Definition day_row (items : list Backend.item) (c : Z) : Backend.series_row :=
  {| Backend.s_date := c;
     Backend.s_article_count := Sql.COUNT_star (day_items items c);
     Backend.s_sentiment_mean := Sql.AVG (map Backend.item_score (day_items items c)) |}.

(** The deduplicated items of narrative [narrative] dated [d]: the query's
    [daily_items] over the one-day span [d .. d]. *)
Definition items_on (articles : list Backend.article) (narrative : string) (d : Z)
  : list Backend.item :=
  Backend.daily_items articles narrative d d.

(** [item_count] and [sentiment_mean] of day [d]. *)
Definition daily_count (articles : list Backend.article) (narrative : string)
           (d : Z) : Z :=
  Sql.COUNT_star (items_on articles narrative d).

Definition daily_sentiment (articles : list Backend.article) (narrative : string)
           (d : Z) : option Q :=
  Sql.AVG (map Backend.item_score (items_on articles narrative d)).

(** Day number [k] of the span that starts at [calc_start], its row in
    [daily_series], the whole of [daily_series], and the row fetched for it. *)
Definition nth_day (calc_start : Z) (k : nat) : Z := calc_start + Z.of_nat k.

Definition nth_series_row (articles : list Backend.article) (narrative : string)
           (calc_start end_date : Z) (k : nat) : Backend.series_row :=
  day_row (Backend.daily_items articles narrative calc_start end_date)
          (nth_day calc_start k).

Definition dense_series (articles : list Backend.article) (narrative : string)
           (calc_start end_date : Z) : list Backend.series_row :=
  map (nth_series_row articles narrative calc_start end_date)
      (seq 0 (Z.to_nat (end_date - calc_start + 1))).

Definition nth_db_row (sqrt_dp : Q -> Q) (articles : list Backend.article)
           (narrative : string) (calc_start end_date win : Z) (eps : Q) (k : nat)
  : Backend.db_row :=
  Backend.select_row eps
    (Backend.window_stats sqrt_dp win
       (dense_series articles narrative calc_start end_date)
       (Z.of_nat k, nth_series_row articles narrative calc_start end_date k)).

(** The baseline as the specification words it: the counts of the days
    [t - W .. t - 1] that the series has (it starts at [calc_start]), their
    mean, and their sample standard deviation (dividing by [n - 1], and [0]
    for fewer than two values). *)
Definition prior_counts (articles : list Backend.article) (narrative : string)
           (calc_start t W : Z) : list Z :=
  map (daily_count articles narrative)
      (Sql.generate_series (Z.max calc_start (t - W)) (t - 1)).

Definition mean (xs : list Z) : Q :=
  (Sql.Qsum (map inject_Z xs) / inject_Z (Py.len xs))%Q.

Definition sample_std (sqrt_dp : Q -> Q) (xs : list Z) : Q :=
  if Py.len xs <? 2 then 0%Q
  else sqrt_dp (Sql.Qsum (map (fun x => (inject_Z x - mean xs) * (inject_Z x - mean xs)) xs)
                / inject_Z (Py.len xs - 1))%Q.

(** ** Percentile windows *)

(** The trailing window of row [k] in a column: [col[start_idx : k + 1]]. *)
Definition trailing {A} (pwin : Z) (col : list A) (k : nat) : list A :=
  Py.slice col (Z.max 0 (Z.of_nat k - pwin + 1)) (Z.of_nat k + 1).

(** The metric appended for row [k] when its date is in the requested range. *)
Definition metric_at (sqrt_dp : Q -> Q) (articles : list Backend.article)
           (narrative : string) (calc_start end_date win pwin : Z) (eps : Q)
           (k : nat) : Backend.Metric :=
  {| Backend.date := nth_day calc_start k;
     Backend.article_count :=
       Backend.row_article_count
         (nth_db_row sqrt_dp articles narrative calc_start end_date win eps k);
     Backend.rolling_mean :=
       Py.float_or 0 (Backend.row_rolling_mean
         (nth_db_row sqrt_dp articles narrative calc_start end_date win eps k));
     Backend.rolling_std :=
       Py.float_or 0 (Backend.row_rolling_std
         (nth_db_row sqrt_dp articles narrative calc_start end_date win eps k));
     Backend.intensity :=
       Py.float_or 0 (Backend.row_intensity
         (nth_db_row sqrt_dp articles narrative calc_start end_date win eps k));
     Backend.sentiment_mean :=
       Backend.row_sentiment_mean
         (nth_db_row sqrt_dp articles narrative calc_start end_date win eps k);
     Backend.intensity_percentile :=
       Backend._percent_rank
         (trailing pwin
            (Backend.intensities
               (Backend.compute_columns sqrt_dp articles narrative calc_start
                                        end_date win eps)) k)
         (Py.float_or 0 (Backend.row_intensity
            (nth_db_row sqrt_dp articles narrative calc_start end_date win eps k)));
     Backend.sentiment_percentile :=
       match Backend.row_sentiment_mean
               (nth_db_row sqrt_dp articles narrative calc_start end_date win eps k)
       with
       | None => None
       | Some s =>
           Some (Backend._percent_rank
                   (present (trailing pwin
                      (Backend.sentiments
                         (Backend.compute_columns sqrt_dp articles narrative
                            calc_start end_date win eps)) k)) s)
       end |}.

(** The last [k] values of a list. *)
Definition last_values {A} (k : nat) (l : list A) : list A :=
  skipn (List.length l - k) l.

(** The percentile as the claim words it: the rank of the day's sentiment
    among the last [P] defined sentiment values of the series up to that day. *)
Definition rank_among_last_defined (P : Z) (sentiments_to_date : list (option Q))
           (x : Q) : Q :=
  Backend._percent_rank (last_values (Z.to_nat P) (present sentiments_to_date)) x.

(** The counts of the [W] days before day [t]. *)
Definition baseline (articles : list Backend.article) (narrative : string)
           (t W : Z) : list Z :=
  map (daily_count articles narrative) (Sql.generate_series (t - W) (t - 1)).

(** The sentiment percentile of day [t] over the [P] calendar days that end
    with it. *)
Definition day_sentiment_percentile (articles : list Backend.article)
           (narrative : string) (t P : Z) : option Q :=
  match daily_sentiment articles narrative t with
  | None => None
  | Some x =>
      Some (Backend._percent_rank
              (present (map (daily_sentiment articles narrative)
                            (Sql.generate_series (t - P + 1) t)))
              x)
  end.

(** The articles the query of a request can see: those of the narrative
    dated in the span [lo .. hi]. *)
Definition visible (narrative : string) (lo hi : Z)
           (articles : list Backend.article) : list Backend.article :=
  filter (fun a => Backend.label_is a narrative
                   && Backend.between (Backend.published_at a) lo hi)
         articles.

(** The place of a colour on the scale red, gray, green. *)
Definition color_rank (color : string) : Z :=
  if String.eqb color "red" then 0
  else if String.eqb color "green" then 2
  else 1.

(** ** Moves and alerts *)

(** The move of horizon [hz] on the series of timestamps [ts] and intensities
    [ints], for the target [d]: [None] when [d] or the horizon date has no
    row. *)
Definition move_at (ts : list Z) (ints : list Q) (d hz : Z) : option Q :=
  match values_at (combine ts ints) d with
  | [] => None
  | a :: _ => stored_move ts ints d a hz
  end.

(** A move mapping with every move negated. *)
Definition negate_moves (moves : list (Z * option Q)) : list (Z * option Q) :=
  map (fun hm => (fst hm, option_map Qopp (snd hm))) moves.

(** [pd.DataFrame(metrics)] on the rows of a response, as the dashboard
    builds it: the dates arrive as the strings [isoformat] writes. *)
Definition frame_of_response (isoformat : Z -> string)
           (body : list Backend.Metric) : Utils.DataFrame :=
  {| Utils.df_date := Some (map (fun m => Utils.DStr (isoformat (Backend.date m))) body);
     Utils.df_intensity := map Backend.intensity body |}.

(** * Concrete data *)

Module Sample.

(** A numeric square root (Newton steps on rationals), to run the engine. *)
Fixpoint newton_sqrt (fuel : nat) (x g : Q) : Q :=
  match fuel with
  | O => g
  | S k => newton_sqrt k x (Qred ((g + x / g) / 2))
  end.

Definition sqrt_approx (x : Q) : Q :=
  if Qle_bool x 0 then 0%Q else newton_sqrt 6 x (Qred ((x + 1) / 2)).

(** An article of narrative ["fed"]. *)
Definition fed (i d : Z) (score : option Q) : Backend.article :=
  {| Backend.id := i;
     Backend.primary_label_v2 := Some "fed"%string;
     Backend.published_at := d;
     Backend.sentiment_score := score |}.

(** [k] articles on day [d]. *)
Definition burst (d : Z) (k : nat) : list Backend.article :=
  map (fun i => fed (d * 1000 + Z.of_nat i) d (Some (1 # 2))) (seq 0 k).

(** Counts 10, 12, 11, 9, 13, 50 on days 1 to 6. *)
Definition spike_db : list Backend.article :=
  burst 1 10 ++ burst 2 12 ++ burst 3 11 ++ burst 4 9 ++ burst 5 13 ++ burst 6 50.

(** Sentiment on days 100 and 102, no item on day 101. *)
Definition gap_db : list Backend.article :=
  [fed 1 100 (Some 1%Q); fed 2 102 (Some 2%Q)].

(** One item on day 102, without a sentiment score. *)
Definition unscored_db : list Backend.article :=
  [fed 7 102 None].

(** Three days with scored items, one of them listed twice. *)
Definition small_db : list Backend.article :=
  [fed 1 100 (Some 1%Q); fed 2 100 (Some (1 # 2)); fed 3 102 (Some 2%Q);
   fed 4 99 (Some (1 # 4)); fed 4 99 (Some (1 # 4))].

(** The rows of a response, and a row to stand for the head of an empty one. *)
Definition rows_of (r : Backend.response) : list Backend.Metric :=
  match r with Backend.HTTP_200 body => body | _ => [] end.

Definition no_metric : Backend.Metric :=
  {| Backend.date := 0; Backend.article_count := 0; Backend.rolling_mean := 0;
     Backend.rolling_std := 0; Backend.intensity := 0;
     Backend.sentiment_mean := None; Backend.intensity_percentile := 0;
     Backend.sentiment_percentile := None |}.

(** A date parser that knows three days of March 2024. *)
Definition parse_march (s : string) : option Z :=
  if String.eqb s "2024-03-10" then Some (19792 * Utils.NS_PER_DAY)
  else if String.eqb s "2024-03-09" then Some (19791 * Utils.NS_PER_DAY)
  else if String.eqb s "2024-03-05" then Some (19787 * Utils.NS_PER_DAY)
  else None.

(** A column conversion that reads every cell as [parse] reads it alone (what
    pandas does on a column whose strings have one format). *)
Fixpoint cellwise (parse : string -> option Z) (col : list Utils.datecell)
  : option (list Z) :=
  match col with
  | [] => Some []
  | c :: r =>
      match Utils.to_datetime_cell parse c, cellwise parse r with
      | Some t, Some r' => Some (t :: r')
      | _, _ => None
      end
  end.

Definition convert_march : list Utils.datecell -> option (list Z) :=
  cellwise parse_march.

Definition march_frame : Utils.DataFrame :=
  {| Utils.df_date := Some [Utils.DStr "2024-03-05"; Utils.DStr "2024-03-09";
                            Utils.DStr "2024-03-10"];
     Utils.df_intensity := [1; 3; 7]%Q |}.

(** A response with lookback, and its rows. *)
Definition small_response : Backend.response :=
  Backend.narrative_metrics sqrt_approx small_db 102 "fed" (Some 100) None 2 3 (1 # 4).

Definition small_body : list Backend.Metric := rows_of small_response.

(** The response for the last day alone, for a single-day percentile window,
    and for a narrative that no article carries. *)
Definition late_body : list Backend.Metric :=
  rows_of (Backend.narrative_metrics sqrt_approx small_db 102 "fed"
                                     (Some 102) None 2 3 (1 # 4)).

Definition single_body : list Backend.Metric :=
  rows_of (Backend.narrative_metrics sqrt_approx small_db 102 "fed"
                                     (Some 100) None 2 1 (1 # 4)).

Definition gold_body : list Backend.Metric :=
  rows_of (Backend.narrative_metrics sqrt_approx small_db 102 "gold"
                                     (Some 100) None 2 3 (1 # 4)).

(** The same table with an article of another narrative. *)
Definition mixed_db : list Backend.article :=
  small_db ++ [ {| Backend.id := 9; Backend.primary_label_v2 := Some "oil"%string;
                   Backend.published_at := 101; Backend.sentiment_score := None |} ].

(** Items on 9 and 10 March 2024, the response for those two days, and the
    frame the dashboard builds from it. *)
Definition march_db : list Backend.article :=
  [fed 1 19791 (Some (1 # 2)); fed 2 19792 (Some (1 # 4)); fed 3 19792 None].

Definition march_body : list Backend.Metric :=
  rows_of (Backend.narrative_metrics sqrt_approx march_db 19792 "fed"
                                     (Some 19791) None 1 1 (1 # 4)).

Definition format_march (d : Z) : string :=
  if d =? 19792 then "2024-03-10"
  else if d =? 19791 then "2024-03-09"
  else if d =? 19787 then "2024-03-05"
  else EmptyString.

(** [strptime] and [strftime] on the days 9 February and 10 March 2024. *)
Definition strptime_2024 (s : string) : option Z :=
  if String.eqb s "2024-03-10" then Some 19792
  else if String.eqb s "2024-02-09" then Some 19762
  else None.

Definition strftime_2024 (d : Z) : string :=
  if d =? 19792 then "2024-03-10"
  else if d =? 19762 then "2024-02-09"
  else EmptyString.

(** Frames without a date column, and with a date that does not parse. *)
Definition dateless_frame : Utils.DataFrame :=
  {| Utils.df_date := None; Utils.df_intensity := [1; 3; 7]%Q |}.

Definition broken_frame : Utils.DataFrame :=
  {| Utils.df_date := Some [Utils.DStr "2024-03-05"; Utils.DStr "yesterday"];
     Utils.df_intensity := [1; 3]%Q |}.

End Sample.

(** * Properties *)

(** ** Comparisons and true division *)

Lemma lt_spec (x y : Q) : Py.lt x y = true <-> (x < y)%Q.
Proof.
  unfold Py.lt. rewrite negb_true_iff. split; intro H.
  - apply Qnot_le_lt. intro L. apply Qle_bool_iff in L. congruence.
  - destruct (Qle_bool y x) eqn:E; [|reflexivity].
    apply Qle_bool_iff in E. exfalso. exact (Qlt_not_le _ _ H E).
Qed.

Lemma gt_spec (x y : Q) : Py.gt x y = true <-> (y < x)%Q.
Proof. exact (lt_spec y x). Qed.

Lemma lt_irrefl (x : Q) : Py.lt x x = false.
Proof.
  destruct (Py.lt x x) eqn:E; [|reflexivity].
  apply lt_spec in E. exfalso. exact (Qlt_irrefl _ E).
Qed.

Lemma lt_compat (x y v : Q) : (x == y)%Q -> Py.lt v x = Py.lt v y.
Proof.
  intro H.
  destruct (Py.lt v x) eqn:E1, (Py.lt v y) eqn:E2; try reflexivity.
  - apply lt_spec in E1. rewrite H in E1. apply lt_spec in E1. congruence.
  - apply lt_spec in E2. rewrite <- H in E2. apply lt_spec in E2. congruence.
Qed.

Lemma truediv_bounds (a b : Z) :
  0 <= a <= b -> 0 < b -> (0 <= Py.truediv a b <= 1)%Q.
Proof.
  intros Ha Hb. destruct b as [|p|p]; try lia.
  unfold Py.truediv, Qdiv, Qinv, Qmult, Qle; simpl. lia.
Qed.

Lemma truediv_zero (b : Z) : (Py.truediv 0 b == 0)%Q.
Proof. unfold Py.truediv, Qdiv. rewrite Qmult_0_l. reflexivity. Qed.

(** ** Counting *)

Lemma filter_length_le {A} (p : A -> bool) (l : list A) :
  (List.length (filter p l) <= List.length l)%nat.
Proof.
  induction l as [|a l IH]; simpl; [lia|].
  destruct (p a); simpl; lia.
Qed.

Lemma filter_length_lt {A} (p : A -> bool) (l : list A) (x : A) :
  In x l -> p x = false -> (List.length (filter p l) < List.length l)%nat.
Proof.
  induction l as [|a l IH]; simpl; [tauto|].
  intros [->|Hin] Hx.
  - rewrite Hx. pose proof (filter_length_le p l). lia.
  - specialize (IH Hin Hx). destruct (p a); simpl; lia.
Qed.

Lemma filter_none {A} (p : A -> bool) (l : list A) :
  (forall v, In v l -> p v = false) -> filter p l = [].
Proof.
  induction l as [|a l IH]; simpl; intro H; [reflexivity|].
  rewrite (H a (or_introl eq_refl)). apply IH. intros v Hv. apply H. now right.
Qed.

(** ** The percent rank *)

Lemma count_if_strictly_less (w : list Q) (x : Q) :
  Py.count_if (fun v => Py.lt v x) w = strictly_less w x.
Proof.
  unfold Py.count_if. induction w as [|v w IH]; [reflexivity|].
  cbn [filter strictly_less].
  destruct (Qlt_le_dec v x) as [L|L].
  - apply lt_spec in L. rewrite L. cbn [List.length].
    rewrite Nat2Z.inj_succ, IH. lia.
  - destruct (Py.lt v x) eqn:E; [|exact IH].
    apply lt_spec in E. exfalso. exact (Qlt_not_le _ _ E L).
Qed.

Lemma percent_rank_unfold (w : list Q) (x : Q) :
  Backend._percent_rank w x =
  if Py.len w <=? 1 then 0%Q
  else Py.truediv (strictly_less w x) (Py.len w - 1).
Proof.
  unfold Backend._percent_rank. destruct (Py.len w <=? 1); [reflexivity|].
  rewrite count_if_strictly_less. f_equal. lia.
Qed.

Lemma strictly_less_bound (w : list Q) (x : Q) :
  In x w -> 0 <= strictly_less w x <= Py.len w - 1.
Proof.
  intro Hin. rewrite <- count_if_strictly_less. unfold Py.count_if, Py.len.
  pose proof (filter_length_lt (fun v => Py.lt v x) w x Hin (lt_irrefl x)). lia.
Qed.

Lemma percent_rank_bounds (w : list Q) (x : Q) :
  In x w -> (0 <= Backend._percent_rank w x <= 1)%Q.
Proof.
  intro Hin. rewrite percent_rank_unfold. destruct (Py.len w <=? 1) eqn:E.
  - split; [apply Qle_refl | discriminate].
  - apply Z.leb_gt in E. apply truediv_bounds; [|lia].
    now apply strictly_less_bound.
Qed.

(** C2.  For a window [w] and a value [x] of it, [_percent_rank w x] is [0]
    when the window has at most one value and [(rank - 1) / (n - 1)]
    otherwise, where [rank] is one more than the number of window values
    strictly below [x]; values that tie get the same percentile, and a window
    of equal values gives [0]. *)
Theorem percent_rank_spec (w : list Q) (x : Q) (Hx : In x w) :
  let n := Py.len w in
  (n <= 1 -> Backend._percent_rank w x = 0%Q)
  /\ (2 <= n ->
      Backend._percent_rank w x = Py.truediv (rank w x - 1) (n - 1))
  /\ (forall y, In y w -> (y == x)%Q ->
                Backend._percent_rank w y = Backend._percent_rank w x)
  /\ ((forall v, In v w -> (v == x)%Q) ->
      forall y, In y w -> (Backend._percent_rank w y == 0)%Q).
Proof.
  intro n. subst n. repeat split.
  - intro H. rewrite percent_rank_unfold.
    apply Z.leb_le in H. now rewrite H.
  - intro H. rewrite percent_rank_unfold.
    assert (E : (Py.len w <=? 1) = false) by (apply Z.leb_gt; lia).
    rewrite E. unfold rank. f_equal. lia.
  - intros y _ Hyx. unfold Backend._percent_rank.
    destruct (Py.len w <=? 1); [reflexivity|].
    unfold Py.count_if.
    rewrite (filter_ext (fun v => Py.lt v y) (fun v => Py.lt v x)); [reflexivity|].
    intro v. now apply lt_compat.
  - intros Hall y Hy. unfold Backend._percent_rank.
    destruct (Py.len w <=? 1); [reflexivity|].
    unfold Py.count_if. rewrite filter_none.
    + simpl. apply truediv_zero.
    + intros v Hv. destruct (Py.lt v y) eqn:E; [|reflexivity].
      apply lt_spec in E. rewrite (Hall v Hv), (Hall y Hy) in E.
      exfalso. exact (Qlt_irrefl _ E).
Qed.

(** ** Alerts *)

Lemma detect_alerts_cons (hm : Z * option Q) (moves : list (Z * option Q)) (tau : Q) :
  Utils.detect_alerts (hm :: moves) tau =
  match snd hm with
  | Some m =>
      if Py.gt (Qabs m) tau
      then [ {| Utils.horizon := fst hm; Utils.move := m; Utils.abs_move := Qabs m |} ]
      else []
  | None => []
  end ++ Utils.detect_alerts moves tau.
Proof. reflexivity. Qed.

(** C5.  [detect_alerts] returns an alert for exactly the items of the move
    mapping whose move is present and of absolute value strictly above the
    threshold; an alert carries the horizon, the move as given and its
    absolute value; the alerts are those items, once each and in the
    mapping's order. *)
Theorem detect_alerts_spec (moves : list (Z * option Q)) (tau : Q) :
  (forall a,
      In a (Utils.detect_alerts moves tau) <->
      exists h m, In (h, Some m) moves /\ (tau < Qabs m)%Q
                  /\ a = {| Utils.horizon := h; Utils.move := m;
                            Utils.abs_move := Qabs m |})
  /\ map (fun a => (Utils.horizon a, Some (Utils.move a)))
         (Utils.detect_alerts moves tau)
     = filter (fun hm => match snd hm with
                         | Some m => Py.gt (Qabs m) tau
                         | None => false
                         end) moves.
Proof.
  split.
  - intro a. induction moves as [|[h0 [m0|]] moves IH].
    + simpl. split; [tauto|]. intros (h & m & [] & _).
    + rewrite detect_alerts_cons. cbn [fst snd]. rewrite in_app_iff, IH. split.
      * intros [Ha|(h & m & Hin & Hlt & ->)].
        -- destruct (Py.gt (Qabs m0) tau) eqn:E; [|destruct Ha].
           destruct Ha as [<-|[]]. exists h0, m0. apply gt_spec in E.
           repeat split; [now left | exact E].
        -- exists h, m. repeat split; [now right | exact Hlt].
      * intros (h & m & [Heq|Hin] & Hlt & ->).
        -- inversion Heq; subst. left. apply gt_spec in Hlt. rewrite Hlt. now left.
        -- right. exists h, m. repeat split; assumption.
    + rewrite detect_alerts_cons. cbn [fst snd app]. rewrite IH. split.
      * intros (h & m & Hin & Hlt & ->). exists h, m. repeat split; [now right | exact Hlt].
      * intros (h & m & [Heq|Hin] & Hlt & ->); [discriminate|].
        exists h, m. repeat split; assumption.
  - induction moves as [|[h0 [m0|]] moves IH]; [reflexivity| |].
    + rewrite detect_alerts_cons. cbn [fst snd filter]. rewrite map_app, IH.
      destruct (Py.gt (Qabs m0) tau); reflexivity.
    + rewrite detect_alerts_cons. cbn [fst snd filter app]. exact IH.
Qed.

(** ** The store is left as the caller has it *)

Lemma read_only_ret {A} (a : A) : read_only (Utils.ret a).
Proof. intro h. reflexivity. Qed.

Lemma read_only_raise {A} (e : Utils.exn) : read_only (@Utils.raise A e).
Proof. intro h. reflexivity. Qed.

Lemma read_only_load (r : Utils.ref) : read_only (Utils.load r).
Proof. intro h. unfold Utils.load. now destruct (nth_error h r). Qed.

Lemma read_only_bind {A B} (c : Utils.M A) (k : A -> Utils.M B) :
  read_only c -> (forall a, read_only (k a)) -> read_only (Utils.bind c k).
Proof.
  intros Hc Hk h. unfold Utils.bind. specialize (Hc h).
  destruct (c h) as [[e|a] h']; simpl in *; subst; [reflexivity|apply Hk].
Qed.

Lemma read_only_lift_parse {A} (x : option A) : read_only (Utils.lift_parse x).
Proof. destruct x; [apply read_only_ret | apply read_only_raise]. Qed.

Lemma read_only_getitem_date (r : Utils.ref) : read_only (Utils.getitem_date r).
Proof.
  apply read_only_bind; [apply read_only_load|].
  intro df. destruct (Utils.df_date df); [apply read_only_ret | apply read_only_raise].
Qed.

Lemma read_only_rows_at (r : Utils.ref) (t : Z) : read_only (Utils.rows_at r t).
Proof.
  apply read_only_bind; [apply read_only_getitem_date|]. intro col.
  apply read_only_bind; [apply read_only_load|]. intro df. apply read_only_ret.
Qed.

Lemma read_only_timedelta (days : Z) : read_only (Utils.timedelta days).
Proof.
  unfold Utils.timedelta.
  destruct (_ <=? _); [apply read_only_ret | apply read_only_raise].
Qed.

Lemma read_only_timestamp_sub (t delta : Z) : read_only (Utils.timestamp_sub t delta).
Proof.
  unfold Utils.timestamp_sub.
  destruct (_ && _); [apply read_only_ret | apply read_only_raise].
Qed.

Lemma read_only_horizon_loop (r : Utils.ref) (t : Z) (x : Q) (hs : list Z) :
  forall moves, read_only (Utils.horizon_loop r t x hs moves).
Proof.
  induction hs as [|hz hs IH]; intro moves; simpl.
  - apply read_only_ret.
  - apply read_only_bind; [apply read_only_timedelta|]. intro delta.
    apply read_only_bind; [apply read_only_timestamp_sub|]. intro horizon_date.
    apply read_only_bind; [apply read_only_rows_at|].
    intros [|b row]; apply IH.
Qed.

Lemma read_only_lookup parse (r : Utils.ref) (target : string) (hs : list Z) :
  read_only (lookup_phase parse r target hs).
Proof.
  apply read_only_bind; [apply read_only_lift_parse|]. intro t.
  apply read_only_bind; [apply read_only_rows_at|].
  intros [|x row]; [apply read_only_ret | apply read_only_horizon_loop].
Qed.

Lemma update_last (h : Utils.store) (df df' : Utils.DataFrame) :
  Utils.update (h ++ [df]) (List.length h) df' = h ++ [df'].
Proof. induction h as [|x h IH]; simpl; [reflexivity | now rewrite IH]. Qed.

Lemma firstn_length_app {A} (h ext : list A) : firstn (List.length h) (h ++ ext) = h.
Proof.
  rewrite firstn_app, Nat.sub_diag, firstn_all. simpl. apply app_nil_r.
Qed.

Lemma nth_error_last {A} (h : list A) (x : A) :
  nth_error (h ++ [x]) (List.length h) = Some x.
Proof. rewrite nth_error_app2, Nat.sub_diag by lia. reflexivity. Qed.

Lemma bind_ok {A B} (c : Utils.M A) (k : A -> Utils.M B) h a h' :
  c h = (inr a, h') -> Utils.bind c k h = k a h'.
Proof. intro E. unfold Utils.bind. now rewrite E. Qed.

Lemma bind_err {A B} (c : Utils.M A) (k : A -> Utils.M B) h e h' :
  c h = (inl e, h') -> Utils.bind c k h = (inl e, h').
Proof. intro E. unfold Utils.bind. now rewrite E. Qed.

Lemma load_ok (h : Utils.store) (r : Utils.ref) df :
  nth_error h r = Some df -> Utils.load r h = (inr df, h).
Proof. intro E. unfold Utils.load. now rewrite E. Qed.

Lemma has_date_ok (h : Utils.store) (r : Utils.ref) df :
  nth_error h r = Some df ->
  Utils.has_date r h
  = (inr (match Utils.df_date df with Some _ => true | None => false end), h).
Proof.
  intro E. unfold Utils.has_date. now rewrite (bind_ok _ _ _ _ _ (load_ok _ _ _ E)).
Qed.

Lemma copy_ok (h : Utils.store) (r : Utils.ref) df :
  nth_error h r = Some df ->
  Utils.copy r h = (inr (List.length h), h ++ [df]).
Proof.
  intro E. unfold Utils.copy. now rewrite (bind_ok _ _ _ _ _ (load_ok _ _ _ E)).
Qed.

Lemma getitem_date_ok (h : Utils.store) (r : Utils.ref) df col :
  nth_error h r = Some df -> Utils.df_date df = Some col ->
  Utils.getitem_date r h = (inr col, h).
Proof.
  intros E D. unfold Utils.getitem_date.
  rewrite (bind_ok _ _ _ _ _ (load_ok _ _ _ E)), D. reflexivity.
Qed.

Lemma setitem_date_last (h : Utils.store) df col :
  Utils.setitem_date (List.length h) col (h ++ [df])
  = (inr tt, h ++ [ {| Utils.df_date := Some col;
                       Utils.df_intensity := Utils.df_intensity df |} ]).
Proof.
  unfold Utils.setitem_date.
  rewrite (bind_ok _ _ _ _ _ (load_ok _ _ _ (nth_error_last h df))).
  unfold Utils.write. now rewrite update_last.
Qed.

Lemma run_dangling parse convert (h : Utils.store) (r : Utils.ref) target hs :
  nth_error h r = None ->
  Utils.calculate_horizon_moves parse convert r target hs h = (inl Utils.Dangling, h).
Proof.
  intro E. unfold Utils.calculate_horizon_moves, Utils.has_date, Utils.bind, Utils.load.
  now rewrite E.
Qed.

Lemma run_no_date parse convert (h : Utils.store) (r : Utils.ref) df target hs :
  nth_error h r = Some df -> Utils.df_date df = None ->
  Utils.calculate_horizon_moves parse convert r target hs h
  = lookup_phase parse r target hs h.
Proof.
  intros E D. unfold Utils.calculate_horizon_moves.
  rewrite (bind_ok _ _ _ _ _ (has_date_ok _ _ _ E)), D.
  erewrite bind_ok; [|reflexivity]. reflexivity.
Qed.

Lemma run_unparsed parse convert (h : Utils.store) (r : Utils.ref) df col target hs :
  nth_error h r = Some df -> Utils.df_date df = Some col ->
  Utils.to_datetime parse convert col = None ->
  Utils.calculate_horizon_moves parse convert r target hs h
  = (inl Utils.DateParseError, h ++ [df]).
Proof.
  intros E D P. unfold Utils.calculate_horizon_moves.
  rewrite (bind_ok _ _ _ _ _ (has_date_ok _ _ _ E)), D.
  erewrite bind_err; [reflexivity|].
  rewrite (bind_ok _ _ _ _ _ (copy_ok _ _ _ E)).
  rewrite (bind_ok _ _ _ _ _ (getitem_date_ok _ _ _ _ (nth_error_last h df) D)).
  rewrite P. reflexivity.
Qed.

Lemma run_converted parse convert (h : Utils.store) (r : Utils.ref) df col col'
      target hs :
  nth_error h r = Some df -> Utils.df_date df = Some col ->
  Utils.to_datetime parse convert col = Some col' ->
  Utils.calculate_horizon_moves parse convert r target hs h
  = lookup_phase parse (List.length h) target hs
      (h ++ [ {| Utils.df_date := Some col';
                 Utils.df_intensity := Utils.df_intensity df |} ]).
Proof.
  intros E D P. unfold Utils.calculate_horizon_moves.
  rewrite (bind_ok _ _ _ _ _ (has_date_ok _ _ _ E)), D.
  erewrite bind_ok; [reflexivity|].
  rewrite (bind_ok _ _ _ _ _ (copy_ok _ _ _ E)).
  rewrite (bind_ok _ _ _ _ _ (getitem_date_ok _ _ _ _ (nth_error_last h df) D)).
  rewrite P. unfold Utils.lift_parse.
  erewrite bind_ok; [|reflexivity].
  rewrite (bind_ok _ _ _ _ _ (setitem_date_last _ _ _)). reflexivity.
Qed.

(** C10.  Whatever [calculate_horizon_moves] returns or raises, every
    DataFrame that was in the store before the call, the caller's
    [metrics_df] among them, is in it unchanged after the call: the date
    column is converted in a copy. *)
Theorem calculate_horizon_moves_frame (parse : string -> option Z)
        (convert : list Utils.datecell -> option (list Z))
        (h : Utils.store) (metrics_df : Utils.ref) (target_date : string)
        (horizons : list Z) :
  firstn (List.length h)
         (snd (Utils.calculate_horizon_moves parse convert metrics_df target_date
                 horizons h))
  = h.
Proof.
  destruct (nth_error h metrics_df) as [df|] eqn:E.
  - destruct (Utils.df_date df) as [col|] eqn:D.
    + destruct (Utils.to_datetime parse convert col) as [col'|] eqn:P.
      * rewrite (run_converted _ _ _ _ _ _ _ _ _ E D P), read_only_lookup.
        apply firstn_length_app.
      * rewrite (run_unparsed _ _ _ _ _ _ _ _ E D P). apply firstn_length_app.
    + rewrite (run_no_date _ _ _ _ _ _ _ E D), read_only_lookup. apply firstn_all.
  - rewrite (run_dangling _ _ _ _ _ _ E). apply firstn_all.
Qed.

(** ** Dicts *)

Lemma dict_get_set {V} (d : list (Z * V)) (k k' : Z) (v : V) :
  Utils.dict_get (Utils.dict_set d k v) k'
  = if k =? k' then Some v else Utils.dict_get d k'.
Proof.
  induction d as [|[k0 v0] d IH]; simpl.
  - reflexivity.
  - destruct (k0 =? k) eqn:E0; simpl.
    + apply Z.eqb_eq in E0. subst k0. now destruct (k =? k').
    + rewrite IH. destruct (k0 =? k') eqn:E1; [|reflexivity].
      apply Z.eqb_eq in E1. subst k0. rewrite Z.eqb_sym, E0. reflexivity.
Qed.

Lemma dict_keys_set {V} (d : list (Z * V)) (k : Z) (v : V) :
  Utils.dict_keys (Utils.dict_set d k v)
  = if existsb (Z.eqb k) (Utils.dict_keys d) then Utils.dict_keys d
    else Utils.dict_keys d ++ [k].
Proof.
  unfold Utils.dict_keys. induction d as [|[k0 v0] d IH]; simpl; [reflexivity|].
  rewrite (Z.eqb_sym k k0). destruct (k0 =? k) eqn:E0; simpl; [reflexivity|].
  rewrite IH. now destruct (existsb (Z.eqb k) (map fst d)).
Qed.

Lemma existsb_eqb_In (k : Z) (l : list Z) : existsb (Z.eqb k) l = true <-> In k l.
Proof.
  rewrite existsb_exists. split.
  - intros (x & Hx & E). apply Z.eqb_eq in E. now subst.
  - intro H. exists k. split; [exact H | apply Z.eqb_refl].
Qed.

Lemma dict_keys_set_In {V} (d : list (Z * V)) (k k' : Z) (v : V) :
  In k' (Utils.dict_keys (Utils.dict_set d k v)) <-> k' = k \/ In k' (Utils.dict_keys d).
Proof.
  rewrite dict_keys_set. destruct (existsb _ _) eqn:E.
  - apply existsb_eqb_In in E. split; [tauto|]. intros [->|H]; assumption.
  - rewrite in_app_iff. simpl. split.
    + intros [H|[E'|[]]]; [now right | now left].
    + intros [->|H]; [right; now left | now left].
Qed.

Lemma dict_keys_set_NoDup {V} (d : list (Z * V)) (k : Z) (v : V) :
  NoDup (Utils.dict_keys d) -> NoDup (Utils.dict_keys (Utils.dict_set d k v)).
Proof.
  intro H. rewrite dict_keys_set. destruct (existsb _ _) eqn:E; [exact H|].
  apply NoDup_app; [exact H | repeat constructor; simpl; tauto |].
  intros x Hx [<-|[]]. apply existsb_eqb_In in Hx. congruence.
Qed.

Section DictFill.
Context {V : Type} (f : Z -> V).

Lemma fill_get (ks : list Z) : forall d k,
  Utils.dict_get (fill f ks d) k
  = if existsb (Z.eqb k) ks then Some (f k) else Utils.dict_get d k.
Proof.
  induction ks as [|k0 ks IH]; intros d k; simpl; [reflexivity|].
  unfold fill in *. rewrite IH, dict_get_set, (Z.eqb_sym k k0).
  destruct (k0 =? k) eqn:E; simpl.
  - apply Z.eqb_eq in E. subst. now destruct (existsb _ ks).
  - reflexivity.
Qed.

Lemma fill_keys (ks : list Z) : forall d k,
  In k (Utils.dict_keys (fill f ks d)) <-> In k (Utils.dict_keys d) \/ In k ks.
Proof.
  induction ks as [|k0 ks IH]; intros d k; simpl; [tauto|].
  unfold fill in *. rewrite IH, dict_keys_set_In. intuition congruence.
Qed.

Lemma fill_NoDup (ks : list Z) : forall d,
  NoDup (Utils.dict_keys d) -> NoDup (Utils.dict_keys (fill f ks d)).
Proof.
  induction ks as [|k0 ks IH]; intros d H; simpl; [exact H|].
  apply IH. now apply dict_keys_set_NoDup.
Qed.
End DictFill.

(** ** Horizon moves *)

Lemma values_at_In (series : list (Z * Q)) (t : Z) (x : Q) :
  In x (values_at series t) <-> In (t, x) series.
Proof.
  unfold values_at. rewrite in_map_iff. split.
  - intros ([t' x'] & <- & H). apply filter_In in H. destruct H as [H E].
    simpl in E. apply Z.eqb_eq in E. now subst.
  - intro H. exists (t, x). split; [reflexivity|].
    apply filter_In. split; [exact H | apply Z.eqb_refl].
Qed.

Lemma values_at_nil (series : list (Z * Q)) (t : Z) :
  ~ In t (map fst series) -> values_at series t = [].
Proof.
  intro H. destruct (values_at series t) as [|x l] eqn:E; [reflexivity|].
  exfalso. apply H. apply in_map_iff. exists (t, x). split; [reflexivity|].
  apply values_at_In. rewrite E. now left.
Qed.

Lemma values_at_unique (series : list (Z * Q)) (t : Z) (x : Q) :
  NoDup (map fst series) -> In (t, x) series -> values_at series t = [x].
Proof.
  induction series as [|[t0 x0] series IH]; simpl; [tauto|].
  intros ND [E|Hin]; inversion ND as [|? ? Hnot ND']; subst.
  - inversion E; subst. unfold values_at. simpl. rewrite Z.eqb_refl. simpl.
    f_equal. now apply values_at_nil.
  - unfold values_at. simpl. destruct (t0 =? t) eqn:E0.
    + apply Z.eqb_eq in E0. subst. exfalso. apply Hnot.
      apply in_map_iff. now exists (t, x).
    + now apply IH.
Qed.

Lemma to_datetime_all (parse : string -> option Z)
      (convert : list Utils.datecell -> option (list Z))
      (col : list Utils.datecell) (ts : list Z) :
  Forall (fun c => Utils.to_datetime_cell parse c <> None) col ->
  convert col = Some ts ->
  Utils.to_datetime parse convert col = Some (map Utils.DTime ts).
Proof.
  intros Hcells Hc. unfold Utils.to_datetime.
  replace (forallb (Utils.parses parse) col) with true; [now rewrite Hc|].
  symmetry. apply forallb_forall. intros c Hin.
  rewrite Forall_forall in Hcells. specialize (Hcells c Hin).
  unfold Utils.parses. now destruct (Utils.to_datetime_cell parse c).
Qed.

Lemma representable_spec (d hz : Z) :
  representable d hz = true ->
  Utils.timedelta hz = Utils.ret (horizon_ns hz)
  /\ Utils.timestamp_sub d (horizon_ns hz) = Utils.ret (d - horizon_ns hz).
Proof.
  unfold representable, Utils.timedelta, Utils.timestamp_sub, horizon_ns.
  rewrite !andb_true_iff. intros [[H1 H2] H3].
  now rewrite H1, H2, H3.
Qed.

Lemma converted_rows (ts : list Z) : forall (ints : list Q) (t : Z),
  map snd (filter (fun ci => Utils.cell_eq (fst ci) t)
                  (combine (map Utils.DTime ts) ints))
  = values_at (combine ts ints) t.
Proof.
  unfold values_at.
  induction ts as [|t0 ts IH]; intros [|x ints] t; simpl; try reflexivity.
  destruct (t0 =? t); simpl; now rewrite IH.
Qed.

Section Converted.
Variables (h : Utils.store) (r : Utils.ref) (ts : list Z) (ints : list Q).
Hypothesis Hr :
  nth_error h r = Some {| Utils.df_date := Some (map Utils.DTime ts);
                          Utils.df_intensity := ints |}.

Lemma rows_at_converted (t : Z) :
  Utils.rows_at r t h = (inr (values_at (combine ts ints) t), h).
Proof.
  unfold Utils.rows_at.
  rewrite (bind_ok _ _ _ _ _ (getitem_date_ok _ _ _ _ Hr eq_refl)).
  rewrite (bind_ok _ _ _ _ _ (load_ok _ _ _ Hr)).
  unfold Utils.ret. simpl. now rewrite converted_rows.
Qed.

Lemma horizon_loop_run (d : Z) (a : Q) (hs : list Z) :
  Forall (fun hz => representable d hz = true) hs ->
  forall moves,
    Utils.horizon_loop r d a hs moves h
    = (inr (fill (stored_move ts ints d a) hs moves), h).
Proof.
  induction 1 as [|hz hs Hhz _ IH]; intro moves; cbn [Utils.horizon_loop];
    [reflexivity|].
  destruct (representable_spec _ _ Hhz) as [Htd Hts].
  rewrite Htd. erewrite bind_ok; [|reflexivity].
  rewrite Hts. erewrite bind_ok; [|reflexivity].
  rewrite (bind_ok _ _ _ _ _ (rows_at_converted _)).
  unfold fill. cbn [fold_left]. fold (fill (stored_move ts ints d a) hs).
  unfold stored_move at 2.
  destruct (values_at _ _) as [|b row]; apply IH.
Qed.
End Converted.

(** C4.  On a series whose dates parse, as cells and as a column, and are
    pairwise distinct, with a target date [d] that parses and horizons whose
    dates the host can compute from [d], [calculate_horizon_moves] raises
    nothing and returns a dict whose keys are exactly the horizons asked for;
    horizon [hz] maps to [intensity(d) - intensity(d - hz days)] when both
    dates are in the series, and to [None] (never to a number) when one of
    them is missing, in particular for every horizon when [d] is missing (the
    horizons are then not looked at). *)
Theorem calculate_horizon_moves_spec
        (parse : string -> option Z)
        (convert : list Utils.datecell -> option (list Z))
        (h : Utils.store) (metrics_df : Utils.ref)
        (df : Utils.DataFrame) (col : list Utils.datecell) (ts : list Z)
        (target_date : string) (d : Z) (horizons : list Z) :
  nth_error h metrics_df = Some df ->
  Utils.df_date df = Some col ->
  Forall (fun c => Utils.to_datetime_cell parse c <> None) col ->
  convert col = Some ts ->
  parse target_date = Some d ->
  NoDup (map fst (combine ts (Utils.df_intensity df))) ->
  ~ In d (map fst (combine ts (Utils.df_intensity df)))
  \/ Forall (fun hz => representable d hz = true) horizons ->
  exists moves,
    fst (Utils.calculate_horizon_moves parse convert metrics_df target_date
           horizons h)
    = inr moves
    /\ (forall hz, In hz (Utils.dict_keys moves) <-> In hz horizons)
    /\ NoDup (Utils.dict_keys moves)
    /\ (forall hz a b,
           In hz horizons ->
           In (d, a) (combine ts (Utils.df_intensity df)) ->
           In (d - horizon_ns hz, b) (combine ts (Utils.df_intensity df)) ->
           Utils.dict_get moves hz = Some (Some (a - b)%Q))
    /\ (forall hz,
           In hz horizons ->
           ~ In d (map fst (combine ts (Utils.df_intensity df)))
           \/ ~ In (d - horizon_ns hz)
                   (map fst (combine ts (Utils.df_intensity df))) ->
           Utils.dict_get moves hz = Some None).
Proof.
  intros E D Hcells Hcol Ht ND Hrep.
  set (rows := combine ts (Utils.df_intensity df)) in *.
  rewrite (run_converted _ _ _ _ _ _ _ _ _ E D (to_datetime_all _ _ _ _ Hcells Hcol)).
  unfold lookup_phase. rewrite Ht. unfold Utils.lift_parse.
  erewrite bind_ok; [|reflexivity].
  rewrite (bind_ok _ _ _ _ _
             (rows_at_converted _ _ ts (Utils.df_intensity df) (nth_error_last _ _) d)).
  fold rows.
  assert (Hget : forall (f : Z -> option Q) hz, In hz horizons ->
             Utils.dict_get (fill f horizons []) hz = Some (f hz)).
  { intros f hz Hin. rewrite fill_get.
    apply existsb_eqb_In in Hin. now rewrite Hin. }
  assert (Hkeys : forall (f : Z -> option Q) hz,
             In hz (Utils.dict_keys (fill f horizons [])) <-> In hz horizons).
  { intros f hz. rewrite fill_keys. simpl. tauto. }
  destruct (values_at rows d) as [|a0 rest] eqn:Ev.
  - exists (fill (fun _ => None) horizons []).
    split; [reflexivity|]. split; [apply Hkeys|].
    split; [apply fill_NoDup; constructor|]. split.
    + intros hz a b _ Ha _. apply values_at_In in Ha. rewrite Ev in Ha. destruct Ha.
    + intros hz Hin _. now apply Hget.
  - assert (Hall : Forall (fun hz => representable d hz = true) horizons).
    { destruct Hrep as [Hno|Hall]; [|exact Hall].
      apply values_at_nil in Hno. fold rows in Hno. congruence. }
    rewrite (horizon_loop_run _ _ ts (Utils.df_intensity df) (nth_error_last _ _)
               _ _ _ Hall).
    exists (fill (stored_move ts (Utils.df_intensity df) d a0) horizons []).
    split; [reflexivity|]. split; [apply Hkeys|].
    split; [apply fill_NoDup; constructor|]. split.
    + intros hz a b Hin Ha Hb. rewrite Hget by exact Hin.
      pose proof (values_at_unique _ _ _ ND Ha) as Ua. fold rows in Ua.
      rewrite Ev in Ua. inversion Ua; subst.
      unfold stored_move. fold rows. now rewrite (values_at_unique _ _ _ ND Hb).
    + intros hz Hin [Hd|Hd]; rewrite Hget by exact Hin.
      * apply values_at_nil in Hd. fold rows in Hd. congruence.
      * unfold stored_move. fold rows. now rewrite (values_at_nil _ _ Hd).
Qed.

(** ** Lists *)

Lemma filter_map_comm {A B} (f : A -> B) (p : B -> bool) (l : list A) :
  filter p (map f l) = map f (filter (fun x => p (f x)) l).
Proof.
  induction l as [|a l IH]; simpl; [reflexivity|].
  destruct (p (f a)); simpl; now rewrite IH.
Qed.

Lemma combine_map_both {A B C} (f : A -> B) (g : A -> C) (l : list A) :
  combine (map f l) (map g l) = map (fun x => (f x, g x)) l.
Proof. induction l as [|a l IH]; simpl; [reflexivity | now rewrite IH]. Qed.

Lemma present_map_Some {A B} (f : A -> B) (l : list A) :
  present (map (fun x => Some (f x)) l) = map f l.
Proof. induction l as [|a l IH]; simpl; [reflexivity | now rewrite IH]. Qed.

Lemma present_In {A} (l : list (option A)) (x : A) :
  In x (present l) <-> In (Some x) l.
Proof.
  induction l as [|[a|] l IH]; simpl; [tauto| |].
  - rewrite IH. split; intros [H|H]; try (now right); left; congruence.
  - rewrite IH. split; [now right | intros [H|H]; [discriminate | exact H]].
Qed.

Lemma filter_eqb_NoDup (l : list Z) (c : Z) :
  NoDup l -> filter (fun d => c =? d) l = if existsb (Z.eqb c) l then [c] else [].
Proof.
  induction l as [|d l IH]; simpl; [reflexivity|].
  intro ND. inversion ND as [|? ? Hnot ND']; subst.
  destruct (c =? d) eqn:E; simpl.
  - apply Z.eqb_eq in E. subst d. rewrite IH by exact ND'.
    destruct (existsb (Z.eqb c) l) eqn:E'; [|reflexivity].
    apply existsb_eqb_In in E'. contradiction.
  - now apply IH.
Qed.

(** ** [SELECT DISTINCT] *)

Lemma distinct_incl {A} (eqb : A -> A -> bool) (l : list A) (x : A) :
  In x (Sql.distinct eqb l) -> In x l.
Proof.
  unfold Sql.distinct. induction l as [|a l IH]; simpl; [tauto|].
  destruct (existsb (eqb a) _); simpl; intuition.
Qed.

Lemma distinct_covers {A} (eqb : A -> A -> bool) (l : list A) (x : A) :
  In x l -> exists y, In y (Sql.distinct eqb l) /\ (y = x \/ eqb x y = true).
Proof.
  unfold Sql.distinct. induction l as [|a l IH]; simpl; [tauto|].
  intros [->|Hin].
  - destruct (existsb (eqb x) _) eqn:E.
    + apply existsb_exists in E. destruct E as (y & Hy & Ey). exists y. tauto.
    + exists x. split; [now left | now left].
  - destruct (IH Hin) as (y & Hy & Hxy). exists y. split; [|exact Hxy].
    destruct (existsb (eqb a) _); [exact Hy | now right].
Qed.

Lemma distinct_Z_In (l : list Z) (x : Z) : In x (Sql.distinct Z.eqb l) <-> In x l.
Proof.
  split; [apply distinct_incl|]. intro H.
  destruct (distinct_covers Z.eqb l x H) as (y & Hy & [->|E]); [exact Hy|].
  apply Z.eqb_eq in E. now subst.
Qed.

Lemma distinct_Z_NoDup (l : list Z) : NoDup (Sql.distinct Z.eqb l).
Proof.
  unfold Sql.distinct. induction l as [|a l IH]; simpl; [constructor|].
  destruct (existsb (Z.eqb a) _) eqn:E; [exact IH|].
  constructor; [|exact IH]. intro H. apply existsb_eqb_In in H. congruence.
Qed.

(** ** [generate_series] *)

Lemma generate_series_length (a b : Z) :
  List.length (Sql.generate_series a b) = Z.to_nat (b - a + 1).
Proof. unfold Sql.generate_series. now rewrite length_map, length_seq. Qed.

(** ** [ORDER BY] on rows that already are in order *)

Lemma order_by_sorted {A} (key : A -> Z) (l : list A) :
  Sorted (fun x y => key x <= key y) l -> Sql.order_by key l = l.
Proof.
  unfold Sql.order_by.
  induction 1 as [|x l Hs IH Hd]; simpl; [reflexivity|].
  rewrite IH.
  destruct Hd as [|y l Hxy]; simpl; [reflexivity|].
  apply Z.leb_le in Hxy. now rewrite Hxy.
Qed.

Lemma sorted_map_seq {A} (key : A -> Z) (g : nat -> A) (a : Z) :
  (forall k, key (g k) = a + Z.of_nat k) ->
  forall n s, Sorted (fun x y => key x <= key y) (map g (seq s n)).
Proof.
  intros Hk. induction n as [|n IH]; intro s; simpl; constructor.
  - apply IH.
  - destruct n; simpl; constructor. rewrite !Hk. lia.
Qed.

Lemma numbered_map_seq {A} (g : nat -> A) (n : nat) :
  Sql.numbered (map g (seq 0 n)) = map (fun k => (Z.of_nat k, g k)) (seq 0 n).
Proof.
  unfold Sql.numbered. rewrite length_map, length_seq. apply combine_map_both.
Qed.

(** ** The dense daily series *)

Lemma flat_map_single {A B} (f : A -> list B) (g : A -> B) (l : list A) :
  (forall x, f x = [g x]) -> flat_map f l = map g l.
Proof.
  intro H. induction l as [|a l IH]; simpl; [reflexivity|].
  now rewrite H, IH.
Qed.

Lemma daily_series_dense (items : list Backend.item) (calendar : list Z) :
  Backend.daily_series calendar (Backend.daily_agg items)
  = map (day_row items) calendar.
Proof.
  unfold Backend.daily_series. apply flat_map_single. intro c.
  unfold Backend.daily_agg. rewrite filter_map_comm. cbn [Backend.agg_date].
  rewrite filter_eqb_NoDup by apply distinct_Z_NoDup.
  destruct (existsb _ _) eqn:E; [reflexivity|]. simpl.
  unfold day_row. replace (day_items items c) with (@nil Backend.item); [reflexivity|].
  symmetry. apply filter_none. intros it Hit.
  destruct (Backend.item_date it =? c) eqn:Ec; [|reflexivity].
  apply Z.eqb_eq in Ec. subst c.
  assert (H : In (Backend.item_date it) (Sql.distinct Z.eqb (map Backend.item_date items))).
  { apply distinct_Z_In. now apply in_map. }
  apply existsb_eqb_In in H. congruence.
Qed.

Section Fetch.
Variable sqrt_dp : Q -> Q.
Variables (articles : list Backend.article) (narrative : string).
Variables (calc_start end_date win : Z) (eps : Q).

Let items := Backend.daily_items articles narrative calc_start end_date.
Let n := Z.to_nat (end_date - calc_start + 1).

Lemma daily_series_span :
  Backend.daily_series (Sql.generate_series calc_start end_date)
                       (Backend.daily_agg items)
  = dense_series articles narrative calc_start end_date.
Proof.
  rewrite daily_series_dense. unfold Sql.generate_series, dense_series.
  now rewrite map_map.
Qed.

Lemma fetch_rows :
  Backend.fetch sqrt_dp articles win narrative calc_start end_date eps
  = map (nth_db_row sqrt_dp articles narrative calc_start end_date win eps) (seq 0 n).
Proof.
  unfold Backend.fetch. fold items. rewrite daily_series_span.
  unfold Backend.select_intensity, Backend.rolling_stats.
  rewrite (order_by_sorted Backend.s_date
             (dense_series articles narrative calc_start end_date))
    by (apply (sorted_map_seq _ _ calc_start); reflexivity).
  unfold dense_series at 2. rewrite numbered_map_seq, !map_map.
  apply order_by_sorted.
  apply (sorted_map_seq _ _ calc_start). reflexivity.
Qed.
End Fetch.

(** ** The Python loops over the fetched rows *)

Lemma index_map_seq {A} (d : A) (g : nat -> A) (n k : nat) :
  (k < n)%nat -> Py.index d (map g (seq 0 n)) (Z.of_nat k) = g k.
Proof.
  intro Hk. unfold Py.index. rewrite Nat2Z.id.
  rewrite (nth_indep _ d (g 0%nat)) by now rewrite length_map, length_seq.
  rewrite map_nth, seq_nth by exact Hk. reflexivity.
Qed.

Lemma range_len_map_seq {A} (g : nat -> A) (n : nat) :
  Py.range (Py.len (map g (seq 0 n))) = map Z.of_nat (seq 0 n).
Proof.
  unfold Py.range, Py.len. now rewrite length_map, length_seq, Nat2Z.id.
Qed.

Lemma flat_map_guard {A B} (p : A -> bool) (f : A -> B) (l : list A) :
  flat_map (fun x => if p x then [f x] else []) l = map f (filter p l).
Proof.
  induction l as [|a l IH]; simpl; [reflexivity|].
  destruct (p a); simpl; now rewrite IH.
Qed.

Lemma flat_map_ext_In {A B} (f g : A -> list B) (l : list A) :
  (forall x, In x l -> f x = g x) -> flat_map f l = flat_map g l.
Proof.
  induction l as [|a l IH]; simpl; intro H; [reflexivity|].
  rewrite (H a (or_introl eq_refl)), IH; [reflexivity|].
  intros x Hx. apply H. now right.
Qed.

Lemma flat_map_map {A B C} (h : A -> B) (f : B -> list C) (l : list A) :
  flat_map f (map h l) = flat_map (fun x => f (h x)) l.
Proof. induction l as [|a l IH]; simpl; [reflexivity | now rewrite IH]. Qed.

Section Columns.
Variable sqrt_dp : Q -> Q.
Variables (articles : list Backend.article) (narrative : string).
Variables (calc_start end_date win pwin : Z) (eps : Q).

Let n := Z.to_nat (end_date - calc_start + 1).
Let c := Backend.compute_columns sqrt_dp articles narrative calc_start end_date win eps.
Let row := nth_db_row sqrt_dp articles narrative calc_start end_date win eps.

Lemma columns_dates : Backend.dates c = map (nth_day calc_start) (seq 0 n).
Proof.
  unfold c, Backend.compute_columns, Backend.read_rows. cbn [Backend.dates].
  rewrite fetch_rows, map_map. reflexivity.
Qed.


Lemma columns_counts :
  Backend.counts c = map (fun k => Backend.row_article_count (row k)) (seq 0 n).
Proof.
  unfold c, Backend.compute_columns, Backend.read_rows. cbn [Backend.counts].
  now rewrite fetch_rows, map_map.
Qed.

Lemma columns_rmean :
  Backend.rmean c
  = map (fun k => Py.float_or 0 (Backend.row_rolling_mean (row k))) (seq 0 n).
Proof.
  unfold c, Backend.compute_columns, Backend.read_rows. cbn [Backend.rmean].
  now rewrite fetch_rows, map_map.
Qed.

Lemma columns_rstd :
  Backend.rstd c
  = map (fun k => Py.float_or 0 (Backend.row_rolling_std (row k))) (seq 0 n).
Proof.
  unfold c, Backend.compute_columns, Backend.read_rows. cbn [Backend.rstd].
  now rewrite fetch_rows, map_map.
Qed.

Lemma columns_intensities :
  Backend.intensities c
  = map (fun k => Py.float_or 0 (Backend.row_intensity (row k))) (seq 0 n).
Proof.
  unfold c, Backend.compute_columns, Backend.read_rows. cbn [Backend.intensities].
  now rewrite fetch_rows, map_map.
Qed.

Lemma columns_sentiments :
  Backend.sentiments c
  = map (fun k => Backend.row_sentiment_mean (row k)) (seq 0 n).
Proof.
  unfold c, Backend.compute_columns, Backend.read_rows. cbn [Backend.sentiments].
  now rewrite fetch_rows, map_map.
Qed.

Lemma intensity_pcts_at (k : nat) :
  (k < n)%nat ->
  Py.index 0%Q (Backend.intensity_pcts pwin c) (Z.of_nat k)
  = Backend.intensity_percentile (metric_at sqrt_dp articles narrative calc_start end_date win pwin eps k).
Proof.
  intro Hk. unfold Backend.intensity_pcts.
  rewrite columns_dates, range_len_map_seq, map_map, index_map_seq by exact Hk.
  cbn [metric_at Backend.intensity_percentile]. unfold trailing. f_equal.
  rewrite columns_intensities.
  exact (index_map_seq _ (fun k => Py.float_or 0 (Backend.row_intensity (row k)))
                       n k Hk).
Qed.

Lemma sentiment_pcts_at (k : nat) :
  (k < n)%nat ->
  Py.index None (Backend.sentiment_pcts pwin c) (Z.of_nat k)
  = Backend.sentiment_percentile (metric_at sqrt_dp articles narrative calc_start end_date win pwin eps k).
Proof.
  intro Hk. unfold Backend.sentiment_pcts.
  rewrite columns_dates, range_len_map_seq, map_map, index_map_seq by exact Hk.
  cbn [metric_at Backend.sentiment_percentile]. unfold trailing.
  replace (Py.index None (Backend.sentiments c) (Z.of_nat k))
    with (Backend.row_sentiment_mean (row k)); [reflexivity|].
  rewrite columns_sentiments. symmetry.
  exact (index_map_seq _ (fun k => Backend.row_sentiment_mean (row k)) n k Hk).
Qed.

Lemma build_metrics_rows (start_date : Z) :
  Backend.build_metrics start_date end_date c
                        (Backend.intensity_pcts pwin c)
                        (Backend.sentiment_pcts pwin c)
  = map (metric_at sqrt_dp articles narrative calc_start end_date win pwin eps)
        (filter (fun k => (start_date <=? nth_day calc_start k)
                          && (nth_day calc_start k <=? end_date))
                (seq 0 n)).
Proof.
  unfold Backend.build_metrics, Py.enumerate.
  rewrite columns_dates at 1 2. rewrite range_len_map_seq, combine_map_both.
  rewrite flat_map_map. cbn [fst snd].
  rewrite <- flat_map_guard. apply flat_map_ext_In.
  intros k Hk. apply in_seq in Hk. destruct Hk as [_ Hk]. simpl in Hk.
  destruct (_ && _); [|reflexivity].
  rewrite intensity_pcts_at, sentiment_pcts_at by exact Hk.
  rewrite columns_counts, columns_rmean, columns_rstd, columns_intensities,
    columns_sentiments.
  rewrite (index_map_seq _ (fun k => Backend.row_article_count (row k)) n k Hk).
  rewrite (index_map_seq _ (fun k => Py.float_or 0 (Backend.row_rolling_mean (row k))) n k Hk).
  rewrite (index_map_seq _ (fun k => Py.float_or 0 (Backend.row_rolling_std (row k))) n k Hk).
  rewrite (index_map_seq _ (fun k => Py.float_or 0 (Backend.row_intensity (row k))) n k Hk).
  rewrite (index_map_seq _ (fun k => Backend.row_sentiment_mean (row k)) n k Hk).
  reflexivity.
Qed.
End Columns.

(** ** The items of one day *)

Lemma distinct_filter {A} (eqb : A -> A -> bool) (p : A -> bool) (l : list A) :
  (forall x y, eqb x y = true -> p x = p y) ->
  filter p (Sql.distinct eqb l) = Sql.distinct eqb (filter p l).
Proof.
  intro Hp. unfold Sql.distinct.
  induction l as [|x l IH]; simpl; [reflexivity|].
  assert (Hex : p x = true ->
                existsb (eqb x) (fold_right (fun x acc => if existsb (eqb x) acc then acc else x :: acc) [] l)
                = existsb (eqb x) (fold_right (fun x acc => if existsb (eqb x) acc then acc else x :: acc) [] (filter p l))).
  { intro Hx. rewrite <- IH.
    generalize (fold_right (fun x acc => if existsb (eqb x) acc then acc else x :: acc) [] l).
    intro acc. induction acc as [|y acc IHa]; simpl; [reflexivity|].
    destruct (eqb x y) eqn:E.
    - rewrite <- (Hp _ _ E), Hx. simpl. now rewrite E.
    - simpl. destruct (p y); simpl; [rewrite E; simpl|]; exact IHa. }
  destruct (p x) eqn:Hx.
  - simpl. rewrite <- (Hex eq_refl).
    destruct (existsb (eqb x) _); simpl; [exact IH | now rewrite Hx, IH].
  - destruct (existsb (eqb x) _); simpl; [exact IH | now rewrite Hx].
Qed.

Lemma filter_filter {A} (p q : A -> bool) (l : list A) :
  filter p (filter q l) = filter (fun x => q x && p x) l.
Proof.
  induction l as [|a l IH]; simpl; [reflexivity|].
  destruct (q a); simpl; [destruct (p a)|]; now rewrite IH.
Qed.

Lemma day_items_span (articles : list Backend.article) (narrative : string)
      (a b d : Z) :
  a <= d <= b ->
  day_items (Backend.daily_items articles narrative a b) d
  = items_on articles narrative d.
Proof.
  intro Hd. unfold day_items, items_on, Backend.daily_items.
  rewrite distinct_filter.
  - f_equal. rewrite filter_map_comm. cbn [Backend.item_date]. f_equal.
    rewrite filter_filter. apply filter_ext. intro x.
    unfold Backend.between.
    destruct (Backend.label_is x narrative); simpl; [|reflexivity].
    destruct (Backend.published_at x =? d) eqn:E.
    + apply Z.eqb_eq in E. rewrite E.
      replace (a <=? d) with true by (symmetry; apply Z.leb_le; lia).
      replace (d <=? b) with true by (symmetry; apply Z.leb_le; lia).
      now rewrite Z.leb_refl.
    + rewrite andb_false_r. symmetry. apply andb_false_iff.
      apply Z.eqb_neq in E.
      destruct (d <=? Backend.published_at x) eqn:E1; [right|now left].
      apply Z.leb_le in E1. apply Z.leb_gt. lia.
  - intros x y E. unfold Backend.item_eqb in E.
    apply andb_true_iff in E. destruct E as [E _].
    apply andb_true_iff in E. destruct E as [_ E].
    apply Z.eqb_eq in E. now rewrite E.
Qed.

Lemma day_row_span (articles : list Backend.article) (narrative : string)
      (a b d : Z) :
  a <= d <= b ->
  day_row (Backend.daily_items articles narrative a b) d
  = {| Backend.s_date := d;
       Backend.s_article_count := daily_count articles narrative d;
       Backend.s_sentiment_mean := daily_sentiment articles narrative d |}.
Proof.
  intro Hd. unfold day_row. now rewrite day_items_span by exact Hd.
Qed.

(** ** Ranges of row numbers *)

Lemma filter_seq_interval (A B : Z) (n : nat) :
  filter (fun j => (A <=? Z.of_nat j) && (Z.of_nat j <=? B)) (seq 0 n)
  = seq (Z.to_nat (Z.max 0 A))
        (Z.to_nat (Z.min B (Z.of_nat n - 1) - Z.max 0 A + 1)).
Proof.
  induction n as [|n IH].
  - assert (E : Z.to_nat (Z.min B (Z.of_nat 0 - 1) - Z.max 0 A + 1) = 0%nat) by lia.
    rewrite E. reflexivity.
  - rewrite seq_S, filter_app, IH. cbn [filter Nat.add].
    destruct ((A <=? Z.of_nat n) && (Z.of_nat n <=? B)) eqn:E.
    + apply andb_true_iff in E. destruct E as [E1 E2].
      apply Z.leb_le in E1. apply Z.leb_le in E2.
      replace (Z.to_nat (Z.min B (Z.of_nat (S n) - 1) - Z.max 0 A + 1))
        with (S (Z.to_nat (Z.min B (Z.of_nat n - 1) - Z.max 0 A + 1))) by lia.
      rewrite seq_S. f_equal. f_equal. lia.
    + rewrite app_nil_r. apply andb_false_iff in E.
      destruct E as [E|E]; [apply Z.leb_gt in E | apply Z.leb_gt in E].
      * replace (Z.to_nat (Z.min B (Z.of_nat (S n) - 1) - Z.max 0 A + 1)) with 0%nat by lia.
        replace (Z.to_nat (Z.min B (Z.of_nat n - 1) - Z.max 0 A + 1)) with 0%nat by lia.
        reflexivity.
      * f_equal. lia.
Qed.

Lemma firstn_seq_le (k : nat) : forall s len,
  (k <= len)%nat -> firstn k (seq s len) = seq s k.
Proof.
  induction k as [|k IH]; intros s [|len] H; simpl; try reflexivity; [lia|].
  f_equal. apply IH. lia.
Qed.

Lemma slice_map_seq {A} (g : nat -> A) (n a b : nat) :
  (a <= b <= n)%nat ->
  Py.slice (map g (seq 0 n)) (Z.of_nat a) (Z.of_nat b) = map g (seq a (b - a)).
Proof.
  intro H. unfold Py.slice, Py.len, Py.clip. rewrite length_map, length_seq.
  replace (Z.of_nat a <? 0) with false by (symmetry; apply Z.ltb_ge; lia).
  replace (Z.of_nat b <? 0) with false by (symmetry; apply Z.ltb_ge; lia).
  rewrite !Z.min_l by lia.
  rewrite <- Nat2Z.inj_sub, !Nat2Z.id by lia.
  rewrite skipn_map, firstn_map, skipn_seq, firstn_seq_le by lia.
  reflexivity.
Qed.

Lemma map_seq_from {A} (g : nat -> A) (a len : nat) :
  map g (seq a len) = map (fun j => g (a + j)%nat) (seq 0 len).
Proof.
  revert a. induction len as [|len IH]; intro a; simpl; [reflexivity|].
  rewrite Nat.add_0_r. f_equal. rewrite IH, <- seq_shift, map_map.
  apply map_ext. intro j. f_equal. lia.
Qed.

(** ** The rolling baseline *)

Section Rows.
Variable sqrt_dp : Q -> Q.
Variables (articles : list Backend.article) (narrative : string).
Variables (calc_start end_date win : Z) (eps : Q).

Let n := Z.to_nat (end_date - calc_start + 1).
Let items := Backend.daily_items articles narrative calc_start end_date.
Let srow := nth_series_row articles narrative calc_start end_date.
Let series := dense_series articles narrative calc_start end_date.
Let row := nth_db_row sqrt_dp articles narrative calc_start end_date win eps.

Lemma nth_series_row_day (k : nat) :
  (k < n)%nat ->
  srow k
  = {| Backend.s_date := nth_day calc_start k;
       Backend.s_article_count := daily_count articles narrative (nth_day calc_start k);
       Backend.s_sentiment_mean := daily_sentiment articles narrative (nth_day calc_start k) |}.
Proof.
  intro Hk. unfold srow, nth_series_row. apply day_row_span.
  unfold nth_day. subst n. lia.
Qed.

Lemma frame_rows (k : nat) :
  Sql.rows_between_preceding series (Z.of_nat k) win 1
  = map srow (seq (Z.to_nat (Z.max 0 (Z.of_nat k - win)))
                  (Z.to_nat (Z.min (Z.of_nat k - 1) (Z.of_nat n - 1)
                             - Z.max 0 (Z.of_nat k - win) + 1))).
Proof.
  unfold Sql.rows_between_preceding, series, dense_series.
  rewrite numbered_map_seq, filter_map_comm, map_map. cbn [fst snd].
  fold n. rewrite filter_seq_interval. reflexivity.
Qed.

Lemma frame_prior (k : nat) :
  (k < n)%nat ->
  map Backend.s_article_count
      (Sql.rows_between_preceding series (Z.of_nat k) win 1)
  = prior_counts articles narrative calc_start (nth_day calc_start k) win.
Proof.
  intro Hk. rewrite frame_rows, map_map. unfold prior_counts, Sql.generate_series.
  rewrite map_map, map_seq_from.
  replace (Z.to_nat (nth_day calc_start k - 1
                     - Z.max calc_start (nth_day calc_start k - win) + 1))
    with (Z.to_nat (Z.min (Z.of_nat k - 1) (Z.of_nat n - 1)
                    - Z.max 0 (Z.of_nat k - win) + 1))
    by (unfold nth_day; lia).
  apply map_ext_in. intros j Hj. apply in_seq in Hj.
  rewrite nth_series_row_day by lia. cbn [Backend.s_article_count].
  f_equal. unfold nth_day. lia.
Qed.

Lemma prior_length (k : nat) :
  (k < n)%nat ->
  Py.len (prior_counts articles narrative calc_start (nth_day calc_start k) win)
  = Z.min (Z.of_nat k) (Z.max 0 win).
Proof.
  intro Hk. unfold Py.len, prior_counts.
  rewrite length_map, generate_series_length. unfold nth_day. lia.
Qed.

Lemma frame_values (k : nat) :
  (k < n)%nat ->
  present (Backend.frame_counts
             (Sql.rows_between_preceding series (Z.of_nat k) win 1))
  = map inject_Z (prior_counts articles narrative calc_start (nth_day calc_start k) win).
Proof.
  intro Hk. unfold Backend.frame_counts.
  rewrite present_map_Some, <- frame_prior by exact Hk. now rewrite map_map.
Qed.

Lemma avg_values (xs : list Z) (col : list (option Q)) :
  present col = map inject_Z xs ->
  Py.float_or 0 (Sql.AVG col) = if Py.len xs =? 0 then 0%Q else mean xs.
Proof.
  intro E. unfold Sql.AVG. rewrite E.
  destruct xs as [|x xs]; [reflexivity|].
  change (Py.len (x :: xs) =? 0) with false.
  cbn [map Py.float_or]. unfold mean, Py.len.
  cbn [map List.length]. now rewrite length_map.
Qed.

Lemma stddev_values (xs : list Z) (col : list (option Q)) :
  present col = map inject_Z xs ->
  Py.float_or 0 (Sql.STDDEV_SAMP sqrt_dp col) = sample_std sqrt_dp xs.
Proof.
  intro E. unfold Sql.STDDEV_SAMP, sample_std, mean, Py.len.
  rewrite E, length_map, map_map.
  destruct (Z.of_nat (List.length xs) <? 2); reflexivity.
Qed.

Lemma count_values (xs : list Z) (col : list (option Q)) :
  present col = map inject_Z xs -> Sql.COUNT col = Py.len xs.
Proof. intro E. unfold Sql.COUNT, Py.len. now rewrite E, length_map. Qed.

Lemma db_row_day (k : nat) :
  (k < n)%nat ->
  let t := nth_day calc_start k in
  let prior := prior_counts articles narrative calc_start t win in
  Backend.row_narrative_date (row k) = t
  /\ Backend.row_article_count (row k) = daily_count articles narrative t
  /\ Backend.row_sentiment_mean (row k) = daily_sentiment articles narrative t
  /\ Py.float_or 0 (Backend.row_rolling_mean (row k))
     = (if Py.len prior =? 0 then 0%Q else mean prior)
  /\ Py.float_or 0 (Backend.row_rolling_std (row k)) = sample_std sqrt_dp prior
  /\ Py.float_or 0 (Backend.row_intensity (row k))
     = (if Py.len prior =? 0 then 0%Q
        else ((inject_Z (daily_count articles narrative t) - mean prior)
              / Qmax (sample_std sqrt_dp prior) eps)%Q).
Proof.
  intros Hk t prior.
  pose proof (frame_values k Hk) as Hv. fold t prior in Hv.
  unfold row, nth_db_row, Backend.select_row, Backend.window_stats.
  cbn [Backend.row_narrative_date Backend.row_article_count
       Backend.row_sentiment_mean Backend.row_rolling_mean
       Backend.row_rolling_std Backend.row_intensity fst snd
       Backend.r_date Backend.r_article_count Backend.r_sentiment_mean].
  fold srow series. rewrite (nth_series_row_day k Hk).
  cbn [Backend.s_date Backend.s_article_count Backend.s_sentiment_mean].
  fold t. repeat split.
  - now apply avg_values.
  - now apply stddev_values.
  - unfold Backend.intensity_case.
    cbn [Backend.r_baseline_n Backend.r_article_count Backend.r_rolling_mean
         Backend.r_rolling_std Py.float_or].
    rewrite (count_values _ _ Hv).
    destruct (Py.len prior =? 0) eqn:E0; [reflexivity|].
    pose proof (avg_values _ _ Hv) as Ha. rewrite E0 in Ha.
    pose proof (stddev_values _ _ Hv) as Hs.
    unfold Py.float_or in Ha, Hs. unfold Sql.COALESCE, Sql.GREATEST.
    now rewrite Ha, Hs.
Qed.
End Rows.

(** C1.  For every day [t] of the dense daily series ([calc_start .. end_date]),
    with [prior] the counts of the days [t - W .. t - 1] of the series (day [t]
    itself excluded): [baseline_n] is their number, at most [W] and smaller
    near the start; [rolling_mean] is their mean ([0] without prior days);
    [rolling_std] is their sample standard deviation, [0] for fewer than two
    values; and [intensity] is [0] when [baseline_n = 0] and
    [(item_count - rolling_mean) / max(rolling_std, epsilon)] otherwise. *)
Theorem intensity_spec (sqrt_dp : Q -> Q) (articles : list Backend.article)
        (narrative : string) (calc_start end_date win : Z) (eps : Q) (t : Z) :
  calc_start <= t <= end_date ->
  let c := Backend.compute_columns sqrt_dp articles narrative calc_start end_date win eps in
  let i := t - calc_start in
  let prior := prior_counts articles narrative calc_start t win in
  let baseline_n := Py.len prior in
  Py.index 0 (Backend.dates c) i = t
  /\ Py.index 0 (Backend.counts c) i = daily_count articles narrative t
  /\ baseline_n = Z.min (t - calc_start) (Z.max 0 win)
  /\ Py.index 0%Q (Backend.rmean c) i = (if baseline_n =? 0 then 0%Q else mean prior)
  /\ Py.index 0%Q (Backend.rstd c) i
     = (if baseline_n <? 2 then 0%Q
        else sqrt_dp (Sql.Qsum (map (fun x => (inject_Z x - mean prior)
                                              * (inject_Z x - mean prior)) prior)
                      / inject_Z (baseline_n - 1))%Q)
  /\ Py.index 0%Q (Backend.intensities c) i
     = (if baseline_n =? 0 then 0%Q
        else ((inject_Z (daily_count articles narrative t) - mean prior)
              / Qmax (Py.index 0%Q (Backend.rstd c) i) eps)%Q).
Proof.
  intros Ht c i prior baseline_n.
  set (k := Z.to_nat (t - calc_start)).
  set (n := Z.to_nat (end_date - calc_start + 1)).
  assert (Hk : (k < n)%nat) by (subst k n; lia).
  assert (Hi : i = Z.of_nat k) by (subst i k; lia).
  assert (Hd : t = nth_day calc_start k) by (unfold nth_day; subst k; lia).
  destruct (db_row_day sqrt_dp articles narrative calc_start end_date win eps k Hk)
    as (R1 & R2 & _ & R4 & R5 & R6).
  rewrite <- Hd in R1, R2, R4, R5, R6. fold prior baseline_n in R4, R5, R6.
  subst c. rewrite Hi.
  rewrite columns_dates, columns_counts, columns_rmean, columns_rstd,
    columns_intensities. fold n.
  rewrite (index_map_seq _ (nth_day calc_start) n k Hk).
  rewrite (index_map_seq _ (fun k => Backend.row_article_count _) n k Hk).
  rewrite (index_map_seq _ (fun k => Py.float_or 0 (Backend.row_rolling_mean _)) n k Hk).
  rewrite (index_map_seq _ (fun k => Py.float_or 0 (Backend.row_rolling_std _)) n k Hk).
  rewrite (index_map_seq _ (fun k => Py.float_or 0 (Backend.row_intensity _)) n k Hk).
  repeat split.
  - now symmetry.
  - exact R2.
  - subst baseline_n prior. rewrite Hd.
    rewrite (prior_length articles narrative calc_start end_date win k Hk). lia.
  - exact R4.
  - exact R5.
  - rewrite R5. exact R6.
Qed.

(** ** The endpoint *)

Lemma between_spec (x lo hi : Z) : Backend.between x lo hi = true <-> lo <= x <= hi.
Proof. unfold Backend.between. rewrite andb_true_iff, !Z.leb_le. tauto. Qed.

Lemma query_valid_spec (window percentile_window : Z) (epsilon : Q) :
  Backend.query_valid window percentile_window epsilon = true <->
  1 <= window <= 365 /\ 1 <= percentile_window <= 730
  /\ (0 < epsilon)%Q /\ (epsilon <= 10)%Q.
Proof.
  unfold Backend.query_valid.
  rewrite !andb_true_iff, !between_spec, lt_spec, Qle_bool_iff. tauto.
Qed.


Lemma date_sub_spec (d days r : Z) :
  Backend.date_sub d days = Some r <->
  r = d - days /\ Backend.is_date (d - days) = true.
Proof.
  unfold Backend.date_sub. destruct (Backend.is_date (d - days)); split.
  - intro H. inversion H. tauto.
  - intros [-> _]. reflexivity.
  - discriminate.
  - intros [_ H]. discriminate.
Qed.

(** A start date that is resolved is the one [default_start] names. *)
Lemma resolve_start_Some (e : Z) (start_date : option Z) (s' : Z) :
  Backend.resolve_start e start_date = Some s' ->
  s' = Backend.default_start e start_date.
Proof.
  unfold Backend.resolve_start, Backend.default_start.
  destruct start_date as [s0|]; [congruence|].
  intro H. apply date_sub_spec in H. tauto.
Qed.

Section Endpoint.
Variable sqrt_dp : Q -> Q.
Variables (articles : list Backend.article) (today : Z) (narrative : string).
Variables (start_date end_date : option Z).
Variables (window percentile_window : Z) (epsilon : Q).

Let e := Backend.default_end today end_date.
Let s := Backend.default_start e start_date.
Let calc_start := s - Z.max window percentile_window.

(** A request is answered with metrics only if it passes validation, its
    dates are in order and the first day of the lookback is a date; the
    metrics are computed with the parameters as given. *)
Lemma narrative_metrics_200 (body : list Backend.Metric) :
  Backend.narrative_metrics sqrt_dp articles today narrative start_date end_date
                            window percentile_window epsilon
  = Backend.HTTP_200 body ->
  Backend.query_valid window percentile_window epsilon = true
  /\ s <= e
  /\ Backend.is_date calc_start = true
  /\ body = let c := Backend.compute_columns sqrt_dp articles narrative calc_start e
                                             window epsilon in
            Backend.build_metrics s e c
              (Backend.intensity_pcts percentile_window c)
              (Backend.sentiment_pcts percentile_window c).
Proof.
  intro Hr. unfold Backend.narrative_metrics in Hr.
  destruct (Backend.query_valid window percentile_window epsilon) eqn:Hv;
    [|discriminate].
  cbn [negb] in Hr. fold e in Hr.
  destruct (Backend.resolve_start e start_date) as [s'|] eqn:Hs; [|discriminate].
  apply resolve_start_Some in Hs. fold s in Hs. subst s'.
  destruct (e <? s) eqn:Hlt; [discriminate|]. apply Z.ltb_ge in Hlt.
  pose proof (proj1 (query_valid_spec _ _ _) Hv) as (Hw & Hp & _).
  replace (Z.max 1 (Z.min window 365)) with window in Hr by lia.
  replace (Z.max 1 (Z.min percentile_window 730)) with percentile_window in Hr by lia.
  destruct (Backend.date_sub s (Z.max window percentile_window)) as [c0|] eqn:Hc;
    [|discriminate].
  apply date_sub_spec in Hc. destruct Hc as [-> Hc]. fold calc_start in Hr, Hc.
  inversion Hr. repeat split; [exact Hlt | exact Hc].
Qed.



(** The rows of the response: the rows numbered
    [history_days .. history_days + (e - s)] of the computed series. *)
Lemma narrative_metrics_rows (body : list Backend.Metric) :
  Backend.narrative_metrics sqrt_dp articles today narrative start_date end_date
                            window percentile_window epsilon
  = Backend.HTTP_200 body ->
  body = map (metric_at sqrt_dp articles narrative calc_start e window
                        percentile_window epsilon)
             (seq (Z.to_nat (Z.max window percentile_window))
                  (Z.to_nat (e - s + 1))).
Proof.
  intro Hr. apply narrative_metrics_200 in Hr.
  destruct Hr as (Hv & Hse & _ & ->).
  cbv zeta. rewrite build_metrics_rows. f_equal.
  apply query_valid_spec in Hv. destruct Hv as (Hw & Hp & _).
  rewrite (filter_ext _ (fun k => (s - calc_start <=? Z.of_nat k)
                                  && (Z.of_nat k <=? e - calc_start))).
  - rewrite filter_seq_interval. subst calc_start. f_equal; lia.
  - intro k. unfold nth_day. f_equal.
    + destruct (s <=? calc_start + Z.of_nat k) eqn:E1;
        [apply Z.leb_le in E1; symmetry; apply Z.leb_le; lia
        |apply Z.leb_gt in E1; symmetry; apply Z.leb_gt; lia].
    + destruct (calc_start + Z.of_nat k <=? e) eqn:E1;
        [apply Z.leb_le in E1; symmetry; apply Z.leb_le; lia
        |apply Z.leb_gt in E1; symmetry; apply Z.leb_gt; lia].
Qed.

(** A row of the response is the metric of a row number of the computed
    series that lies after the lookback. *)
Lemma narrative_metrics_row (body : list Backend.Metric) (m : Backend.Metric) :
  Backend.narrative_metrics sqrt_dp articles today narrative start_date end_date
                            window percentile_window epsilon
  = Backend.HTTP_200 body ->
  In m body ->
  Backend.query_valid window percentile_window epsilon = true
  /\ s <= e
  /\ exists k,
      (Z.to_nat (Z.max window percentile_window) <= k
       < Z.to_nat (e - calc_start + 1))%nat
      /\ nth_day calc_start k <= e
      /\ s <= nth_day calc_start k
      /\ m = metric_at sqrt_dp articles narrative calc_start e window
                       percentile_window epsilon k.
Proof.
  intros Hr Hm.
  destruct (narrative_metrics_200 _ Hr) as (Hv & Hse & _ & _).
  split; [exact Hv|]. split; [exact Hse|].
  apply narrative_metrics_rows in Hr. subst body. apply in_map_iff in Hm.
  destruct Hm as (k & <- & Hk). apply in_seq in Hk. exists k.
  apply query_valid_spec in Hv. destruct Hv as (Hw & Hp & _).
  unfold nth_day. subst calc_start. repeat split; lia.
Qed.
End Endpoint.

(** C8.  A request whose [window], [percentile_window] or [epsilon] violates
    its declared bounds, or whose resolved [start_date] is after its resolved
    [end_date], is answered with an error that carries no metrics; and a
    request that is answered with metrics satisfies all the bounds and is
    computed with [window] and [percentile_window] exactly as given (the clamp
    leaves them unchanged). *)
Theorem narrative_metrics_rejects (sqrt_dp : Q -> Q)
        (articles : list Backend.article) (today : Z) (narrative : string)
        (start_date end_date : option Z)
        (window percentile_window : Z) (epsilon : Q) :
  let e := Backend.default_end today end_date in
  let s := Backend.default_start e start_date in
  let response :=
    Backend.narrative_metrics sqrt_dp articles today narrative start_date end_date
                              window percentile_window epsilon in
  (s > e \/ ~ 1 <= window <= 365 \/ ~ 1 <= percentile_window <= 730
   \/ ~ (0 < epsilon)%Q \/ ~ (epsilon <= 10)%Q ->
   response = Backend.HTTP_422
   \/ response = Backend.HTTP_400 "start_date must be on or before end_date")
  /\ (forall body,
         response = Backend.HTTP_200 body ->
         (s <= e /\ 1 <= window <= 365 /\ 1 <= percentile_window <= 730
          /\ (0 < epsilon)%Q /\ (epsilon <= 10)%Q)
         /\ let c := Backend.compute_columns sqrt_dp articles narrative
                       (s - Z.max window percentile_window) e window epsilon in
            body = Backend.build_metrics s e c
                     (Backend.intensity_pcts percentile_window c)
                     (Backend.sentiment_pcts percentile_window c)).
Proof.
  intros e s response. split.
  - intro Hbad. subst response. unfold Backend.narrative_metrics.
    destruct (Backend.query_valid window percentile_window epsilon) eqn:Hv;
      [|now left].
    cbn [negb]. fold e.
    apply query_valid_spec in Hv.
    destruct Hbad as [H|[H|[H|[H|H]]]]; try tauto.
    right. revert H. unfold s, Backend.default_start, Backend.resolve_start.
    destruct start_date as [s0|]; [|lia]. intro H.
    replace (e <? s0) with true by (symmetry; apply Z.ltb_lt; lia).
    reflexivity.
  - intros body Hr. subst response.
    destruct (narrative_metrics_200 _ _ _ _ _ _ _ _ _ _ Hr) as (Hv & Hse & _ & Hb).
    split; [split; [exact Hse | now apply query_valid_spec]|].
    exact Hb.
Qed.

(** ** The days of the response *)

Lemma items_on_article (articles : list Backend.article) (narrative : string)
      (d : Z) (it : Backend.item) :
  In it (items_on articles narrative d) ->
  exists a, In a articles /\ Backend.label_is a narrative = true
            /\ Backend.published_at a = d
            /\ Backend.sentiment_score a = Backend.item_score it.
Proof.
  intro H. unfold items_on, Backend.daily_items in H.
  apply distinct_incl in H. apply in_map_iff in H. destruct H as (a & <- & Ha).
  apply filter_In in Ha. destruct Ha as [Ha Hc].
  apply andb_true_iff in Hc. destruct Hc as [Hl Hb].
  apply between_spec in Hb. exists a. repeat split; [assumption..|lia].
Qed.

Lemma article_items_on (articles : list Backend.article) (narrative : string)
      (a : Backend.article) :
  In a articles -> Backend.label_is a narrative = true ->
  exists it, In it (items_on articles narrative (Backend.published_at a))
             /\ Backend.score_eqb (Backend.sentiment_score a) (Backend.item_score it) = true.
Proof.
  intros Ha Hl.
  set (it0 := {| Backend.item_id := Backend.id a;
                 Backend.item_date := Backend.published_at a;
                 Backend.item_score := Backend.sentiment_score a |}).
  assert (H0 : In it0 (map (fun a => {| Backend.item_id := Backend.id a;
                                        Backend.item_date := Backend.published_at a;
                                        Backend.item_score := Backend.sentiment_score a |})
                           (filter (fun x => Backend.label_is x narrative
                                             && Backend.between (Backend.published_at x)
                                                  (Backend.published_at a)
                                                  (Backend.published_at a))
                                   articles))).
  { apply in_map_iff. exists a. split; [reflexivity|]. apply filter_In.
    split; [exact Ha|]. rewrite Hl. apply between_spec. lia. }
  destruct (distinct_covers Backend.item_eqb _ _ H0) as (y & Hy & Hxy).
  exists y. split; [exact Hy|]. destruct Hxy as [->|E].
  - simpl. destruct (Backend.sentiment_score a); [apply Qeq_bool_refl | reflexivity].
  - unfold Backend.item_eqb in E. apply andb_true_iff in E. exact (proj2 E).
Qed.

Lemma daily_count_pos (articles : list Backend.article) (narrative : string) (d : Z) :
  0 < daily_count articles narrative d <->
  exists a, In a articles /\ Backend.label_is a narrative = true
            /\ Backend.published_at a = d.
Proof.
  unfold daily_count, Sql.COUNT_star. split.
  - intro H. destruct (items_on articles narrative d) as [|it l] eqn:E;
      [simpl in H; lia|].
    destruct (items_on_article articles narrative d it) as (a & Ha & Hl & Hd & _).
    + rewrite E. now left.
    + exists a. tauto.
  - intros (a & Ha & Hl & <-).
    destruct (article_items_on articles narrative a Ha Hl) as (it & Hit & _).
    destruct (items_on articles narrative (Backend.published_at a)); [destruct Hit|].
    simpl. lia.
Qed.


Lemma avg_present (col : list (option Q)) :
  Sql.AVG col <> None <-> exists x, In (Some x) col.
Proof.
  unfold Sql.AVG. destruct (present col) as [|x l] eqn:E.
  - split; [congruence|]. intros (x & Hx). apply present_In in Hx.
    rewrite E in Hx. destruct Hx.
  - split; [|discriminate]. intros _. exists x. apply present_In. rewrite E. now left.
Qed.

Lemma daily_sentiment_present (articles : list Backend.article) (narrative : string)
      (d : Z) :
  daily_sentiment articles narrative d <> None <->
  exists a, In a articles /\ Backend.label_is a narrative = true
            /\ Backend.published_at a = d /\ Backend.sentiment_score a <> None.
Proof.
  unfold daily_sentiment. rewrite avg_present. split.
  - intros (x & Hx). apply in_map_iff in Hx. destruct Hx as (it & Hs & Hit).
    destruct (items_on_article _ _ _ _ Hit) as (a & Ha & Hl & Hd & Hsc).
    exists a. repeat split; try assumption. congruence.
  - intros (a & Ha & Hl & <- & Hsc).
    destruct (article_items_on articles narrative a Ha Hl) as (it & Hit & E).
    destruct (Backend.sentiment_score a) as [q|]; [|congruence].
    destruct (Backend.item_score it) as [q'|] eqn:Eq; [|discriminate].
    exists q'. apply in_map_iff. exists it. split; assumption.
Qed.


(** ** Trailing percentile windows *)

(** The trailing window of row [k]: the rows numbered
    [max(0, k - pwin + 1) .. k]. *)
Lemma trailing_window {A} (pwin : Z) (g : nat -> A) (n k : nat) :
  (k < n)%nat -> 1 <= pwin ->
  trailing pwin (map g (seq 0 n)) k
  = map g (seq (Z.to_nat (Z.max 0 (Z.of_nat k - pwin + 1)))
               (S k - Z.to_nat (Z.max 0 (Z.of_nat k - pwin + 1)))).
Proof.
  intros Hk Hp. unfold trailing.
  replace (Z.max 0 (Z.of_nat k - pwin + 1))
    with (Z.of_nat (Z.to_nat (Z.max 0 (Z.of_nat k - pwin + 1)))) at 1 by lia.
  replace (Z.of_nat k + 1) with (Z.of_nat (S k)) by lia.
  apply slice_map_seq. lia.
Qed.

Lemma trailing_last {A} (pwin : Z) (g : nat -> A) (n k : nat) :
  (k < n)%nat -> 1 <= pwin ->
  exists before, trailing pwin (map g (seq 0 n)) k = before ++ [g k].
Proof.
  intros Hk Hp. rewrite trailing_window by assumption.
  set (a := Z.to_nat _).
  assert (Ha : (a <= k)%nat) by (subst a; lia).
  replace (S k - a)%nat with (S (k - a)) by lia.
  rewrite seq_S, map_app. replace (a + (k - a))%nat with k by lia.
  now exists (map g (seq a (k - a))).
Qed.

(** The ranked value is a member of its own window. *)
Lemma trailing_member {A} (pwin : Z) (g : nat -> A) (n k : nat) :
  (k < n)%nat -> 1 <= pwin -> In (g k) (trailing pwin (map g (seq 0 n)) k).
Proof.
  intros Hk Hp. destruct (trailing_last pwin g n k Hk Hp) as (before & ->).
  apply in_app_iff. right. now left.
Qed.

Lemma trailing_present_member {A} (pwin : Z) (g : nat -> option A) (n k : nat) (x : A) :
  (k < n)%nat -> 1 <= pwin -> g k = Some x ->
  In x (present (trailing pwin (map g (seq 0 n)) k)).
Proof.
  intros Hk Hp Hx. apply present_In. rewrite <- Hx. now apply trailing_member.
Qed.

(** C9.  In every row of a response, [intensity_percentile] lies in [0, 1],
    and so does [sentiment_percentile] when it is present. *)
Theorem percentiles_in_unit_interval (sqrt_dp : Q -> Q)
        (articles : list Backend.article) (today : Z) (narrative : string)
        (start_date end_date : option Z)
        (window percentile_window : Z) (epsilon : Q)
        (body : list Backend.Metric) (m : Backend.Metric) :
  Backend.narrative_metrics sqrt_dp articles today narrative start_date end_date
                            window percentile_window epsilon
  = Backend.HTTP_200 body ->
  In m body ->
  (0 <= Backend.intensity_percentile m <= 1)%Q
  /\ (forall p, Backend.sentiment_percentile m = Some p -> (0 <= p <= 1)%Q).
Proof.
  intros Hb Hm.
  destruct (narrative_metrics_row _ _ _ _ _ _ _ _ _ _ _ Hb Hm)
    as (Hv & _ & k & Hk & _ & _ & ->).
  apply query_valid_spec in Hv. destruct Hv as (_ & Hp & _).
  set (e := Backend.default_end today end_date) in *.
  set (calc_start := Backend.default_start e start_date
                     - Z.max window percentile_window) in *.
  cbn [metric_at Backend.intensity_percentile Backend.sentiment_percentile].
  split.
  - apply percent_rank_bounds. rewrite columns_intensities.
    apply (trailing_member percentile_window
             (fun k => Py.float_or 0 (Backend.row_intensity
                (nth_db_row sqrt_dp articles narrative calc_start e window epsilon k))));
      lia.
  - intros p Hs.
    destruct (Backend.row_sentiment_mean _) as [x|] eqn:Ex; [|discriminate].
    assert (Hs' : p = Backend._percent_rank
                        (present (trailing percentile_window
                           (Backend.sentiments
                              (Backend.compute_columns sqrt_dp articles narrative
                                 calc_start e window epsilon)) k)) x)
      by congruence.
    rewrite Hs'. apply percent_rank_bounds. rewrite columns_sentiments.
    apply (trailing_present_member percentile_window
             (fun k => Backend.row_sentiment_mean
                (nth_db_row sqrt_dp articles narrative calc_start e window epsilon k)));
      [lia | lia | exact Ex].
Qed.

(** C6, as the code has it.  In every row of a response, [sentiment_mean] is
    present exactly when an item of that day carries a sentiment score, and
    [article_count] is positive exactly when the day has an item; so a present
    [sentiment_mean] implies [article_count > 0], and the two coincide when
    every article carries a score.  [sentiment_percentile] is present exactly
    when [sentiment_mean] is. *)
Theorem sentiment_presence (sqrt_dp : Q -> Q)
        (articles : list Backend.article) (today : Z) (narrative : string)
        (start_date end_date : option Z)
        (window percentile_window : Z) (epsilon : Q)
        (body : list Backend.Metric) (m : Backend.Metric) :
  Backend.narrative_metrics sqrt_dp articles today narrative start_date end_date
                            window percentile_window epsilon
  = Backend.HTTP_200 body ->
  In m body ->
  (Backend.sentiment_mean m <> None <->
   exists a, In a articles /\ Backend.label_is a narrative = true
             /\ Backend.published_at a = Backend.date m
             /\ Backend.sentiment_score a <> None)
  /\ (0 < Backend.article_count m <->
      exists a, In a articles /\ Backend.label_is a narrative = true
                /\ Backend.published_at a = Backend.date m)
  /\ (Backend.sentiment_percentile m <> None <-> Backend.sentiment_mean m <> None)
  /\ (Backend.sentiment_mean m <> None -> 0 < Backend.article_count m)
  /\ ((forall a, In a articles -> Backend.sentiment_score a <> None) ->
      0 < Backend.article_count m -> Backend.sentiment_mean m <> None).
Proof.
  intros Hb Hm.
  destruct (narrative_metrics_row _ _ _ _ _ _ _ _ _ _ _ Hb Hm)
    as (_ & _ & k & Hk & _ & _ & ->).
  set (e := Backend.default_end today end_date) in *.
  set (calc_start := Backend.default_start e start_date
                     - Z.max window percentile_window) in *.
  destruct (db_row_day sqrt_dp articles narrative calc_start e window epsilon k)
    as (_ & Hc & Hs & _); [lia|].
  cbn [metric_at Backend.sentiment_mean Backend.article_count Backend.date
       Backend.sentiment_percentile].
  rewrite Hc, Hs.
  assert (H1 := daily_sentiment_present articles narrative (nth_day calc_start k)).
  assert (H2 := daily_count_pos articles narrative (nth_day calc_start k)).
  split; [exact H1|]. split; [exact H2|]. split; [|split].
  - destruct (daily_sentiment articles narrative (nth_day calc_start k));
      split; intro H; congruence.
  - intro H. apply H2. apply H1 in H. destruct H as (a & Ha & Hl & Hd & _).
    exists a. tauto.
  - intros Hall H. apply H1. apply H2 in H. destruct H as (a & Ha & Hl & Hd).
    exists a. repeat split; try assumption. now apply Hall.
Qed.

(** C3, as the code has it.  In a row of a response whose [sentiment_mean] is
    defined, [sentiment_percentile] is the percent rank of that mean among the
    defined sentiment means of the [P] calendar days that end at and include
    the row's day; a day without sentiment takes one of the [P] places of the
    window and contributes no value. *)
Theorem sentiment_percentile_window (sqrt_dp : Q -> Q)
        (articles : list Backend.article) (today : Z) (narrative : string)
        (start_date end_date : option Z)
        (window percentile_window : Z) (epsilon : Q)
        (body : list Backend.Metric) (m : Backend.Metric) (x : Q) :
  Backend.narrative_metrics sqrt_dp articles today narrative start_date end_date
                            window percentile_window epsilon
  = Backend.HTTP_200 body ->
  In m body ->
  Backend.sentiment_mean m = Some x ->
  Backend.sentiment_percentile m
  = Some (Backend._percent_rank
            (present (map (daily_sentiment articles narrative)
                          (Sql.generate_series
                             (Backend.date m - percentile_window + 1)
                             (Backend.date m))))
            x).
Proof.
  intros Hb Hm.
  destruct (narrative_metrics_row _ _ _ _ _ _ _ _ _ _ _ Hb Hm)
    as (Hv & _ & k & Hk & _ & _ & ->).
  apply query_valid_spec in Hv. destruct Hv as (Hw & Hp & _).
  set (e := Backend.default_end today end_date) in *.
  set (calc_start := Backend.default_start e start_date
                     - Z.max window percentile_window) in *.
  set (n := Z.to_nat (e - calc_start + 1)) in *.
  cbn [metric_at Backend.sentiment_mean Backend.sentiment_percentile Backend.date].
  intro Hx. rewrite Hx. do 2 f_equal.
  rewrite columns_sentiments. fold n.
  rewrite (trailing_window percentile_window
             (fun k => Backend.row_sentiment_mean
                (nth_db_row sqrt_dp articles narrative calc_start e window epsilon k)))
    by lia.
  unfold Sql.generate_series. rewrite map_map, map_seq_from.
  replace (Z.to_nat (nth_day calc_start k
                     - (nth_day calc_start k - percentile_window + 1) + 1))
    with (S k - Z.to_nat (Z.max 0 (Z.of_nat k - percentile_window + 1)))%nat by lia.
  f_equal. apply map_ext_in. intros j Hj. apply in_seq in Hj.
  destruct (db_row_day sqrt_dp articles narrative calc_start e window epsilon
              (Z.to_nat (Z.max 0 (Z.of_nat k - percentile_window + 1)) + j))
    as (_ & _ & Hs & _); [fold n; lia|].
  rewrite Hs. f_equal. unfold nth_day. lia.
Qed.

(** * The properties on concrete data *)

Lemma intensity_spec_witness :
  let c := Backend.compute_columns Sample.sqrt_approx Sample.spike_db "fed" 1 6 5 (1 # 4) in
  let prior := prior_counts Sample.spike_db "fed" 1 6 5 in
  1 <= 6 <= 6
  /\ Py.index 0%Q (Backend.intensities c) (6 - 1)
     = (if Py.len prior =? 0 then 0%Q
        else ((inject_Z (daily_count Sample.spike_db "fed" 6) - mean prior)
              / Qmax (Py.index 0%Q (Backend.rstd c) (6 - 1)) (1 # 4))%Q).
Proof.
  intros c prior.
  assert (H : 1 <= 6 <= 6) by lia.
  split; [exact H|].
  exact (proj2 (proj2 (proj2 (proj2 (proj2
    (intensity_spec Sample.sqrt_approx Sample.spike_db "fed" 1 6 5 (1 # 4) 6 H)))))).
Defined.

(** The scenario of the specification: counts 10, 12, 11, 9, 13, 50 and
    [W = 5] give day 6 the baseline mean 11 and the sample variance 5/2. *)
Example spike_baseline :
  let prior := prior_counts Sample.spike_db "fed" 1 6 5 in
  prior = [10; 12; 11; 9; 13]
  /\ (mean prior == 11)%Q
  /\ (Sql.Qsum (map (fun x => (inject_Z x - mean prior) * (inject_Z x - mean prior)) prior)
      / inject_Z (Py.len prior - 1) == 5 # 2)%Q.
Proof. vm_compute. repeat split; reflexivity. Qed.

Example spike_intensity :
  let c := Backend.compute_columns Sample.sqrt_approx Sample.spike_db "fed" 1 6 5 (1 # 4) in
  (246 # 10 < Py.index 0%Q (Backend.intensities c) 5 < 247 # 10)%Q.
Proof. vm_compute. split; reflexivity. Qed.

Lemma percent_rank_spec_witness :
  In 2%Q [1; 2; 2; 3]%Q
  /\ (2 <= Py.len [1; 2; 2; 3]%Q ->
      Backend._percent_rank [1; 2; 2; 3]%Q 2
      = Py.truediv (rank [1; 2; 2; 3]%Q 2 - 1) (Py.len [1; 2; 2; 3]%Q - 1)).
Proof.
  assert (H : In 2%Q [1; 2; 2; 3]%Q) by (simpl; tauto).
  split; [exact H|].
  exact (proj1 (proj2 (percent_rank_spec [1; 2; 2; 3]%Q 2 H))).
Defined.

Example percent_rank_ties :
  (Backend._percent_rank [1; 2; 2; 3]%Q 2 == 1 # 3)%Q.
Proof. vm_compute. reflexivity. Qed.

Lemma calculate_horizon_moves_spec_witness :
  exists moves,
    fst (Utils.calculate_horizon_moves Sample.parse_march Sample.convert_march
           0%nat "2024-03-10" [1; 2; 5] [Sample.march_frame])
    = inr moves
    /\ (forall hz, In hz (Utils.dict_keys moves) <-> In hz [1; 2; 5])
    /\ Utils.dict_get moves 1 = Some (Some (7 - 3)%Q)
    /\ Utils.dict_get moves 2 = Some None.
Proof.
  set (ts := [19787 * Utils.NS_PER_DAY; 19791 * Utils.NS_PER_DAY;
              19792 * Utils.NS_PER_DAY]).
  assert (Hcells : Forall (fun c => Utils.to_datetime_cell Sample.parse_march c <> None)
                          [Utils.DStr "2024-03-05"; Utils.DStr "2024-03-09";
                           Utils.DStr "2024-03-10"])
    by (repeat constructor; discriminate).
  assert (ND : NoDup (map fst (combine ts (Utils.df_intensity Sample.march_frame)))).
  { vm_compute. repeat constructor; simpl; intuition discriminate. }
  assert (Hrep : Forall (fun hz => representable (19792 * Utils.NS_PER_DAY) hz = true)
                        [1; 2; 5])
    by (repeat constructor).
  destruct (calculate_horizon_moves_spec
              Sample.parse_march Sample.convert_march [Sample.march_frame] 0%nat
              Sample.march_frame _ ts "2024-03-10" (19792 * Utils.NS_PER_DAY)
              [1; 2; 5] eq_refl eq_refl Hcells eq_refl eq_refl ND (or_intror Hrep))
    as (moves & Hrun & Hkeys & _ & Hboth & Hmiss).
  exists moves. split; [exact Hrun|]. split; [exact Hkeys|]. split.
  - apply Hboth; simpl; tauto.
  - apply Hmiss; [simpl; tauto|]. right. vm_compute. intuition discriminate.
Defined.

(** A horizon of 10^9 days: its date is missing from the series, and the call
    raises instead of storing [None]; [timedelta] does not take that many
    days. *)
Lemma calculate_horizon_moves_spec_counterexample :
  Sample.parse_march "2024-03-10" = Some (19792 * Utils.NS_PER_DAY)
  /\ ~ In (19792 * Utils.NS_PER_DAY - horizon_ns 1000000000)
          [19787 * Utils.NS_PER_DAY; 19791 * Utils.NS_PER_DAY;
           19792 * Utils.NS_PER_DAY]
  /\ fst (Utils.calculate_horizon_moves Sample.parse_march Sample.convert_march
             0%nat "2024-03-10" [1000000000] [Sample.march_frame])
     = inl Utils.OverflowError
  /\ ~ exists moves,
        fst (Utils.calculate_horizon_moves Sample.parse_march Sample.convert_march
               0%nat "2024-03-10" [1000000000] [Sample.march_frame])
        = inr moves.
Proof.
  assert (Hrun : fst (Utils.calculate_horizon_moves
                        Sample.parse_march Sample.convert_march
                        0%nat "2024-03-10" [1000000000] [Sample.march_frame])
                 = inl Utils.OverflowError)
    by (vm_compute; reflexivity).
  split; [reflexivity|]. split; [vm_compute; intuition discriminate|].
  split; [exact Hrun|].
  intros (moves & Hm). rewrite Hrun in Hm. discriminate.
Qed.

(** The scenario of the specification: with threshold 1, a move of 1.2 is an
    alert, a move of -1 is not, and a missing move is not. *)
Example alerts_scenario :
  Utils.detect_alerts [(5, Some (12 # 10))] 1
  = [ {| Utils.horizon := 5; Utils.move := 12 # 10; Utils.abs_move := 12 # 10 |} ]
  /\ Utils.detect_alerts [(5, Some (-1)%Q); (10, None)] 1 = [].
Proof. split; reflexivity. Qed.


(** A request for 2 January of year 1 passes validation, but its lookback
    would start before [date.min]: no list is returned. *)
Example lookback_before_first_date :
  Backend.query_valid 2 3 (1 # 4) = true
  /\ Backend.narrative_metrics Sample.sqrt_approx Sample.small_db 102 "fed"
                               (Some (-719161)) (Some (-719161)) 2 3 (1 # 4)
     = Backend.HTTP_500.
Proof. split; reflexivity. Qed.

Lemma percentiles_in_unit_interval_witness :
  let body := Sample.rows_of
                (Backend.narrative_metrics Sample.sqrt_approx Sample.small_db 102
                   "fed" (Some 100) None 2 3 (1 # 4)) in
  let m := hd Sample.no_metric body in
  In m body /\ (0 <= Backend.intensity_percentile m <= 1)%Q.
Proof.
  intros body m.
  assert (Hb : Backend.narrative_metrics Sample.sqrt_approx Sample.small_db 102
                 "fed" (Some 100) None 2 3 (1 # 4) = Backend.HTTP_200 body)
    by (vm_compute; reflexivity).
  assert (Hm : In m body) by (vm_compute; left; reflexivity).
  split; [exact Hm|].
  exact (proj1 (percentiles_in_unit_interval _ _ _ _ _ _ _ _ _ body m Hb Hm)).
Defined.

Lemma sentiment_presence_witness :
  let body := Sample.rows_of
                (Backend.narrative_metrics Sample.sqrt_approx Sample.unscored_db 102
                   "fed" (Some 102) None 1 1 (1 # 4)) in
  let m := hd Sample.no_metric body in
  In m body
  /\ (Backend.sentiment_percentile m <> None <-> Backend.sentiment_mean m <> None)
  /\ (Backend.sentiment_mean m <> None -> 0 < Backend.article_count m).
Proof.
  intros body m.
  assert (Hb : Backend.narrative_metrics Sample.sqrt_approx Sample.unscored_db 102
                 "fed" (Some 102) None 1 1 (1 # 4) = Backend.HTTP_200 body)
    by (vm_compute; reflexivity).
  assert (Hm : In m body) by (vm_compute; left; reflexivity).
  split; [exact Hm|].
  destruct (sentiment_presence _ _ _ _ _ _ _ _ _ body m Hb Hm)
    as (_ & _ & H3 & H4 & _).
  split; [exact H3 | exact H4].
Defined.

(** A day with an item and no sentiment: the item carries no score. *)
Lemma sentiment_presence_counterexample :
  exists m,
    Backend.narrative_metrics Sample.sqrt_approx Sample.unscored_db 102 "fed"
                              (Some 102) None 1 1 (1 # 4)
    = Backend.HTTP_200 [m]
    /\ Backend.date m = 102
    /\ Backend.article_count m = 1
    /\ Backend.sentiment_mean m = None
    /\ ~ (Backend.sentiment_mean m <> None <-> Backend.article_count m > 0).
Proof.
  eexists. split; [vm_compute; reflexivity|]. cbn.
  repeat split; try reflexivity. intros [_ H]. apply H; [lia | reflexivity].
Qed.

Lemma sentiment_percentile_window_witness :
  let body := Sample.rows_of
                (Backend.narrative_metrics Sample.sqrt_approx Sample.gap_db 102
                   "fed" (Some 102) None 1 2 (1 # 4)) in
  let m := hd Sample.no_metric body in
  In m body
  /\ Backend.sentiment_mean m = Some 2%Q
  /\ Backend.sentiment_percentile m
     = Some (Backend._percent_rank
               (present (map (daily_sentiment Sample.gap_db "fed")
                             (Sql.generate_series (Backend.date m - 2 + 1)
                                                  (Backend.date m))))
               2).
Proof.
  intros body m.
  assert (Hb : Backend.narrative_metrics Sample.sqrt_approx Sample.gap_db 102
                 "fed" (Some 102) None 1 2 (1 # 4) = Backend.HTTP_200 body)
    by (vm_compute; reflexivity).
  assert (Hm : In m body) by (vm_compute; left; reflexivity).
  assert (Hx : Backend.sentiment_mean m = Some 2%Q) by (vm_compute; reflexivity).
  split; [exact Hm|]. split; [exact Hx|].
  exact (sentiment_percentile_window _ _ _ _ _ _ _ _ _ body m 2 Hb Hm Hx).
Defined.

(** With sentiment 1 on day 100, no item on day 101 and sentiment 2 on day
    102, and [P = 2]: the window of day 102 is the days 101 and 102, so it
    holds the one value 2 and the percentile is 0; among the last two defined
    values, 1 and 2, it would be 1. *)
Lemma sentiment_percentile_window_counterexample :
  exists m,
    Backend.narrative_metrics Sample.sqrt_approx Sample.gap_db 102 "fed"
                              (Some 102) None 1 2 (1 # 4)
    = Backend.HTTP_200 [m]
    /\ Backend.date m = 102
    /\ Backend.sentiment_mean m = Some 2%Q
    /\ map (daily_sentiment Sample.gap_db "fed") (Sql.generate_series 100 102)
       = [Some 1%Q; None; Some 2%Q]
    /\ Backend.sentiment_percentile m = Some 0%Q
    /\ ~ (0 == rank_among_last_defined 2 [Some 1%Q; None; Some 2%Q] 2)%Q.
Proof.
  eexists. split; [vm_compute; reflexivity|]. cbn [Backend.date Backend.sentiment_mean
    Backend.sentiment_percentile].
  repeat split; try reflexivity. vm_compute. discriminate.
Qed.

Lemma detect_alerts_spec_witness :
  In (5, Some (12 # 10)) [(5, Some (12 # 10)); (10, None)]
  /\ (1 < Qabs (12 # 10))%Q
  /\ In {| Utils.horizon := 5; Utils.move := 12 # 10; Utils.abs_move := Qabs (12 # 10) |}
        (Utils.detect_alerts [(5, Some (12 # 10)); (10, None)] 1).
Proof.
  assert (Hin : In (5, Some (12 # 10)) [(5, Some (12 # 10)); (10, None)])
    by (simpl; tauto).
  assert (Hlt : (1 < Qabs (12 # 10))%Q) by reflexivity.
  split; [exact Hin|]. split; [exact Hlt|].
  apply (proj1 (detect_alerts_spec [(5, Some (12 # 10)); (10, None)] 1)).
  exists 5, (12 # 10). split; [exact Hin|]. split; [exact Hlt | reflexivity].
Defined.

Lemma narrative_metrics_rejects_witness :
  ~ 1 <= 0 <= 365
  /\ (Backend.narrative_metrics Sample.sqrt_approx Sample.small_db 102 "fed"
                                (Some 100) None 0 3 (1 # 4)
      = Backend.HTTP_422
      \/ Backend.narrative_metrics Sample.sqrt_approx Sample.small_db 102 "fed"
                                   (Some 100) None 0 3 (1 # 4)
         = Backend.HTTP_400 "start_date must be on or before end_date").
Proof.
  assert (Hw : ~ 1 <= 0 <= 365) by lia.
  split; [exact Hw|].
  apply (proj1 (narrative_metrics_rejects Sample.sqrt_approx Sample.small_db 102
                  "fed" (Some 100) None 0 3 (1 # 4))).
  right. left. exact Hw.
Defined.

(** A start date after the end date is answered with the 400 of the body, and
    an epsilon of 0 with the validation error. *)
Example rejects_inverted_range :
  Backend.narrative_metrics Sample.sqrt_approx Sample.small_db 102 "fed"
                            (Some 103) None 2 3 (1 # 4)
  = Backend.HTTP_400 "start_date must be on or before end_date".
Proof. reflexivity. Qed.

Example rejects_zero_epsilon :
  Backend.narrative_metrics Sample.sqrt_approx Sample.small_db 102 "fed"
                            (Some 100) None 2 3 0
  = Backend.HTTP_422.
Proof. reflexivity. Qed.

(** The caller's frame still holds its date strings after the call. *)
Example frame_kept :
  nth_error (snd (Utils.calculate_horizon_moves
                    Sample.parse_march Sample.convert_march 0%nat
                    "2024-03-10" [1; 2; 5] [Sample.march_frame])) 0
  = Some Sample.march_frame.
Proof. reflexivity. Qed.

(** * Further properties *)

(** ** The percent rank: order, extremes, rearrangement *)

Lemma truediv_le (a b c : Z) :
  a <= b -> 0 < c -> (Py.truediv a c <= Py.truediv b c)%Q.
Proof.
  intros Hab Hc. destruct c as [|p|p]; try lia.
  unfold Py.truediv, Qdiv, Qinv, Qmult, Qle; simpl. nia.
Qed.

Lemma truediv_same (c : Z) : 0 < c -> (Py.truediv c c == 1)%Q.
Proof.
  intro Hc. destruct c as [|p|p]; try lia.
  unfold Py.truediv, Qdiv, Qinv, Qmult, Qeq; simpl. lia.
Qed.

Lemma strictly_less_monotone (w : list Q) (x y : Q) :
  (x <= y)%Q -> strictly_less w x <= strictly_less w y.
Proof.
  intro Hxy. induction w as [|v w IH]; cbn [strictly_less]; [lia|].
  destruct (Qlt_le_dec v x) as [Lx|Lx], (Qlt_le_dec v y) as [Ly|Ly]; try lia.
  exfalso. apply (Qlt_irrefl v).
  apply Qlt_le_trans with x; [exact Lx|].
  apply Qle_trans with y; [exact Hxy | exact Ly].
Qed.

Lemma strictly_less_none (w : list Q) (x : Q) :
  (forall v, In v w -> (x <= v)%Q) -> strictly_less w x = 0.
Proof.
  induction w as [|v w IH]; simpl; intro H; [reflexivity|].
  destruct (Qlt_le_dec v x) as [L|L].
  - exfalso. apply (Qlt_irrefl v). apply Qlt_le_trans with x; [exact L|].
    apply H. now left.
  - apply IH. intros u Hu. apply H. now right.
Qed.

Lemma strictly_less_all (w : list Q) (x : Q) :
  (forall v, In v w -> (v < x)%Q) -> strictly_less w x = Py.len w.
Proof.
  unfold Py.len. induction w as [|v w IH]; intro H; [reflexivity|].
  cbn [strictly_less List.length].
  destruct (Qlt_le_dec v x) as [L|L].
  - rewrite IH, Nat2Z.inj_succ; [lia|]. intros u Hu. apply H. now right.
  - exfalso. apply (Qlt_irrefl v). apply Qlt_le_trans with x; [|exact L].
    apply H. now left.
Qed.

Lemma strictly_less_app (w1 w2 : list Q) (x : Q) :
  strictly_less (w1 ++ w2) x = strictly_less w1 x + strictly_less w2 x.
Proof.
  induction w1 as [|v w1 IH]; cbn [strictly_less app]; [reflexivity|].
  destruct (Qlt_le_dec v x); lia.
Qed.

Lemma strictly_less_permutation (w w' : list Q) (x : Q) :
  Permutation w w' -> strictly_less w x = strictly_less w' x.
Proof.
  induction 1 as [|v w w' _ IH|u v w|w w' w'' _ IH1 _ IH2]; cbn [strictly_less].
  - reflexivity.
  - now rewrite IH.
  - destruct (Qlt_le_dec v x), (Qlt_le_dec u x); lia.
  - now rewrite IH1.
Qed.

(** X1.  For one window, the percent rank is monotone in the ranked value: a
    value that is not smaller gets a percentile that is not smaller. *)
Theorem percent_rank_monotone (w : list Q) (x y : Q) :
  (x <= y)%Q -> (Backend._percent_rank w x <= Backend._percent_rank w y)%Q.
Proof.
  intro Hxy. rewrite !percent_rank_unfold.
  destruct (Py.len w <=? 1) eqn:E; [apply Qle_refl|].
  apply Z.leb_gt in E. apply truediv_le; [|lia].
  now apply strictly_less_monotone.
Qed.

(** X2.  A value that no value of the window is below gets percentile 0,
    whatever the size of the window. *)
Theorem percent_rank_of_minimum (w : list Q) (x : Q) :
  (forall v, In v w -> (x <= v)%Q) -> (Backend._percent_rank w x == 0)%Q.
Proof.
  intro H. rewrite percent_rank_unfold.
  destruct (Py.len w <=? 1); [reflexivity|].
  rewrite strictly_less_none by exact H. apply truediv_zero.
Qed.

(** X3.  In a window of at least two values, a value that occurs once and is
    strictly above every other value gets percentile 1. *)
Theorem percent_rank_of_strict_maximum (before after : list Q) (x : Q) :
  (forall v, In v (before ++ after) -> (v < x)%Q) ->
  (1 <= List.length (before ++ after))%nat ->
  (Backend._percent_rank (before ++ x :: after) x == 1)%Q.
Proof.
  intros H Hn. rewrite percent_rank_unfold.
  assert (Hlen : Py.len (before ++ x :: after) = Py.len (before ++ after) + 1).
  { unfold Py.len. rewrite !length_app. cbn [List.length]. lia. }
  assert (Hpos : 1 <= Py.len (before ++ after)) by (unfold Py.len; lia).
  replace (Py.len (before ++ x :: after) <=? 1) with false
    by (symmetry; apply Z.leb_gt; lia).
  replace (strictly_less (before ++ x :: after) x)
    with (Py.len (before ++ x :: after) - 1).
  - apply truediv_same. lia.
  - rewrite Hlen, strictly_less_app. cbn [strictly_less].
    destruct (Qlt_le_dec x x) as [L|_]; [exfalso; exact (Qlt_irrefl _ L)|].
    rewrite <- strictly_less_app, strictly_less_all by exact H. lia.
Qed.

(** X4.  The percent rank depends on the values of the window, not on their
    order: a rearranged window gives the same percentile. *)
Theorem percent_rank_permutation (w w' : list Q) (x : Q) :
  Permutation w w' -> Backend._percent_rank w x = Backend._percent_rank w' x.
Proof.
  intro HP. rewrite !percent_rank_unfold.
  assert (Hl : Py.len w = Py.len w')
    by (unfold Py.len; now rewrite (Permutation_length HP)).
  now rewrite Hl, (strictly_less_permutation w w' x HP).
Qed.

(** ** Alerts: threshold, sign, degenerate thresholds *)

Lemma gt_weaken (x t t' : Q) : (t <= t')%Q -> Py.gt x t' = true -> Py.gt x t = true.
Proof.
  intros Ht H. apply gt_spec in H. apply gt_spec.
  now apply Qle_lt_trans with t'.
Qed.

Lemma Qabs_opp_eq (m : Q) : Qabs (- m) = Qabs m.
Proof. destruct m as [n d]. unfold Qabs, Qopp. simpl. now rewrite Z.abs_opp. Qed.

(** X5.  Raising the threshold never adds an alert: every alert at a
    threshold is an alert at every lower threshold. *)
Theorem detect_alerts_threshold_monotone (moves : list (Z * option Q))
        (tau tau' : Q) :
  (tau <= tau')%Q ->
  incl (Utils.detect_alerts moves tau') (Utils.detect_alerts moves tau).
Proof.
  intros Ht a. induction moves as [|[h0 [m0|]] moves IH].
  - intros [].
  - rewrite !detect_alerts_cons. cbn [fst snd]. rewrite !in_app_iff.
    intros [Ha|Ha]; [left|right; exact (IH Ha)].
    destruct (Py.gt (Qabs m0) tau') eqn:E; [|destruct Ha].
    now rewrite (gt_weaken _ _ _ Ht E).
  - rewrite !detect_alerts_cons. cbn [fst snd app]. exact IH.
Qed.

(** X6.  Alerts do not depend on the sign of the moves: with every move
    negated, the same horizons are flagged, with the same [abs_move] and the
    negated [move]. *)
Theorem detect_alerts_negated (moves : list (Z * option Q)) (tau : Q) :
  Utils.detect_alerts (negate_moves moves) tau
  = map (fun a => {| Utils.horizon := Utils.horizon a;
                     Utils.move := (- Utils.move a)%Q;
                     Utils.abs_move := Utils.abs_move a |})
        (Utils.detect_alerts moves tau).
Proof.
  unfold negate_moves. induction moves as [|[h0 [m0|]] moves IH].
  - reflexivity.
  - cbn [map fst snd option_map]. rewrite !detect_alerts_cons. cbn [fst snd].
    rewrite map_app, IH, Qabs_opp_eq. f_equal.
    destruct (Py.gt (Qabs m0) tau); reflexivity.
  - cbn [map fst snd option_map]. rewrite !detect_alerts_cons. cbn [fst snd app].
    exact IH.
Qed.

(** X7.  With a negative threshold every move that is present is an alert,
    a zero move included. *)
Theorem detect_alerts_negative_threshold (moves : list (Z * option Q))
        (tau : Q) (h : Z) (m : Q) :
  (tau < 0)%Q ->
  In (h, Some m) moves ->
  In {| Utils.horizon := h; Utils.move := m; Utils.abs_move := Qabs m |}
     (Utils.detect_alerts moves tau).
Proof.
  intros Ht. induction moves as [|[h0 [m0|]] moves IH]; [intros []| |].
  - rewrite detect_alerts_cons. cbn [fst snd]. rewrite in_app_iff.
    intros [E|Hin]; [left|right; exact (IH Hin)].
    inversion E; subst.
    replace (Py.gt (Qabs m) tau) with true; [now left|].
    symmetry. apply gt_spec. apply Qlt_le_trans with 0%Q; [exact Ht|apply Qabs_nonneg].
  - rewrite detect_alerts_cons. cbn [fst snd app].
    intros [E|Hin]; [discriminate | exact (IH Hin)].
Qed.

(** ** Horizon moves: what is raised *)

Lemma fill_ext {V} (f g : Z -> V) (ks : list Z) :
  (forall k, f k = g k) -> forall d, fill f ks d = fill g ks d.
Proof.
  intro H. unfold fill. induction ks as [|k ks IH]; intro d; simpl; [reflexivity|].
  now rewrite H, IH.
Qed.

(** The run of the function on a frame whose dates parse, for horizons
    within the bounds of the host. *)
Lemma horizon_moves_run (parse : string -> option Z)
      (convert : list Utils.datecell -> option (list Z)) (h : Utils.store)
      (r : Utils.ref) (df : Utils.DataFrame) (col : list Utils.datecell)
      (ts : list Z) (target : string) (d : Z) (horizons : list Z) :
  nth_error h r = Some df ->
  Utils.df_date df = Some col ->
  Forall (fun c => Utils.to_datetime_cell parse c <> None) col ->
  convert col = Some ts ->
  parse target = Some d ->
  ~ In d (map fst (combine ts (Utils.df_intensity df)))
  \/ Forall (fun hz => representable d hz = true) horizons ->
  fst (Utils.calculate_horizon_moves parse convert r target horizons h)
  = inr (fill (move_at ts (Utils.df_intensity df) d) horizons []).
Proof.
  intros E D Hcells Hcol Ht Hrep.
  rewrite (run_converted _ _ _ _ _ _ _ _ _ E D (to_datetime_all _ _ _ _ Hcells Hcol)).
  unfold lookup_phase. rewrite Ht. unfold Utils.lift_parse.
  erewrite bind_ok; [|reflexivity].
  rewrite (bind_ok _ _ _ _ _
             (rows_at_converted _ _ ts (Utils.df_intensity df) (nth_error_last _ _) d)).
  destruct (values_at (combine ts (Utils.df_intensity df)) d) as [|a rest] eqn:Ev.
  - cbn [fst Utils.ret]. f_equal.
    apply (fill_ext (fun _ => None)). intro k. unfold move_at. now rewrite Ev.
  - assert (Hall : Forall (fun hz => representable d hz = true) horizons).
    { destruct Hrep as [Hno|Hall]; [|exact Hall].
      apply values_at_nil in Hno. congruence. }
    rewrite (horizon_loop_run _ _ ts (Utils.df_intensity df) (nth_error_last _ _)
               _ _ _ Hall).
    cbn [fst]. f_equal. apply fill_ext. intro k. unfold move_at. now rewrite Ev.
Qed.

Lemma fill_get_in {V} (f : Z -> V) (ks : list Z) (k : Z) :
  In k ks -> Utils.dict_get (fill f ks []) k = Some (f k).
Proof.
  intro H. rewrite fill_get. apply existsb_eqb_In in H. now rewrite H.
Qed.

(** X8.  A frame without a ['date'] column never yields moves: the call
    raises ([KeyError] on the column, or the error of a target date that does
    not parse, which is evaluated first) and leaves the store as it was. *)
Theorem calculate_horizon_moves_without_dates (parse : string -> option Z)
        (convert : list Utils.datecell -> option (list Z))
        (h : Utils.store) (metrics_df : Utils.ref) (df : Utils.DataFrame)
        (target_date : string) (horizons : list Z) :
  nth_error h metrics_df = Some df ->
  Utils.df_date df = None ->
  Utils.calculate_horizon_moves parse convert metrics_df target_date horizons h
  = (inl (match parse target_date with
          | Some _ => Utils.KeyError "date"
          | None => Utils.DateParseError
          end), h).
Proof.
  intros E D. rewrite (run_no_date _ _ _ _ _ _ _ E D). unfold lookup_phase.
  destruct (parse target_date) as [d|]; [|reflexivity].
  unfold Utils.lift_parse. erewrite bind_ok; [|reflexivity].
  erewrite bind_err; [reflexivity|].
  unfold Utils.rows_at. erewrite bind_err; [reflexivity|].
  unfold Utils.getitem_date.
  rewrite (bind_ok _ _ _ _ _ (load_ok _ _ _ E)), D. reflexivity.
Qed.

(** X9.  A date cell that does not parse makes the call raise, whatever the
    target and the horizons; the caller's frame is left as it was. *)
Theorem calculate_horizon_moves_bad_date (parse : string -> option Z)
        (convert : list Utils.datecell -> option (list Z))
        (h : Utils.store) (metrics_df : Utils.ref) (df : Utils.DataFrame)
        (col : list Utils.datecell) (bad : string)
        (target_date : string) (horizons : list Z) :
  nth_error h metrics_df = Some df ->
  Utils.df_date df = Some col ->
  In (Utils.DStr bad) col ->
  parse bad = None ->
  fst (Utils.calculate_horizon_moves parse convert metrics_df target_date
         horizons h)
  = inl Utils.DateParseError
  /\ nth_error (snd (Utils.calculate_horizon_moves parse convert metrics_df
                       target_date horizons h)) metrics_df
     = Some df.
Proof.
  intros E D Hin Hbad.
  assert (P : Utils.to_datetime parse convert col = None).
  { unfold Utils.to_datetime.
    destruct (forallb (Utils.parses parse) col) eqn:F; [|reflexivity].
    rewrite forallb_forall in F. specialize (F _ Hin).
    unfold Utils.parses in F. cbn [Utils.to_datetime_cell] in F.
    rewrite Hbad in F. discriminate. }
  rewrite (run_unparsed _ _ _ _ _ _ _ _ E D P). split; [reflexivity|].
  cbn [snd]. rewrite nth_error_app1; [exact E|].
  apply nth_error_Some. congruence.
Qed.

(** ** Alerts on computed moves *)

Lemma dict_get_key {V} (d : list (Z * V)) (k : Z) (v : V) :
  Utils.dict_get d k = Some v -> In k (Utils.dict_keys d).
Proof.
  unfold Utils.dict_keys. induction d as [|[k0 v0] d IH]; simpl; [discriminate|].
  destruct (k0 =? k) eqn:E; [apply Z.eqb_eq in E; now left|].
  intro H. right. now apply IH.
Qed.

Lemma detect_alerts_lookup (moves : list (Z * option Q)) (tau : Q) (a : Utils.alert) :
  NoDup (Utils.dict_keys moves) ->
  In a (Utils.detect_alerts moves tau) <->
  exists m, Utils.dict_get moves (Utils.horizon a) = Some (Some m)
            /\ (tau < Qabs m)%Q
            /\ a = {| Utils.horizon := Utils.horizon a; Utils.move := m;
                      Utils.abs_move := Qabs m |}.
Proof.
  induction moves as [|[k0 v0] moves IH]; intro ND.
  - simpl. split; [tauto|]. intros (m & H & _). discriminate.
  - inversion ND as [|? ? Hnot ND']; subst. specialize (IH ND').
    rewrite detect_alerts_cons. cbn [fst snd Utils.dict_get]. rewrite in_app_iff.
    split.
    + intros [Ha|Ha].
      * destruct v0 as [m0|]; [|destruct Ha].
        destruct (Py.gt (Qabs m0) tau) eqn:E; [|destruct Ha].
        destruct Ha as [<-|[]]. cbn [Utils.horizon]. rewrite Z.eqb_refl.
        exists m0. apply gt_spec in E. repeat split; assumption.
      * apply IH in Ha. destruct Ha as (m & Hg & Hlt & Ea).
        destruct (k0 =? Utils.horizon a) eqn:E0.
        -- apply Z.eqb_eq in E0. subst k0. exfalso. apply Hnot.
           exact (dict_get_key _ _ _ Hg).
        -- exists m. repeat split; assumption.
    + intros (m & Hg & Hlt & Ea).
      destruct (k0 =? Utils.horizon a) eqn:E0.
      * left. apply Z.eqb_eq in E0. inversion Hg; subst v0.
        apply gt_spec in Hlt. rewrite Hlt. left. rewrite Ea. cbn [Utils.horizon].
        now rewrite E0.
      * right. apply IH. exists m. repeat split; assumption.
Qed.

Lemma detect_alerts_horizons_NoDup (moves : list (Z * option Q)) (tau : Q) :
  NoDup (Utils.dict_keys moves) ->
  NoDup (map Utils.horizon (Utils.detect_alerts moves tau)).
Proof.
  induction moves as [|[k0 v0] moves IH]; intro ND; [constructor|].
  inversion ND as [|? ? Hnot ND']; subst. specialize (IH ND').
  rewrite detect_alerts_cons. cbn [fst snd].
  assert (Hrest : ~ In k0 (map Utils.horizon (Utils.detect_alerts moves tau))).
  { intro H. apply in_map_iff in H. destruct H as (a & Ha & Hin).
    apply (detect_alerts_lookup _ _ _ ND') in Hin. destruct Hin as (m & Hg & _).
    apply Hnot. rewrite <- Ha. exact (dict_get_key _ _ _ Hg). }
  destruct v0 as [m0|]; [|exact IH].
  destruct (Py.gt (Qabs m0) tau); [|exact IH].
  cbn [app map Utils.horizon]. now constructor.
Qed.

Lemma move_at_spec (ts : list Z) (ints : list Q) (d hz : Z) (m : Q) :
  NoDup (map fst (combine ts ints)) ->
  move_at ts ints d hz = Some m <->
  exists a b, In (d, a) (combine ts ints)
              /\ In (d - horizon_ns hz, b) (combine ts ints)
              /\ m = (a - b)%Q.
Proof.
  intro ND. unfold move_at, stored_move. split.
  - destruct (values_at (combine ts ints) d) as [|a rest] eqn:Ea; [discriminate|].
    destruct (values_at (combine ts ints) (d - horizon_ns hz))
      as [|b rest'] eqn:Eb; [discriminate|].
    intro H. injection H as <-. exists a, b. repeat split.
    + apply values_at_In. rewrite Ea. now left.
    + apply values_at_In. rewrite Eb. now left.
  - intros (a & b & Ha & Hb & ->).
    now rewrite (values_at_unique _ _ _ ND Ha), (values_at_unique _ _ _ ND Hb).
Qed.

(** X11.  The alerts the dashboard derives for a date ([detect_alerts] on the
    result of [calculate_horizon_moves]): a horizon is flagged exactly when it
    was asked for, the mapping holds a move for it and the absolute value of
    that move exceeds the threshold, and the alert carries that move; a
    horizon one of whose dates has no row is never flagged; no horizon is
    flagged twice, even when it is asked for twice. *)
Theorem alerts_of_horizon_moves
        (parse : string -> option Z)
        (convert : list Utils.datecell -> option (list Z))
        (h : Utils.store) (metrics_df : Utils.ref)
        (df : Utils.DataFrame) (col : list Utils.datecell) (ts : list Z)
        (target_date : string) (d : Z) (horizons : list Z) (tau : Q) :
  nth_error h metrics_df = Some df ->
  Utils.df_date df = Some col ->
  Forall (fun c => Utils.to_datetime_cell parse c <> None) col ->
  convert col = Some ts ->
  parse target_date = Some d ->
  NoDup (map fst (combine ts (Utils.df_intensity df))) ->
  ~ In d (map fst (combine ts (Utils.df_intensity df)))
  \/ Forall (fun hz => representable d hz = true) horizons ->
  exists moves,
    fst (Utils.calculate_horizon_moves parse convert metrics_df target_date
           horizons h)
    = inr moves
    /\ NoDup (map Utils.horizon (Utils.detect_alerts moves tau))
    /\ (forall a,
          In a (Utils.detect_alerts moves tau) <->
          In (Utils.horizon a) horizons
          /\ Utils.dict_get moves (Utils.horizon a) = Some (Some (Utils.move a))
          /\ (tau < Qabs (Utils.move a))%Q
          /\ Utils.abs_move a = Qabs (Utils.move a))
    /\ (forall a,
          In a (Utils.detect_alerts moves tau) ->
          In d (map fst (combine ts (Utils.df_intensity df)))
          /\ In (d - horizon_ns (Utils.horizon a))
                (map fst (combine ts (Utils.df_intensity df)))).
Proof.
  intros E D Hcells Hcol Ht ND Hrep.
  set (f := move_at ts (Utils.df_intensity df) d).
  exists (fill f horizons []).
  split; [exact (horizon_moves_run _ _ _ _ _ _ _ _ _ _ E D Hcells Hcol Ht Hrep)|].
  assert (NDk : NoDup (Utils.dict_keys (fill f horizons [])))
    by (apply fill_NoDup; constructor).
  split; [now apply detect_alerts_horizons_NoDup|].
  split.
  - intro a. rewrite (detect_alerts_lookup _ _ _ NDk). rewrite fill_get.
    split.
    + intros (m & Hg & Hlt & Ea).
      destruct (existsb (Z.eqb (Utils.horizon a)) horizons) eqn:Ex; [|discriminate].
      apply existsb_eqb_In in Ex.
      rewrite Ea. cbn [Utils.horizon Utils.move Utils.abs_move].
      rewrite Ea in Hg. cbn [Utils.horizon] in Hg.
      repeat split; assumption.
    + intros (Hin & Hg & Hlt & Habs).
      exists (Utils.move a). split; [exact Hg|]. split; [exact Hlt|].
      destruct a as [ah am aa]. cbn in *. now subst aa.
  - intros a Ha. apply (detect_alerts_lookup _ _ _ NDk) in Ha.
    destruct Ha as (m & Hg & _). rewrite fill_get in Hg.
    destruct (existsb (Z.eqb (Utils.horizon a)) horizons); [|discriminate].
    injection Hg as Hg.
    apply (move_at_spec _ _ _ _ _ ND) in Hg. destruct Hg as (x & y & Hx & Hy & _).
    split; apply in_map_iff; [exists (d, x) | exists (d - horizon_ns (Utils.horizon a), y)];
      split; try reflexivity; assumption.
Qed.

(** ** The rows of a response, day by day *)

Lemma metric_at_full (sqrt_dp : Q -> Q) (articles : list Backend.article)
      (narrative : string) (calc_start end_date win pwin : Z) (eps : Q) (k : nat) :
  1 <= win ->
  (Z.to_nat win <= k < Z.to_nat (end_date - calc_start + 1))%nat ->
  let m := metric_at sqrt_dp articles narrative calc_start end_date win pwin eps k in
  let t := nth_day calc_start k in
  let base := baseline articles narrative t win in
  Py.len base = win
  /\ Backend.date m = t
  /\ Backend.article_count m = daily_count articles narrative t
  /\ Backend.sentiment_mean m = daily_sentiment articles narrative t
  /\ Backend.rolling_mean m = mean base
  /\ Backend.rolling_std m = sample_std sqrt_dp base
  /\ Backend.intensity m
     = ((inject_Z (daily_count articles narrative t) - mean base)
        / Qmax (sample_std sqrt_dp base) eps)%Q.
Proof.
  intros Hw Hk m t base.
  destruct (db_row_day sqrt_dp articles narrative calc_start end_date win eps k)
    as (_ & R2 & R3 & R4 & R5 & R6); [lia|].
  fold t in R2, R3, R4, R5, R6.
  assert (Hp : prior_counts articles narrative calc_start t win = base).
  { unfold prior_counts, base, baseline. do 2 f_equal. unfold t, nth_day. lia. }
  rewrite Hp in R4, R5, R6.
  assert (Hl : Py.len base = win).
  { unfold Py.len, base, baseline. rewrite length_map, generate_series_length. lia. }
  assert (H0 : (Py.len base =? 0) = false) by (apply Z.eqb_neq; lia).
  rewrite H0 in R4, R6.
  subst m. cbn [metric_at Backend.date Backend.article_count Backend.sentiment_mean
                Backend.rolling_mean Backend.rolling_std Backend.intensity].
  repeat split; assumption.
Qed.

(** X12.  Every row of a response has a full baseline: its [rolling_mean] and
    [rolling_std] are the mean and the sample standard deviation of the counts
    of exactly [W] days, the [W] days before its date, and its [intensity] is
    [(article_count - rolling_mean) / max(rolling_std, epsilon)]; the forced
    [0] of a day without history never reaches a response. *)
Theorem response_rows_full_baseline (sqrt_dp : Q -> Q)
        (articles : list Backend.article) (today : Z) (narrative : string)
        (start_date end_date : option Z)
        (window percentile_window : Z) (epsilon : Q)
        (body : list Backend.Metric) (m : Backend.Metric) :
  Backend.narrative_metrics sqrt_dp articles today narrative start_date end_date
                            window percentile_window epsilon
  = Backend.HTTP_200 body ->
  In m body ->
  let base := baseline articles narrative (Backend.date m) window in
  Py.len base = window
  /\ 1 <= window
  /\ Backend.rolling_mean m = mean base
  /\ Backend.rolling_std m = sample_std sqrt_dp base
  /\ Backend.intensity m
     = ((inject_Z (Backend.article_count m) - Backend.rolling_mean m)
        / Qmax (Backend.rolling_std m) epsilon)%Q.
Proof.
  intros Hb Hm.
  destruct (narrative_metrics_row _ _ _ _ _ _ _ _ _ _ _ Hb Hm)
    as (Hv & _ & k & Hk & _ & _ & ->).
  apply query_valid_spec in Hv. destruct Hv as (Hw & Hp & _).
  destruct (metric_at_full sqrt_dp articles narrative
              (Backend.default_start (Backend.default_end today end_date) start_date
               - Z.max window percentile_window)
              (Backend.default_end today end_date) window percentile_window epsilon k)
    as (F0 & F1 & F2 & _ & F4 & F5 & F6); [lia|lia|].
  cbv zeta. rewrite F1, F2, F4, F5, F6. repeat split; try assumption; lia.
Qed.

Lemma Qdiv_pos_iff (a d : Q) : (0 < d)%Q -> (0 < a / d <-> 0 < a)%Q.
Proof.
  intro Hd. split; intro H.
  - assert (E : (a == a / d * d)%Q) by (field; intro Z0; rewrite Z0 in Hd; exact (Qlt_irrefl _ Hd)).
    rewrite E. rewrite <- (Qmult_0_l d). apply Qmult_lt_compat_r; assumption.
  - apply Qlt_shift_div_l; [exact Hd|]. now rewrite Qmult_0_l.
Qed.

(** X13.  In every row of a response the sign of [intensity] is the sign of
    [article_count - rolling_mean]: the intensity is positive exactly when
    the count of the day is above the rolling mean. *)
Theorem intensity_sign (sqrt_dp : Q -> Q)
        (articles : list Backend.article) (today : Z) (narrative : string)
        (start_date end_date : option Z)
        (window percentile_window : Z) (epsilon : Q)
        (body : list Backend.Metric) (m : Backend.Metric) :
  Backend.narrative_metrics sqrt_dp articles today narrative start_date end_date
                            window percentile_window epsilon
  = Backend.HTTP_200 body ->
  In m body ->
  (0 < Backend.intensity m)%Q <->
  (Backend.rolling_mean m < inject_Z (Backend.article_count m))%Q.
Proof.
  intros Hb Hm.
  destruct (narrative_metrics_row _ _ _ _ _ _ _ _ _ _ _ Hb Hm)
    as (Hv & _ & k & Hk & _ & _ & Em).
  apply query_valid_spec in Hv. destruct Hv as (Hw & Hp & He & _).
  destruct (metric_at_full sqrt_dp articles narrative
              (Backend.default_start (Backend.default_end today end_date) start_date
               - Z.max window percentile_window)
              (Backend.default_end today end_date) window percentile_window epsilon k)
    as (_ & _ & F2 & _ & F4 & F5 & F6); [lia|lia|].
  rewrite <- Em in F2, F4, F5, F6. rewrite <- F2, <- F4, <- F5 in F6.
  rewrite F6.
  assert (Hfloor : (epsilon <= Qmax (Backend.rolling_std m) epsilon)%Q)
    by apply Q.le_max_r.
  assert (Hpos : (0 < Qmax (Backend.rolling_std m) epsilon)%Q)
    by (apply Qlt_le_trans with epsilon; assumption).
  rewrite (Qdiv_pos_iff _ _ Hpos). split; intro H.
  - apply Qlt_minus_iff. unfold Qminus in H. exact H.
  - apply Qlt_minus_iff in H. exact H.
Qed.

Lemma metric_at_sentiment_percentile (sqrt_dp : Q -> Q)
      (articles : list Backend.article) (narrative : string)
      (calc_start end_date win pwin : Z) (eps : Q) (k : nat) :
  1 <= pwin ->
  (Z.to_nat pwin <= S k)%nat ->
  (k < Z.to_nat (end_date - calc_start + 1))%nat ->
  Backend.sentiment_percentile
    (metric_at sqrt_dp articles narrative calc_start end_date win pwin eps k)
  = day_sentiment_percentile articles narrative (nth_day calc_start k) pwin.
Proof.
  intros Hp Hk1 Hk.
  set (n := Z.to_nat (end_date - calc_start + 1)) in *.
  cbn [metric_at Backend.sentiment_percentile]. unfold day_sentiment_percentile.
  destruct (db_row_day sqrt_dp articles narrative calc_start end_date win eps k Hk)
    as (_ & _ & Hs & _).
  rewrite Hs.
  destruct (daily_sentiment articles narrative (nth_day calc_start k)) as [x|];
    [|reflexivity].
  do 2 f_equal. rewrite columns_sentiments. fold n.
  rewrite (trailing_window pwin
             (fun k => Backend.row_sentiment_mean
                (nth_db_row sqrt_dp articles narrative calc_start end_date win eps k)))
    by lia.
  unfold Sql.generate_series. rewrite map_map, map_seq_from.
  replace (Z.to_nat (nth_day calc_start k - (nth_day calc_start k - pwin + 1) + 1))
    with (S k - Z.to_nat (Z.max 0 (Z.of_nat k - pwin + 1)))%nat by lia.
  f_equal. apply map_ext_in. intros j Hj. apply in_seq in Hj.
  destruct (db_row_day sqrt_dp articles narrative calc_start end_date win eps
              (Z.to_nat (Z.max 0 (Z.of_nat k - pwin + 1)) + j))
    as (_ & _ & Hs' & _); [fold n; lia|].
  rewrite Hs'. f_equal. unfold nth_day. lia.
Qed.

(** The fields of a row of a response that are functions of its day. *)
Lemma response_row_of_day (sqrt_dp : Q -> Q)
      (articles : list Backend.article) (today : Z) (narrative : string)
      (start_date end_date : option Z)
      (window percentile_window : Z) (epsilon : Q)
      (body : list Backend.Metric) (m : Backend.Metric) :
  Backend.narrative_metrics sqrt_dp articles today narrative start_date end_date
                            window percentile_window epsilon
  = Backend.HTTP_200 body ->
  In m body ->
  let t := Backend.date m in
  let base := baseline articles narrative t window in
  Backend.article_count m = daily_count articles narrative t
  /\ Backend.sentiment_mean m = daily_sentiment articles narrative t
  /\ Backend.rolling_mean m = mean base
  /\ Backend.rolling_std m = sample_std sqrt_dp base
  /\ Backend.intensity m
     = ((inject_Z (daily_count articles narrative t) - mean base)
        / Qmax (sample_std sqrt_dp base) epsilon)%Q
  /\ Backend.sentiment_percentile m
     = day_sentiment_percentile articles narrative t percentile_window.
Proof.
  intros Hb Hm.
  destruct (narrative_metrics_row _ _ _ _ _ _ _ _ _ _ _ Hb Hm)
    as (Hv & _ & k & Hk & _ & _ & ->).
  apply query_valid_spec in Hv. destruct Hv as (Hw & Hp & _).
  set (e := Backend.default_end today end_date) in *.
  set (calc_start := Backend.default_start e start_date
                     - Z.max window percentile_window) in *.
  destruct (metric_at_full sqrt_dp articles narrative calc_start e window
              percentile_window epsilon k)
    as (_ & F1 & F2 & F3 & F4 & F5 & F6); [lia|lia|].
  pose proof (metric_at_sentiment_percentile sqrt_dp articles narrative calc_start e
                window percentile_window epsilon k) as F7.
  cbv zeta. rewrite F1. rewrite F7 by lia. repeat split; assumption.
Qed.

(** X14.  The row of a day does not depend on the range that was asked for:
    two responses for the same narrative, [W], [P] and [epsilon] agree, on a
    day they both contain, in [article_count], [rolling_mean], [rolling_std],
    [intensity], [sentiment_mean] and [sentiment_percentile]
    ([intensity_percentile], which reads the lookback, is not in the list). *)
Theorem row_independent_of_range (sqrt_dp : Q -> Q)
        (articles : list Backend.article) (narrative : string)
        (window percentile_window : Z) (epsilon : Q)
        (today1 today2 : Z) (start1 end1 start2 end2 : option Z)
        (body1 body2 : list Backend.Metric) (m1 m2 : Backend.Metric) :
  Backend.narrative_metrics sqrt_dp articles today1 narrative start1 end1
                            window percentile_window epsilon
  = Backend.HTTP_200 body1 ->
  Backend.narrative_metrics sqrt_dp articles today2 narrative start2 end2
                            window percentile_window epsilon
  = Backend.HTTP_200 body2 ->
  In m1 body1 -> In m2 body2 ->
  Backend.date m1 = Backend.date m2 ->
  Backend.article_count m1 = Backend.article_count m2
  /\ Backend.rolling_mean m1 = Backend.rolling_mean m2
  /\ Backend.rolling_std m1 = Backend.rolling_std m2
  /\ Backend.intensity m1 = Backend.intensity m2
  /\ Backend.sentiment_mean m1 = Backend.sentiment_mean m2
  /\ Backend.sentiment_percentile m1 = Backend.sentiment_percentile m2.
Proof.
  intros Hb1 Hb2 Hm1 Hm2 Hd.
  destruct (response_row_of_day _ _ _ _ _ _ _ _ _ _ _ Hb1 Hm1)
    as (A1 & A2 & A3 & A4 & A5 & A6).
  destruct (response_row_of_day _ _ _ _ _ _ _ _ _ _ _ Hb2 Hm2)
    as (B1 & B2 & B3 & B4 & B5 & B6).
  rewrite A1, A2, A3, A4, A5, A6, B1, B2, B3, B4, B5, B6, Hd.
  repeat split; reflexivity.
Qed.

(** The one field that does depend on the range: with counts 10, 0, 1, 1 on
    days 97 to 100 and [W = P = 2], day 100 has [intensity_percentile] 1 when
    the range starts on day 99, and 0 when it starts on day 100 (the baseline
    of day 99 then lacks day 97). *)
Example intensity_percentile_depends_on_range :
  let db := Sample.burst 97 10 ++ [Sample.fed 1 99 None; Sample.fed 2 100 None] in
  let day_100 r := filter (fun m => Backend.date m =? 100) (Sample.rows_of r) in
  (forall m, In m (day_100 (Backend.narrative_metrics Sample.sqrt_approx db
                              100 "fed" (Some 99) None 2 2 (1 # 4))) ->
             (Backend.intensity_percentile m == 1)%Q)
  /\ (forall m, In m (day_100 (Backend.narrative_metrics Sample.sqrt_approx db
                                 100 "fed" (Some 100) None 2 2 (1 # 4))) ->
                (Backend.intensity_percentile m == 0)%Q)
  /\ List.length (day_100 (Backend.narrative_metrics Sample.sqrt_approx db
                             100 "fed" (Some 99) None 2 2 (1 # 4))) = 1%nat
  /\ List.length (day_100 (Backend.narrative_metrics Sample.sqrt_approx db
                             100 "fed" (Some 100) None 2 2 (1 # 4))) = 1%nat.
Proof.
  vm_compute. repeat split; try reflexivity;
    intros m [<-|[]]; reflexivity.
Qed.

(** ** The list of narratives *)

Lemma insert_text_In (le : string -> string -> bool) (x y : string) (l : list string) :
  In y (Sql.insert_text le x l) <-> y = x \/ In y l.
Proof.
  induction l as [|z l IH]; simpl; [intuition|].
  destruct (le x z); simpl; [intuition|]. rewrite IH. intuition.
Qed.

Lemma order_by_text_In (le : string -> string -> bool) (y : string) (l : list string) :
  In y (Sql.order_by_text le l) <-> In y l.
Proof.
  unfold Sql.order_by_text. induction l as [|x l IH]; simpl; [tauto|].
  rewrite insert_text_In, IH. intuition.
Qed.

Lemma insert_text_NoDup (le : string -> string -> bool) (x : string) (l : list string) :
  ~ In x l -> NoDup l -> NoDup (Sql.insert_text le x l).
Proof.
  induction l as [|z l IH]; simpl; intros Hx ND.
  - constructor; [tauto | constructor].
  - destruct (le x z); [now constructor|].
    inversion ND as [|? ? Hz ND']; subst. constructor.
    + rewrite insert_text_In. intuition.
    + apply IH; [intuition | exact ND'].
Qed.

Lemma order_by_text_NoDup (le : string -> string -> bool) (l : list string) :
  NoDup l -> NoDup (Sql.order_by_text le l).
Proof.
  unfold Sql.order_by_text. induction 1 as [|x l Hx ND IH]; simpl; [constructor|].
  apply insert_text_NoDup; [|exact IH].
  intro H. apply Hx. now apply (order_by_text_In le).
Qed.

Lemma distinct_string_In (l : list string) (x : string) :
  In x (Sql.distinct String.eqb l) <-> In x l.
Proof.
  split; [apply distinct_incl|]. intro H.
  destruct (distinct_covers String.eqb l x H) as (y & Hy & [->|E]); [exact Hy|].
  apply String.eqb_eq in E. now subst.
Qed.

Lemma distinct_string_NoDup (l : list string) : NoDup (Sql.distinct String.eqb l).
Proof.
  unfold Sql.distinct. induction l as [|a l IH]; simpl; [constructor|].
  destruct (existsb (String.eqb a) _) eqn:E; [exact IH|].
  constructor; [|exact IH]. intro H.
  assert (E' : existsb (String.eqb a)
                 (fold_right (fun x acc => if existsb (String.eqb x) acc then acc else x :: acc)
                             [] l) = true).
  { apply existsb_exists. exists a. split; [exact H | apply String.eqb_refl]. }
  congruence.
Qed.

Lemma insert_text_sorted (le : string -> string -> bool) (x : string) (l : list string) :
  (forall a b, le a b = true \/ le b a = true) ->
  Sorted (fun a b => le a b = true) l ->
  Sorted (fun a b => le a b = true) (Sql.insert_text le x l).
Proof.
  intros Htot. induction 1 as [|z l Hs IH Hd]; simpl.
  - repeat constructor.
  - destruct (le x z) eqn:E.
    + constructor; [now constructor | now constructor].
    + constructor; [exact IH|].
      destruct Hd as [|w l Hzw]; simpl.
      * constructor. destruct (Htot x z) as [H|H]; [congruence | exact H].
      * destruct (le x w); constructor; [|exact Hzw].
        destruct (Htot x z) as [H|H]; [congruence | exact H].
Qed.

Lemma list_narratives_In (collation : string -> string -> bool)
      (articles : list Backend.article) (label : string) :
  In label (Backend.list_narratives collation articles) <->
  exists a, In a articles /\ Backend.primary_label_v2 a = Some label.
Proof.
  unfold Backend.list_narratives.
  rewrite order_by_text_In, distinct_string_In, present_In, in_map_iff.
  split; intros (a & H1 & H2); exists a; tauto.
Qed.

(** X15.  [list_narratives] returns each label that some article carries
    exactly once, and nothing else; an article without a label contributes
    nothing. *)
Theorem list_narratives_labels (collation : string -> string -> bool)
        (articles : list Backend.article) :
  NoDup (Backend.list_narratives collation articles)
  /\ forall label,
      In label (Backend.list_narratives collation articles) <->
      exists a, In a articles /\ Backend.primary_label_v2 a = Some label.
Proof.
  unfold Backend.list_narratives. split.
  - apply order_by_text_NoDup, distinct_string_NoDup.
  - intro label. apply list_narratives_In.
Qed.

(** X16.  Under a collation that compares any two labels, the list of
    narratives comes back in ascending order. *)
Theorem list_narratives_sorted (collation : string -> string -> bool)
        (articles : list Backend.article) :
  (forall a b, collation a b = true \/ collation b a = true) ->
  Sorted (fun a b => collation a b = true)
         (Backend.list_narratives collation articles).
Proof.
  intro Htot. unfold Backend.list_narratives, Sql.order_by_text.
  induction (Sql.distinct String.eqb (present (map Backend.primary_label_v2 articles)))
    as [|x l IH]; simpl; [constructor|].
  now apply insert_text_sorted.
Qed.

(** ** A narrative without articles *)

Lemma unlisted_no_label (collation : string -> string -> bool)
      (articles : list Backend.article) (narrative : string) :
  ~ In narrative (Backend.list_narratives collation articles) ->
  forall a, In a articles -> Backend.label_is a narrative = false.
Proof.
  intros Hno a Ha. unfold Backend.label_is.
  destruct (Backend.primary_label_v2 a) as [l|] eqn:El; [|reflexivity].
  destruct (String.eqb l narrative) eqn:E; [|reflexivity].
  apply String.eqb_eq in E. subst l. exfalso. apply Hno.
  apply list_narratives_In. now exists a.
Qed.

Lemma Qsum_zeros (xs : list Z) :
  (forall x, In x xs -> x = 0) -> (Sql.Qsum (map inject_Z xs) == 0)%Q.
Proof.
  induction xs as [|x xs IH]; intro H; simpl; [reflexivity|].
  rewrite (H x (or_introl eq_refl)), IH; [reflexivity|].
  intros y Hy. apply H. now right.
Qed.

Lemma mean_zeros (xs : list Z) : (forall x, In x xs -> x = 0) -> (mean xs == 0)%Q.
Proof.
  intro H. unfold mean. rewrite (Qsum_zeros xs H). unfold Qdiv. apply Qmult_0_l.
Qed.

Lemma zero_over (a d : Q) : (a == 0)%Q -> (a / d == 0)%Q.
Proof. intro H. unfold Qdiv. rewrite H. apply Qmult_0_l. Qed.

Section NoData.
Variable sqrt_dp : Q -> Q.
Variables (articles : list Backend.article) (narrative : string).
Hypothesis Hno : forall a, In a articles -> Backend.label_is a narrative = false.

Lemma no_items (d : Z) : items_on articles narrative d = [].
Proof.
  unfold items_on, Backend.daily_items. rewrite filter_none; [reflexivity|].
  intros a Ha. now rewrite (Hno a Ha).
Qed.

Lemma no_count (d : Z) : daily_count articles narrative d = 0.
Proof. unfold daily_count. now rewrite no_items. Qed.

Lemma no_sentiment (d : Z) : daily_sentiment articles narrative d = None.
Proof. unfold daily_sentiment. now rewrite no_items. Qed.

Lemma no_intensity (calc_start end_date win : Z) (eps : Q) (k : nat) :
  (k < Z.to_nat (end_date - calc_start + 1))%nat ->
  (Py.float_or 0 (Backend.row_intensity
     (nth_db_row sqrt_dp articles narrative calc_start end_date win eps k)) == 0)%Q.
Proof.
  intro Hk.
  destruct (db_row_day sqrt_dp articles narrative calc_start end_date win eps k Hk)
    as (_ & _ & _ & _ & _ & R6).
  rewrite R6. destruct (_ =? 0); [reflexivity|].
  apply zero_over. rewrite no_count. rewrite mean_zeros.
  - reflexivity.
  - intros x Hx. unfold prior_counts in Hx. apply in_map_iff in Hx.
    destruct Hx as (d & <- & _). apply no_count.
Qed.
End NoData.

(** X17.  A narrative that [list_narratives] does not list still gets a
    response, one row per day, and every row is empty: [article_count] is 0,
    [sentiment_mean] and [sentiment_percentile] are absent, and
    [rolling_mean], [intensity] and [intensity_percentile] are 0. *)
Theorem unlisted_narrative_all_zero (sqrt_dp : Q -> Q)
        (collation : string -> string -> bool)
        (articles : list Backend.article) (today : Z) (narrative : string)
        (start_date end_date : option Z)
        (window percentile_window : Z) (epsilon : Q)
        (body : list Backend.Metric) (m : Backend.Metric) :
  ~ In narrative (Backend.list_narratives collation articles) ->
  Backend.narrative_metrics sqrt_dp articles today narrative start_date end_date
                            window percentile_window epsilon
  = Backend.HTTP_200 body ->
  In m body ->
  Backend.article_count m = 0
  /\ Backend.sentiment_mean m = None
  /\ Backend.sentiment_percentile m = None
  /\ (Backend.rolling_mean m == 0)%Q
  /\ (Backend.intensity m == 0)%Q
  /\ (Backend.intensity_percentile m == 0)%Q.
Proof.
  intros Hun Hb Hm.
  pose proof (unlisted_no_label collation articles narrative Hun) as Hno.
  destruct (response_row_of_day _ _ _ _ _ _ _ _ _ _ _ Hb Hm)
    as (A1 & A2 & A3 & _ & A5 & A6).
  assert (Hbase : forall x, In x (baseline articles narrative (Backend.date m) window)
                            -> x = 0).
  { intros x Hx. unfold baseline in Hx. apply in_map_iff in Hx.
    destruct Hx as (d & <- & _). now apply no_count. }
  split; [rewrite A1; now apply no_count|].
  split; [rewrite A2; now apply no_sentiment|].
  split; [rewrite A6; unfold day_sentiment_percentile;
          now rewrite (no_sentiment articles narrative Hno)|].
  split; [rewrite A3; now apply mean_zeros|].
  split.
  - rewrite A5. apply zero_over.
    rewrite (no_count articles narrative Hno), (mean_zeros _ Hbase). reflexivity.
  - destruct (narrative_metrics_row _ _ _ _ _ _ _ _ _ _ _ Hb Hm)
      as (Hv & _ & k & Hk & _ & _ & ->).
    apply query_valid_spec in Hv. destruct Hv as (_ & Hp & _).
    set (e := Backend.default_end today end_date) in *.
    set (calc_start := Backend.default_start e start_date
                       - Z.max window percentile_window) in *.
    cbn [metric_at Backend.intensity_percentile].
    rewrite percent_rank_unfold. destruct (_ <=? 1); [reflexivity|].
    rewrite strictly_less_none; [apply truediv_zero|].
    intros v Hv. rewrite columns_intensities in Hv.
    rewrite (trailing_window percentile_window
               (fun k => Py.float_or 0 (Backend.row_intensity
                  (nth_db_row sqrt_dp articles narrative calc_start e window epsilon k))))
      in Hv by lia.
    apply in_map_iff in Hv. destruct Hv as (j & <- & Hj). apply in_seq in Hj.
    rewrite (no_intensity sqrt_dp articles narrative Hno calc_start e window epsilon k)
      by lia.
    rewrite (no_intensity sqrt_dp articles narrative Hno calc_start e window epsilon j)
      by lia.
    apply Qle_refl.
Qed.

(** ** What the query reads *)

Lemma narrative_metrics_from_items (sqrt_dp : Q -> Q)
      (db1 db2 : list Backend.article) (today : Z) (narrative : string)
      (start_date end_date : option Z)
      (window percentile_window : Z) (epsilon : Q) :
  (Backend.query_valid window percentile_window epsilon = true ->
   Backend.daily_items db1 narrative
     (Backend.default_start (Backend.default_end today end_date) start_date
      - Z.max window percentile_window)
     (Backend.default_end today end_date)
   = Backend.daily_items db2 narrative
       (Backend.default_start (Backend.default_end today end_date) start_date
        - Z.max window percentile_window)
       (Backend.default_end today end_date)) ->
  Backend.narrative_metrics sqrt_dp db1 today narrative start_date end_date
                            window percentile_window epsilon
  = Backend.narrative_metrics sqrt_dp db2 today narrative start_date end_date
                              window percentile_window epsilon.
Proof.
  intro H.
  destruct (Backend.query_valid window percentile_window epsilon) eqn:Hv.
  2:{ unfold Backend.narrative_metrics. now rewrite Hv. }
  specialize (H eq_refl).
  set (e := Backend.default_end today end_date) in *.
  set (s := Backend.default_start e start_date) in *.
  assert (Hc : Backend.compute_columns sqrt_dp db1 narrative
                 (s - Z.max window percentile_window) e window epsilon
               = Backend.compute_columns sqrt_dp db2 narrative
                   (s - Z.max window percentile_window) e window epsilon).
  { unfold Backend.compute_columns, Backend.fetch. now rewrite H. }
  pose proof (proj1 (query_valid_spec _ _ _) Hv) as (Hw & Hp & _).
  unfold Backend.narrative_metrics. rewrite Hv. cbn [negb]. fold e.
  destruct (Backend.resolve_start e start_date) as [s'|] eqn:Hs; [|reflexivity].
  apply resolve_start_Some in Hs. fold e in Hs. fold s in Hs. subst s'.
  destruct (e <? s); [reflexivity|].
  replace (Z.max 1 (Z.min window 365)) with window by lia.
  replace (Z.max 1 (Z.min percentile_window 730)) with percentile_window by lia.
  destruct (Backend.date_sub s (Z.max window percentile_window)) as [c0|] eqn:Hd;
    [|reflexivity].
  apply date_sub_spec in Hd. destruct Hd as [-> _]. now rewrite Hc.
Qed.

(** X18.  A response depends on the table only through the articles of the
    narrative dated between [start_date - max(W, P)] and [end_date]: two
    tables that agree on those articles get the same response, so articles of
    other narratives, older than the lookback or later than [end_date] are
    never read. *)
Theorem narrative_metrics_reads_visible_only (sqrt_dp : Q -> Q)
        (db1 db2 : list Backend.article) (today : Z) (narrative : string)
        (start_date end_date : option Z)
        (window percentile_window : Z) (epsilon : Q) :
  let e := Backend.default_end today end_date in
  let s := Backend.default_start e start_date in
  visible narrative (s - Z.max window percentile_window) e db1
  = visible narrative (s - Z.max window percentile_window) e db2 ->
  Backend.narrative_metrics sqrt_dp db1 today narrative start_date end_date
                            window percentile_window epsilon
  = Backend.narrative_metrics sqrt_dp db2 today narrative start_date end_date
                              window percentile_window epsilon.
Proof.
  intros e s H. apply narrative_metrics_from_items. intros _.
  unfold Backend.daily_items. fold e. fold s. unfold visible in H. now rewrite H.
Qed.

Lemma score_eqb_refl (x : option Q) : Backend.score_eqb x x = true.
Proof. destruct x; [apply Qeq_bool_refl | reflexivity]. Qed.

Lemma item_eqb_refl (it : Backend.item) : Backend.item_eqb it it = true.
Proof.
  unfold Backend.item_eqb. now rewrite !Z.eqb_refl, score_eqb_refl.
Qed.

Lemma daily_items_duplicate (a : Backend.article) (db : list Backend.article)
      (narrative : string) (lo hi : Z) :
  In a db ->
  Backend.daily_items (a :: db) narrative lo hi = Backend.daily_items db narrative lo hi.
Proof.
  intro Ha. unfold Backend.daily_items. cbn [filter].
  destruct (Backend.label_is a narrative
            && Backend.between (Backend.published_at a) lo hi) eqn:Ec; [|reflexivity].
  cbn [map]. unfold Sql.distinct at 1. cbn [fold_right].
  fold (Sql.distinct Backend.item_eqb
          (map (fun a0 => {| Backend.item_id := Backend.id a0;
                             Backend.item_date := Backend.published_at a0;
                             Backend.item_score := Backend.sentiment_score a0 |})
               (filter (fun a0 => Backend.label_is a0 narrative
                                  && Backend.between (Backend.published_at a0) lo hi)
                       db))).
  set (x := {| Backend.item_id := Backend.id a;
               Backend.item_date := Backend.published_at a;
               Backend.item_score := Backend.sentiment_score a |}).
  set (l := map _ (filter _ db)).
  assert (Hx : In x l).
  { subst l x. apply in_map_iff. exists a. split; [reflexivity|].
    apply filter_In. split; assumption. }
  destruct (distinct_covers Backend.item_eqb l x Hx) as (y & Hy & Hxy).
  replace (existsb (Backend.item_eqb x) (Sql.distinct Backend.item_eqb l)) with true;
    [reflexivity|].
  symmetry. apply existsb_exists. exists y. split; [exact Hy|].
  destruct Hxy as [->|E]; [apply item_eqb_refl | exact E].
Qed.

(** X19.  A row of the table that is listed twice counts once: adding a copy
    of an article that is already in the table changes no response. *)
Theorem duplicate_article_ignored (sqrt_dp : Q -> Q)
        (a : Backend.article) (db : list Backend.article)
        (today : Z) (narrative : string) (start_date end_date : option Z)
        (window percentile_window : Z) (epsilon : Q) :
  In a db ->
  Backend.narrative_metrics sqrt_dp (a :: db) today narrative start_date end_date
                            window percentile_window epsilon
  = Backend.narrative_metrics sqrt_dp db today narrative start_date end_date
                              window percentile_window epsilon.
Proof.
  intro Ha. apply narrative_metrics_from_items. intros _.
  now apply daily_items_duplicate.
Qed.

Lemma score_eqb_trans_sym (x y z : option Q) :
  Backend.score_eqb x z = true -> Backend.score_eqb y z = true ->
  Backend.score_eqb x y = true.
Proof.
  destruct x as [x|], y as [y|], z as [z|]; simpl; try discriminate; try reflexivity.
  intros H1 H2. apply Qeq_bool_iff in H1. apply Qeq_bool_iff in H2.
  apply Qeq_bool_iff. now rewrite H1, H2.
Qed.

Lemma two_distinct_length {A} (l : list A) (x y : A) :
  In x l -> In y l -> x <> y -> (2 <= List.length l)%nat.
Proof.
  intros Hx Hy Hxy. destruct l as [|a [|b l]]; cbn [List.length]; [| |lia].
  - destruct Hx.
  - exfalso. destruct Hx as [<-|[]], Hy as [<-|[]]. now apply Hxy.
Qed.

(** X20.  Items are told apart by id, day and score together: two articles
    of a narrative on one day whose sentiment scores differ count as two
    items in the row of that day, whatever their ids. *)
Theorem differing_scores_count_twice (sqrt_dp : Q -> Q)
        (articles : list Backend.article) (today : Z) (narrative : string)
        (start_date end_date : option Z)
        (window percentile_window : Z) (epsilon : Q)
        (body : list Backend.Metric) (m : Backend.Metric)
        (a a' : Backend.article) :
  Backend.narrative_metrics sqrt_dp articles today narrative start_date end_date
                            window percentile_window epsilon
  = Backend.HTTP_200 body ->
  In m body ->
  In a articles -> In a' articles ->
  Backend.label_is a narrative = true -> Backend.label_is a' narrative = true ->
  Backend.published_at a = Backend.date m ->
  Backend.published_at a' = Backend.date m ->
  Backend.score_eqb (Backend.sentiment_score a) (Backend.sentiment_score a') = false ->
  2 <= Backend.article_count m.
Proof.
  intros Hb Hm Ha Ha' Hl Hl' Hd Hd' Hs.
  destruct (response_row_of_day _ _ _ _ _ _ _ _ _ _ _ Hb Hm) as (A1 & _).
  rewrite A1. unfold daily_count, Sql.COUNT_star.
  destruct (article_items_on articles narrative a Ha Hl) as (y & Hy & Ey).
  destruct (article_items_on articles narrative a' Ha' Hl') as (y' & Hy' & Ey').
  rewrite Hd in Hy. rewrite Hd' in Hy'.
  assert (Hne : y <> y').
  { intros <-. rewrite (score_eqb_trans_sym _ _ _ Ey Ey') in Hs. discriminate. }
  pose proof (two_distinct_length _ _ _ Hy Hy' Hne). lia.
Qed.

(** ** Degenerate percentile window, and the number of rows *)

(** X21.  With [percentile_window = 1] every window holds one value, so every
    [intensity_percentile] of a response is 0 and every [sentiment_percentile]
    that is present is 0. *)
Theorem single_day_window_all_zero (sqrt_dp : Q -> Q)
        (articles : list Backend.article) (today : Z) (narrative : string)
        (start_date end_date : option Z) (window : Z) (epsilon : Q)
        (body : list Backend.Metric) (m : Backend.Metric) :
  Backend.narrative_metrics sqrt_dp articles today narrative start_date end_date
                            window 1 epsilon
  = Backend.HTTP_200 body ->
  In m body ->
  Backend.intensity_percentile m = 0%Q
  /\ (Backend.sentiment_percentile m = None
      \/ Backend.sentiment_percentile m = Some 0%Q).
Proof.
  intros Hb Hm.
  destruct (narrative_metrics_row _ _ _ _ _ _ _ _ _ _ _ Hb Hm)
    as (_ & _ & k & Hk & _ & _ & ->).
  set (e := Backend.default_end today end_date) in *.
  set (calc_start := Backend.default_start e start_date - Z.max window 1) in *.
  cbn [metric_at Backend.intensity_percentile Backend.sentiment_percentile].
  rewrite columns_intensities, columns_sentiments.
  rewrite (trailing_window 1
             (fun k => Py.float_or 0 (Backend.row_intensity
                (nth_db_row sqrt_dp articles narrative calc_start e window epsilon k))))
    by lia.
  rewrite (trailing_window 1
             (fun k => Backend.row_sentiment_mean
                (nth_db_row sqrt_dp articles narrative calc_start e window epsilon k)))
    by lia.
  replace (Z.to_nat (Z.max 0 (Z.of_nat k - 1 + 1))) with k by lia.
  replace (S k - k)%nat with 1%nat by lia. cbn [seq map].
  split; [reflexivity|].
  destruct (Backend.row_sentiment_mean _) as [x|]; [right|left]; reflexivity.
Qed.

(** X22.  A response has [end_date - start_date + 1] rows; with [start_date]
    omitted it has 366, the first of them 365 days before the end. *)
Theorem response_row_count (sqrt_dp : Q -> Q)
        (articles : list Backend.article) (today : Z) (narrative : string)
        (start_date end_date : option Z)
        (window percentile_window : Z) (epsilon : Q)
        (body : list Backend.Metric) :
  Backend.narrative_metrics sqrt_dp articles today narrative start_date end_date
                            window percentile_window epsilon
  = Backend.HTTP_200 body ->
  let e := Backend.default_end today end_date in
  let s := Backend.default_start e start_date in
  Z.of_nat (List.length body) = e - s + 1
  /\ (start_date = None ->
      List.length body = 366%nat
      /\ option_map Backend.date (hd_error body) = Some (e - 365)).
Proof.
  intros Hb e s.
  destruct (narrative_metrics_200 _ _ _ _ _ _ _ _ _ _ Hb) as (Hv & Hse & _ & _).
  fold e in Hse. fold s in Hse.
  apply narrative_metrics_rows in Hb. fold e in Hb. fold s in Hb. subst body.
  apply query_valid_spec in Hv. destruct Hv as (Hw & Hp & _).
  split.
  - rewrite length_map, length_seq. lia.
  - intros ->. subst s. cbn [Backend.default_start].
    replace (Z.to_nat (e - (e - 365) + 1)) with 366%nat by lia.
    split; [now rewrite length_map, length_seq|].
    cbn [seq map hd_error option_map metric_at Backend.date]. f_equal.
    unfold nth_day. lia.
Qed.

(** ** Date helpers *)

(** X23.  [get_date_range_days] returns 0 in two cases that a caller cannot
    tell apart: the two dates are the same day, or one of them does not
    parse. *)
Theorem get_date_range_days_zero (strptime : string -> option Z)
        (start_date end_date : string) :
  Utils.get_date_range_days strptime start_date end_date = 0 <->
  strptime start_date = None \/ strptime end_date = None
  \/ strptime start_date = strptime end_date.
Proof.
  unfold Utils.get_date_range_days.
  destruct (strptime start_date) as [a|], (strptime end_date) as [b|]; split;
    try tauto; try (intros _; reflexivity).
  - intro H. right. right. f_equal. lia.
  - intros [H|[H|H]]; try discriminate. injection H as ->. lia.
Qed.

(** X24.  The range [get_date_range_for_period] returns is as long as its
    period: when the end date parses and the start date it writes reads back,
    [get_date_range_days] of the returned pair is 30, 90, 180 or 365 for
    ["30d"], ["90d"], ["180d"], ["365d"], and 180 for any other period; the
    end date is returned as it was given. *)
Theorem period_range_round_trip (strptime : string -> option Z)
        (strftime : Z -> string) (today : Z) (period : string)
        (end_date : string) (e : Z) :
  strptime end_date = Some e ->
  strptime (strftime (e - Utils.period_days period))
  = Some (e - Utils.period_days period) ->
  exists start,
    Utils.get_date_range_for_period strptime strftime today period (Some end_date)
    = Some (start, end_date)
    /\ Utils.get_date_range_days strptime start end_date = Utils.period_days period
    /\ (period = "30d"%string -> Utils.period_days period = 30)
    /\ (period = "90d"%string -> Utils.period_days period = 90)
    /\ (period = "365d"%string -> Utils.period_days period = 365)
    /\ (period <> "30d"%string -> period <> "90d"%string ->
        period <> "365d"%string -> Utils.period_days period = 180).
Proof.
  intros He Hs. exists (strftime (e - Utils.period_days period)).
  unfold Utils.get_date_range_for_period, Utils.get_date_range_days.
  rewrite He, Hs. split; [reflexivity|]. split; [lia|].
  repeat split.
  - intros ->. reflexivity.
  - intros ->. reflexivity.
  - intros ->. reflexivity.
  - intros H1 H2 H3. unfold Utils.period_days.
    apply String.eqb_neq in H1, H2, H3. rewrite H1, H2, H3.
    now destruct (String.eqb period "180d").
Qed.

Lemma max_date_ge (rest : list Z) : forall first,
  first <= Utils.max_date first rest
  /\ (forall t, In t rest -> t <= Utils.max_date first rest)
  /\ In (Utils.max_date first rest) (first :: rest).
Proof.
  unfold Utils.max_date. induction rest as [|x rest IH]; intro first; simpl.
  - split; [lia|]. split; [tauto | now left].
  - destruct (IH (Z.max first x)) as (H1 & H2 & H3). split; [lia|]. split.
    + intros t [<-|Ht]; [lia | now apply H2].
    + simpl in H3. destruct H3 as [H3|H3]; [|right; now right].
      rewrite <- H3. destruct (Z.max_spec first x) as [[_ ->]|[_ ->]];
        [right; now left | now left].
Qed.

(** X25.  When every date of a non-empty list parses, [get_latest_date]
    returns the latest of the parsed dates, written out again: a date of the
    list that no other date of the list is after. *)
Theorem get_latest_date_parsed (strptime : string -> option Z)
        (strftime : Z -> string) (dates_list : list string) (ts : list Z) :
  dates_list <> [] ->
  Utils.parse_all strptime dates_list = Some ts ->
  exists latest,
    Utils.get_latest_date strptime strftime dates_list = Some (strftime latest)
    /\ In latest ts
    /\ forall t, In t ts -> t <= latest.
Proof.
  intros Hne Hp. unfold Utils.get_latest_date.
  destruct dates_list as [|d0 ds]; [congruence|]. rewrite Hp.
  destruct ts as [|first rest].
  - simpl in Hp. destruct (strptime d0); [|discriminate].
    destruct (Utils.parse_all strptime ds); discriminate.
  - destruct (max_date_ge rest first) as (H1 & H2 & H3).
    exists (Utils.max_date first rest). split; [reflexivity|]. split; [exact H3|].
    intros t [<-|Ht]; [exact H1 | now apply H2].
Qed.

Lemma ascii_compare_refl (a : ascii) : Ascii.compare a a = Eq.
Proof. unfold Ascii.compare. apply N.compare_refl. Qed.

Lemma string_leb_refl (s : string) : String.leb s s = true.
Proof.
  unfold String.leb. induction s as [|c s IH]; simpl; [reflexivity|].
  now rewrite ascii_compare_refl.
Qed.

Lemma string_leb_trans (s1 : string) : forall s2 s3,
  String.leb s1 s2 = true -> String.leb s2 s3 = true -> String.leb s1 s3 = true.
Proof.
  unfold String.leb.
  induction s1 as [|c1 s1 IH]; intros [|c2 s2] [|c3 s3]; simpl; try congruence.
  unfold Ascii.compare.
  destruct (N.compare_spec (N_of_ascii c1) (N_of_ascii c2)) as [E12|L12|G12];
  destruct (N.compare_spec (N_of_ascii c2) (N_of_ascii c3)) as [E23|L23|G23];
  destruct (N.compare_spec (N_of_ascii c1) (N_of_ascii c3)) as [E13|L13|G13];
  try congruence; try lia.
  apply IH.
Qed.

Lemma insert_reverse_In (x y : string) (l : list string) :
  In y (Utils.insert_reverse x l) <-> y = x \/ In y l.
Proof.
  induction l as [|z l IH]; simpl; [intuition|].
  destruct (String.leb z x); simpl; [intuition|]. rewrite IH. intuition.
Qed.

Lemma sorted_reverse_In (y : string) (l : list string) :
  In y (Utils.sorted_reverse l) <-> In y l.
Proof.
  unfold Utils.sorted_reverse. induction l as [|x l IH]; simpl; [tauto|].
  rewrite insert_reverse_In, IH. intuition.
Qed.

Lemma sorted_reverse_head (l : list string) (x : string) (rest : list string) :
  Utils.sorted_reverse l = x :: rest ->
  forall y, In y l -> String.leb y x = true.
Proof.
  unfold Utils.sorted_reverse. revert x rest.
  induction l as [|a l IH]; intros x rest H y Hy; [destruct Hy|].
  cbn [fold_right] in H.
  destruct (fold_right Utils.insert_reverse [] l) as [|b sorted] eqn:Es.
  - assert (l = []).
    { destruct l as [|c l']; [reflexivity|]. exfalso.
      assert (Hc : In c (Utils.sorted_reverse (c :: l')))
        by (apply sorted_reverse_In; now left).
      unfold Utils.sorted_reverse in Hc. rewrite Es in Hc. destruct Hc. }
    subst l. simpl in H. injection H as <- _.
    destruct Hy as [<-|[]]. apply string_leb_refl.
  - cbn [Utils.insert_reverse] in H. specialize (IH b sorted eq_refl).
    destruct (String.leb b a) eqn:Eba.
    + injection H as <- _. destruct Hy as [<-|Hy]; [apply string_leb_refl|].
      apply string_leb_trans with b; [now apply IH | exact Eba].
    + injection H as <- _. destruct Hy as [<-|Hy]; [|now apply IH].
      destruct (String.leb_total a b) as [H|H]; [exact H | congruence].
Qed.

(** X26.  When a date of the list does not parse, [get_latest_date] falls
    back on the order of the strings: it returns a string of the list that no
    string of the list is above, and never [None] for a non-empty list. *)
Theorem get_latest_date_fallback (strptime : string -> option Z)
        (strftime : Z -> string) (dates_list : list string) :
  dates_list <> [] ->
  Utils.parse_all strptime dates_list = None ->
  exists x,
    Utils.get_latest_date strptime strftime dates_list = Some x
    /\ In x dates_list
    /\ forall y, In y dates_list -> String.leb y x = true.
Proof.
  intros Hne Hp. unfold Utils.get_latest_date.
  destruct dates_list as [|d0 ds]; [congruence|]. rewrite Hp.
  destruct (Utils.sorted_reverse (d0 :: ds)) as [|x rest] eqn:Es.
  - exfalso. assert (Hd : In d0 (Utils.sorted_reverse (d0 :: ds)))
      by (apply sorted_reverse_In; now left).
    rewrite Es in Hd. destruct Hd.
  - exists x. split; [reflexivity|]. split.
    + apply sorted_reverse_In. rewrite Es. now left.
    + exact (sorted_reverse_head _ _ _ Es).
Qed.

(** ** Colours *)

Lemma color_rank_intensity (v : Q) :
  color_rank (Utils.color_intensity v)
  = if Py.lt v (-(1 # 2)) then 0 else if Py.gt v (1 # 2) then 2 else 1.
Proof.
  unfold Utils.color_intensity.
  destruct (Py.lt v (-(1 # 2))); [reflexivity|]. now destruct (Py.gt v (1 # 2)).
Qed.

Lemma color_rank_sentiment (v : Q) :
  color_rank (Utils.color_sentiment v)
  = if Py.lt v (-(3 # 10)) then 0 else if Py.gt v (3 # 10) then 2 else 1.
Proof.
  unfold Utils.color_sentiment.
  destruct (Py.lt v (-(3 # 10))); [reflexivity|]. now destruct (Py.gt v (3 # 10)).
Qed.

Lemma threshold_rank_monotone (lo hi v w : Q) :
  (lo <= hi)%Q -> (v <= w)%Q ->
  (if Py.lt v lo then 0 else if Py.gt v hi then 2 else 1)
  <= (if Py.lt w lo then 0 else if Py.gt w hi then 2 else 1).
Proof.
  intros Hlh Hvw.
  destruct (Py.lt v lo) eqn:Ev.
  - destruct (Py.lt w lo); [lia|]. destruct (Py.gt w hi); lia.
  - destruct (Py.lt w lo) eqn:Ew.
    + exfalso. apply lt_spec in Ew.
      assert (Hv : Py.lt v lo = true)
        by (apply lt_spec; now apply Qle_lt_trans with w).
      congruence.
    + destruct (Py.gt v hi) eqn:Gv; [|destruct (Py.gt w hi); lia].
      apply gt_spec in Gv.
      assert (Gw : Py.gt w hi = true)
        by (apply gt_spec; now apply Qlt_le_trans with v).
      rewrite Gw. lia.
Qed.

(** X27.  The colours follow the value: on the scale red, gray, green, a
    larger intensity never gets an earlier colour from [color_intensity], and
    a larger sentiment never gets an earlier colour from [color_sentiment]. *)
Theorem colors_monotone (v w : Q) :
  (v <= w)%Q ->
  color_rank (Utils.color_intensity v) <= color_rank (Utils.color_intensity w)
  /\ color_rank (Utils.color_sentiment v) <= color_rank (Utils.color_sentiment w).
Proof.
  intro Hvw. rewrite !color_rank_intensity, !color_rank_sentiment. split.
  - apply threshold_rank_monotone; [discriminate | exact Hvw].
  - apply threshold_rank_monotone; [discriminate | exact Hvw].
Qed.

(** ** From a response to the moves of the dashboard *)

Lemma generate_series_In (a b x : Z) :
  In x (Sql.generate_series a b) <-> a <= x <= b.
Proof.
  unfold Sql.generate_series. rewrite in_map_iff. split.
  - intros (k & <- & Hk). apply in_seq in Hk. lia.
  - intro H. exists (Z.to_nat (x - a)). split; [lia|]. apply in_seq. lia.
Qed.

Lemma generate_series_NoDup (a b : Z) : NoDup (Sql.generate_series a b).
Proof.
  unfold Sql.generate_series.
  generalize (Z.to_nat (b - a + 1)) as n. generalize 0%nat as s.
  intros s n. revert s. induction n as [|n IH]; intro s; simpl; constructor.
  - rewrite in_map_iff. intros (k & Hk & Hin). apply in_seq in Hin. lia.
  - apply IH.
Qed.

Lemma response_dates (sqrt_dp : Q -> Q)
      (articles : list Backend.article) (today : Z) (narrative : string)
      (start_date end_date : option Z)
      (window percentile_window : Z) (epsilon : Q) (body : list Backend.Metric) :
  Backend.narrative_metrics sqrt_dp articles today narrative start_date end_date
                            window percentile_window epsilon
  = Backend.HTTP_200 body ->
  map Backend.date body
  = Sql.generate_series
      (Backend.default_start (Backend.default_end today end_date) start_date)
      (Backend.default_end today end_date).
Proof.
  intro Hb.
  set (e := Backend.default_end today end_date) in *.
  set (s := Backend.default_start e start_date) in *.
  destruct (narrative_metrics_200 _ _ _ _ _ _ _ _ _ _ Hb) as (Hv & Hse & _ & _).
  fold e in Hse. fold s in Hse.
  apply narrative_metrics_rows in Hb. fold e in Hb. fold s in Hb. subst body.
  apply query_valid_spec in Hv. destruct Hv as (Hw & Hp & _).
  rewrite map_map. cbn [metric_at Backend.date].
  rewrite map_seq_from. unfold Sql.generate_series.
  apply map_ext. intro j. unfold nth_day. lia.
Qed.

Section Dashboard.
Variables (isoformat : Z -> string) (body : list Backend.Metric).

Let ts := map (fun m => Backend.date m * Utils.NS_PER_DAY) body.
Let ints := map Backend.intensity body.

Lemma response_series :
  combine ts ints
  = map (fun m => (Backend.date m * Utils.NS_PER_DAY, Backend.intensity m)) body.
Proof. unfold ts, ints. apply combine_map_both. Qed.

Lemma response_series_In (day : Z) (x : Q) :
  In (day * Utils.NS_PER_DAY, x) (combine ts ints) <->
  exists m, In m body /\ Backend.date m = day /\ Backend.intensity m = x.
Proof.
  rewrite response_series, in_map_iff. split.
  - intros (m & E & Hm). injection E as E1 E2. exists m.
    repeat split; [exact Hm | | exact E2]. unfold Utils.NS_PER_DAY in E1. lia.
  - intros (m & Hm & <- & <-). now exists m.
Qed.

Lemma response_series_NoDup :
  NoDup (map Backend.date body) -> NoDup (map fst (combine ts ints)).
Proof.
  rewrite response_series, map_map. cbn [fst].
  induction body as [|m l IH]; intro ND; simpl; [constructor|].
  inversion ND as [|? ? Hnot ND']; subst. constructor; [|now apply IH].
  rewrite in_map_iff. intros (m' & E & Hm'). apply Hnot.
  apply in_map_iff. exists m'. split; [|exact Hm'].
  unfold Utils.NS_PER_DAY in E. lia.
Qed.

Lemma response_frame_parses (parse : string -> option Z) :
  (forall m, In m body ->
             parse (isoformat (Backend.date m))
             = Some (Backend.date m * Utils.NS_PER_DAY)) ->
  Forall (fun c => Utils.to_datetime_cell parse c <> None)
         (map (fun m => Utils.DStr (isoformat (Backend.date m))) body).
Proof.
  induction body as [|m l IH]; intro H; simpl; constructor.
  - cbn [Utils.to_datetime_cell]. rewrite H by (now left). discriminate.
  - apply IH. intros m' Hm'. apply H. now right.
Qed.
End Dashboard.

(** X28.  What the dashboard gets from a response: on the frame built from
    the rows of a response for [start_date .. end_date], for a selected day
    [d] of that range and horizons within the bounds of the host (the
    dashboard asks for 1, 2, 5, 10 and 20 days), the move of horizon [hz] is
    [intensity(d) - intensity(d - hz)] of the rows of those two days when
    [d - hz] is in the range, and [None] when it is not; the lookback that the
    backend computed is of no use to the horizons. *)
Theorem dashboard_moves_within_range (sqrt_dp : Q -> Q)
        (articles : list Backend.article) (today : Z) (narrative : string)
        (start_date end_date : option Z)
        (window percentile_window : Z) (epsilon : Q)
        (body : list Backend.Metric)
        (isoformat : Z -> string) (parse : string -> option Z)
        (convert : list Utils.datecell -> option (list Z))
        (h : Utils.store) (metrics_df : Utils.ref)
        (selected_date : string) (d : Z) (horizons : list Z) :
  let e := Backend.default_end today end_date in
  let s := Backend.default_start e start_date in
  Backend.narrative_metrics sqrt_dp articles today narrative start_date end_date
                            window percentile_window epsilon
  = Backend.HTTP_200 body ->
  nth_error h metrics_df = Some (frame_of_response isoformat body) ->
  (forall day, s <= day <= e ->
               parse (isoformat day) = Some (day * Utils.NS_PER_DAY)) ->
  convert (map (fun m => Utils.DStr (isoformat (Backend.date m))) body)
  = Some (map (fun m => Backend.date m * Utils.NS_PER_DAY) body) ->
  parse selected_date = Some (d * Utils.NS_PER_DAY) ->
  s <= d <= e ->
  Forall (fun hz => representable (d * Utils.NS_PER_DAY) hz = true) horizons ->
  exists moves,
    fst (Utils.calculate_horizon_moves parse convert metrics_df selected_date
           horizons h)
    = inr moves
    /\ forall hz,
        In hz horizons ->
        (s <= d - hz <= e ->
         exists m1 m2,
           In m1 body /\ In m2 body
           /\ Backend.date m1 = d /\ Backend.date m2 = d - hz
           /\ Utils.dict_get moves hz
              = Some (Some (Backend.intensity m1 - Backend.intensity m2)%Q))
        /\ (d - hz < s \/ e < d - hz -> Utils.dict_get moves hz = Some None).
Proof.
  intros e s Hb Hr Hparse Hconv Ht Hd Hrep.
  pose proof (response_dates _ _ _ _ _ _ _ _ _ _ Hb) as Hdates.
  fold e in Hdates. fold s in Hdates.
  set (ts := map (fun m => Backend.date m * Utils.NS_PER_DAY) body).
  assert (Hday : forall day, s <= day <= e <-> exists m, In m body /\ Backend.date m = day).
  { intro day. rewrite <- generate_series_In, <- Hdates, in_map_iff.
    split; intros (m & H1 & H2); exists m; tauto. }
  assert (Hcol : Forall (fun c => Utils.to_datetime_cell parse c <> None)
                        (map (fun m => Utils.DStr (isoformat (Backend.date m))) body)).
  { apply response_frame_parses. intros m Hm. apply Hparse, Hday. now exists m. }
  assert (ND : NoDup (map fst (combine ts (map Backend.intensity body)))).
  { apply response_series_NoDup. rewrite Hdates. apply generate_series_NoDup. }
  exists (fill (move_at ts (map Backend.intensity body) (d * Utils.NS_PER_DAY))
               horizons []).
  split.
  { exact (horizon_moves_run parse convert h metrics_df
             (frame_of_response isoformat body)
             _ ts selected_date _ horizons Hr eq_refl Hcol Hconv Ht (or_intror Hrep)). }
  intros hz Hin. rewrite (fill_get_in _ _ _ Hin).
  assert (Hshift : d * Utils.NS_PER_DAY - horizon_ns hz
                   = (d - hz) * Utils.NS_PER_DAY)
    by (unfold horizon_ns; lia).
  split.
  - intro Hrange.
    destruct (proj1 (Hday d) Hd) as (m1 & Hm1 & Hd1).
    destruct (proj1 (Hday (d - hz)) Hrange) as (m2 & Hm2 & Hd2).
    exists m1, m2. repeat split; try assumption. f_equal.
    apply (move_at_spec _ _ _ _ _ ND).
    exists (Backend.intensity m1), (Backend.intensity m2).
    split; [|split; [|reflexivity]].
    + apply response_series_In. now exists m1.
    + rewrite Hshift. apply response_series_In. now exists m2.
  - intro Hout. f_equal.
    destruct (move_at ts (map Backend.intensity body) (d * Utils.NS_PER_DAY) hz)
      as [mv|] eqn:Em; [|reflexivity].
    exfalso. apply (move_at_spec _ _ _ _ _ ND) in Em.
    destruct Em as (x & y & _ & Hy & _). rewrite Hshift in Hy.
    apply response_series_In in Hy. destruct Hy as (m2 & Hm2 & Hd2 & _).
    assert (s <= d - hz <= e) by (apply Hday; now exists m2). lia.
Qed.

(** ** The lookback and the first percentile window *)

(** X29.  The lookback is [max(W, P)] days, so with [W >= 2] and [P >= 2] the
    percentile window of the first row of a response starts on day
    [start_date - P + 1], a day of the lookback whose own baseline is cut
    short: it has [max(W, P) - P + 1] days, fewer than [W]. *)
Theorem first_window_has_short_baseline (sqrt_dp : Q -> Q)
        (articles : list Backend.article) (today : Z) (narrative : string)
        (start_date end_date : option Z)
        (window percentile_window : Z) (epsilon : Q)
        (body : list Backend.Metric) (m : Backend.Metric) :
  let e := Backend.default_end today end_date in
  let s := Backend.default_start e start_date in
  let calc_start := s - Z.max window percentile_window in
  let c := Backend.compute_columns sqrt_dp articles narrative calc_start e
                                   window epsilon in
  let t0 := s - percentile_window + 1 in
  Backend.narrative_metrics sqrt_dp articles today narrative start_date end_date
                            window percentile_window epsilon
  = Backend.HTTP_200 body ->
  2 <= window -> 2 <= percentile_window ->
  In m body -> Backend.date m = s ->
  exists rest,
    Backend.intensity_percentile m
    = Backend._percent_rank
        (Py.index 0%Q (Backend.intensities c) (t0 - calc_start) :: rest)
        (Backend.intensity m)
    /\ Py.index 0 (Backend.dates c) (t0 - calc_start) = t0
    /\ Py.len (prior_counts articles narrative calc_start t0 window)
       = Z.max window percentile_window - percentile_window + 1
    /\ Z.max window percentile_window - percentile_window + 1 < window.
Proof.
  intros e s calc_start c t0 Hb Hw2 Hp2 Hm Hs.
  destruct (narrative_metrics_row _ _ _ _ _ _ _ _ _ _ _ Hb Hm)
    as (Hv & Hse & k & Hk & _ & _ & Em).
  fold e in Hse, Hk, Em. fold s in Hse, Hk, Em. fold calc_start in Hk, Em.
  apply query_valid_spec in Hv. destruct Hv as (Hw & Hp & _).
  set (n := Z.to_nat (e - calc_start + 1)) in *.
  assert (Hk0 : k = Z.to_nat (Z.max window percentile_window)).
  { rewrite Em in Hs. cbn [metric_at Backend.date] in Hs. unfold nth_day in Hs.
    subst calc_start. lia. }
  set (a := Z.to_nat (Z.max window percentile_window - percentile_window + 1)).
  assert (Ha : t0 - calc_start = Z.of_nat a) by (subst t0 calc_start a; lia).
  assert (Han : (a < n)%nat) by (subst a; lia).
  exists (map (fun j => Py.float_or 0 (Backend.row_intensity
                 (nth_db_row sqrt_dp articles narrative calc_start e window epsilon j)))
              (seq (S a) (k - a))).
  split; [|split; [|split]].
  - rewrite Em. cbn [metric_at Backend.intensity_percentile Backend.intensity].
    fold c. f_equal. unfold c at 1. rewrite columns_intensities. fold n.
    rewrite (trailing_window percentile_window
               (fun k => Py.float_or 0 (Backend.row_intensity
                  (nth_db_row sqrt_dp articles narrative calc_start e window epsilon k))))
      by lia.
    replace (Z.to_nat (Z.max 0 (Z.of_nat k - percentile_window + 1))) with a
      by (subst a; lia).
    replace (S k - a)%nat with (S (k - a)) by (subst a; lia).
    cbn [seq map]. f_equal. rewrite Ha. unfold c. rewrite columns_intensities.
    fold n. symmetry.
    exact (index_map_seq _ (fun k => Py.float_or 0 (Backend.row_intensity
             (nth_db_row sqrt_dp articles narrative calc_start e window epsilon k)))
             n a Han).
  - rewrite Ha. unfold c. rewrite columns_dates. fold n.
    rewrite (index_map_seq _ (nth_day calc_start) n a Han).
    unfold nth_day. lia.
  - replace t0 with (nth_day calc_start a) by (unfold nth_day; lia).
    rewrite (prior_length articles narrative calc_start e window a Han).
    subst a. lia.
  - lia.
Qed.

(** * The further properties on concrete data *)

Lemma small_response_ok :
  Backend.narrative_metrics Sample.sqrt_approx Sample.small_db 102 "fed"
                            (Some 100) None 2 3 (1 # 4)
  = Backend.HTTP_200 Sample.small_body.
Proof. vm_compute. reflexivity. Qed.

Lemma small_head_In : In (hd Sample.no_metric Sample.small_body) Sample.small_body.
Proof. vm_compute. left. reflexivity. Qed.

Lemma march_dates_parse :
  Forall (fun c => Utils.to_datetime_cell Sample.parse_march c <> None)
         [Utils.DStr "2024-03-05"; Utils.DStr "2024-03-09"; Utils.DStr "2024-03-10"].
Proof. repeat constructor; discriminate. Qed.

Lemma march_dates_convert :
  Sample.convert_march
    [Utils.DStr "2024-03-05"; Utils.DStr "2024-03-09"; Utils.DStr "2024-03-10"]
  = Some [19787 * Utils.NS_PER_DAY; 19791 * Utils.NS_PER_DAY;
          19792 * Utils.NS_PER_DAY].
Proof. reflexivity. Qed.

Lemma march_dates_NoDup :
  NoDup (map fst (combine [19787 * Utils.NS_PER_DAY; 19791 * Utils.NS_PER_DAY;
                           19792 * Utils.NS_PER_DAY]
                          (Utils.df_intensity Sample.march_frame))).
Proof. vm_compute. repeat constructor; simpl; intuition discriminate. Qed.

Lemma percent_rank_monotone_witness :
  (Backend._percent_rank [1; 2; 2; 3]%Q 2 <= Backend._percent_rank [1; 2; 2; 3]%Q 3)%Q.
Proof.
  apply (percent_rank_monotone [1; 2; 2; 3]%Q 2 3).
  unfold Qle. simpl. lia.
Defined.

Lemma percent_rank_of_minimum_witness :
  (Backend._percent_rank [1; 2; 2; 3]%Q 1 == 0)%Q.
Proof.
  apply (percent_rank_of_minimum [1; 2; 2; 3]%Q 1).
  intros v Hv. simpl in Hv.
  destruct Hv as [<- | [<- | [<- | [<- | []]]]]; unfold Qle; simpl; lia.
Defined.

Lemma percent_rank_of_strict_maximum_witness :
  (Backend._percent_rank ([1; 2]%Q ++ 3%Q :: [2]%Q) 3 == 1)%Q.
Proof.
  apply (percent_rank_of_strict_maximum [1; 2]%Q [2]%Q 3).
  - intros v Hv. simpl in Hv.
    destruct Hv as [<- | [<- | [<- | []]]]; unfold Qlt; simpl; lia.
  - simpl. lia.
Defined.

Lemma percent_rank_permutation_witness :
  Backend._percent_rank [1; 2; 3]%Q 2 = Backend._percent_rank [2; 1; 3]%Q 2.
Proof.
  apply (percent_rank_permutation [1; 2; 3]%Q [2; 1; 3]%Q 2).
  apply perm_swap.
Defined.

Lemma detect_alerts_threshold_monotone_witness :
  incl (Utils.detect_alerts [(5, Some (12 # 10)); (10, None); (20, Some (-(3 # 4))%Q)] 1)
       (Utils.detect_alerts [(5, Some (12 # 10)); (10, None); (20, Some (-(3 # 4))%Q)]
                            (1 # 2)).
Proof.
  apply (detect_alerts_threshold_monotone
           [(5, Some (12 # 10)); (10, None); (20, Some (-(3 # 4))%Q)] (1 # 2) 1).
  unfold Qle. simpl. lia.
Defined.

Lemma detect_alerts_negative_threshold_witness :
  In {| Utils.horizon := 1; Utils.move := 0; Utils.abs_move := Qabs 0 |}
     (Utils.detect_alerts [(1, Some 0%Q); (2, None)] (-1)).
Proof.
  apply (detect_alerts_negative_threshold [(1, Some 0%Q); (2, None)] (-1) 1 0).
  - reflexivity.
  - simpl. left. reflexivity.
Defined.

Lemma calculate_horizon_moves_without_dates_witness :
  Utils.calculate_horizon_moves Sample.parse_march Sample.convert_march
                                0%nat "2024-03-10" [1; 2] [Sample.dateless_frame]
  = (inl (Utils.KeyError "date"), [Sample.dateless_frame]).
Proof.
  exact (calculate_horizon_moves_without_dates
           Sample.parse_march Sample.convert_march [Sample.dateless_frame] 0%nat
           Sample.dateless_frame "2024-03-10" [1; 2] eq_refl eq_refl).
Defined.

Lemma calculate_horizon_moves_bad_date_witness :
  fst (Utils.calculate_horizon_moves Sample.parse_march Sample.convert_march
         0%nat "2024-03-05" [1] [Sample.broken_frame])
  = inl Utils.DateParseError
  /\ nth_error (snd (Utils.calculate_horizon_moves
                       Sample.parse_march Sample.convert_march 0%nat
                       "2024-03-05" [1] [Sample.broken_frame])) 0%nat
     = Some Sample.broken_frame.
Proof.
  apply (calculate_horizon_moves_bad_date
           Sample.parse_march Sample.convert_march [Sample.broken_frame] 0%nat
           Sample.broken_frame
           [Utils.DStr "2024-03-05"; Utils.DStr "yesterday"] "yesterday"
           "2024-03-05" [1]).
  - reflexivity.
  - reflexivity.
  - simpl. right. left. reflexivity.
  - reflexivity.
Defined.

Lemma alerts_of_horizon_moves_witness :
  exists moves,
    fst (Utils.calculate_horizon_moves Sample.parse_march Sample.convert_march
           0%nat "2024-03-10" [1; 5; 1] [Sample.march_frame])
    = inr moves
    /\ NoDup (map Utils.horizon (Utils.detect_alerts moves 1))
    /\ In {| Utils.horizon := 1; Utils.move := 7 - 3; Utils.abs_move := Qabs (7 - 3) |}
          (Utils.detect_alerts moves 1).
Proof.
  assert (Hrep : Forall (fun hz => representable (19792 * Utils.NS_PER_DAY) hz = true)
                        [1; 5; 1])
    by (repeat constructor).
  destruct (alerts_of_horizon_moves
              Sample.parse_march Sample.convert_march [Sample.march_frame] 0%nat
              Sample.march_frame _ _ "2024-03-10" (19792 * Utils.NS_PER_DAY)
              [1; 5; 1] 1
              eq_refl eq_refl march_dates_parse march_dates_convert eq_refl
              march_dates_NoDup (or_intror Hrep))
    as (moves & Hrun & Hnd & Hiff & _).
  exists moves. split; [exact Hrun|]. split; [exact Hnd|].
  apply Hiff. cbn [Utils.horizon Utils.move Utils.abs_move].
  split; [simpl; tauto|]. split; [|split; reflexivity].
  assert (Hm : inr moves
               = fst (Utils.calculate_horizon_moves
                        Sample.parse_march Sample.convert_march
                        0%nat "2024-03-10" [1; 5; 1] [Sample.march_frame]))
    by (symmetry; exact Hrun).
  vm_compute in Hm. injection Hm as ->. reflexivity.
Defined.

Lemma response_rows_full_baseline_witness :
  let m := hd Sample.no_metric Sample.small_body in
  let base := baseline Sample.small_db "fed" (Backend.date m) 2 in
  Py.len base = 2
  /\ 1 <= 2
  /\ Backend.rolling_mean m = mean base
  /\ Backend.rolling_std m = sample_std Sample.sqrt_approx base
  /\ Backend.intensity m
     = ((inject_Z (Backend.article_count m) - Backend.rolling_mean m)
        / Qmax (Backend.rolling_std m) (1 # 4))%Q.
Proof.
  exact (response_rows_full_baseline
           Sample.sqrt_approx Sample.small_db 102 "fed" (Some 100) None 2 3 (1 # 4)
           Sample.small_body (hd Sample.no_metric Sample.small_body)
           small_response_ok small_head_In).
Defined.

Lemma intensity_sign_witness :
  let m := hd Sample.no_metric Sample.small_body in
  (0 < Backend.intensity m)%Q <->
  (Backend.rolling_mean m < inject_Z (Backend.article_count m))%Q.
Proof.
  exact (intensity_sign
           Sample.sqrt_approx Sample.small_db 102 "fed" (Some 100) None 2 3 (1 # 4)
           Sample.small_body (hd Sample.no_metric Sample.small_body)
           small_response_ok small_head_In).
Defined.

Lemma row_independent_of_range_witness :
  let m1 := nth 2 Sample.small_body Sample.no_metric in
  let m2 := hd Sample.no_metric Sample.late_body in
  Backend.article_count m1 = Backend.article_count m2
  /\ Backend.rolling_mean m1 = Backend.rolling_mean m2
  /\ Backend.rolling_std m1 = Backend.rolling_std m2
  /\ Backend.intensity m1 = Backend.intensity m2
  /\ Backend.sentiment_mean m1 = Backend.sentiment_mean m2
  /\ Backend.sentiment_percentile m1 = Backend.sentiment_percentile m2.
Proof.
  assert (Hb2 : Backend.narrative_metrics Sample.sqrt_approx Sample.small_db 102 "fed"
                                          (Some 102) None 2 3 (1 # 4)
                = Backend.HTTP_200 Sample.late_body)
    by (vm_compute; reflexivity).
  assert (H1 : In (nth 2 Sample.small_body Sample.no_metric) Sample.small_body)
    by (vm_compute; right; right; left; reflexivity).
  assert (H2 : In (hd Sample.no_metric Sample.late_body) Sample.late_body)
    by (vm_compute; left; reflexivity).
  assert (Hd : Backend.date (nth 2 Sample.small_body Sample.no_metric)
               = Backend.date (hd Sample.no_metric Sample.late_body))
    by (vm_compute; reflexivity).
  exact (row_independent_of_range
           Sample.sqrt_approx Sample.small_db "fed" 2 3 (1 # 4) 102 102
           (Some 100) None (Some 102) None Sample.small_body Sample.late_body
           _ _ small_response_ok Hb2 H1 H2 Hd).
Defined.

Lemma list_narratives_sorted_witness :
  Sorted (fun a b => String.leb a b = true)
         (Backend.list_narratives String.leb Sample.mixed_db).
Proof.
  apply (list_narratives_sorted String.leb Sample.mixed_db).
  intros a b. apply String.leb_total.
Defined.

Lemma unlisted_narrative_all_zero_witness :
  let m := hd Sample.no_metric Sample.gold_body in
  Backend.article_count m = 0
  /\ Backend.sentiment_mean m = None
  /\ Backend.sentiment_percentile m = None
  /\ (Backend.rolling_mean m == 0)%Q
  /\ (Backend.intensity m == 0)%Q
  /\ (Backend.intensity_percentile m == 0)%Q.
Proof.
  assert (Hn : ~ In "gold"%string (Backend.list_narratives String.leb Sample.small_db))
    by (vm_compute; intuition discriminate).
  assert (Hb : Backend.narrative_metrics Sample.sqrt_approx Sample.small_db 102 "gold"
                                         (Some 100) None 2 3 (1 # 4)
               = Backend.HTTP_200 Sample.gold_body)
    by (vm_compute; reflexivity).
  assert (Hm : In (hd Sample.no_metric Sample.gold_body) Sample.gold_body)
    by (vm_compute; left; reflexivity).
  exact (unlisted_narrative_all_zero
           Sample.sqrt_approx String.leb Sample.small_db 102 "gold" (Some 100) None
           2 3 (1 # 4) Sample.gold_body _ Hn Hb Hm).
Defined.

Lemma narrative_metrics_reads_visible_only_witness :
  Backend.narrative_metrics Sample.sqrt_approx Sample.small_db 102 "fed"
                            (Some 100) None 2 3 (1 # 4)
  = Backend.narrative_metrics Sample.sqrt_approx Sample.mixed_db 102 "fed"
                              (Some 100) None 2 3 (1 # 4).
Proof.
  apply (narrative_metrics_reads_visible_only
           Sample.sqrt_approx Sample.small_db Sample.mixed_db 102 "fed"
           (Some 100) None 2 3 (1 # 4)).
  vm_compute. reflexivity.
Defined.

Lemma duplicate_article_ignored_witness :
  Backend.narrative_metrics Sample.sqrt_approx
                            (Sample.fed 3 102 (Some 2%Q) :: Sample.small_db)
                            102 "fed" (Some 100) None 2 3 (1 # 4)
  = Backend.narrative_metrics Sample.sqrt_approx Sample.small_db
                              102 "fed" (Some 100) None 2 3 (1 # 4).
Proof.
  apply (duplicate_article_ignored
           Sample.sqrt_approx (Sample.fed 3 102 (Some 2%Q)) Sample.small_db
           102 "fed" (Some 100) None 2 3 (1 # 4)).
  simpl. right. right. left. reflexivity.
Defined.

Lemma differing_scores_count_twice_witness :
  2 <= Backend.article_count (hd Sample.no_metric Sample.small_body).
Proof.
  apply (differing_scores_count_twice
           Sample.sqrt_approx Sample.small_db 102 "fed" (Some 100) None 2 3 (1 # 4)
           Sample.small_body (hd Sample.no_metric Sample.small_body)
           (Sample.fed 1 100 (Some 1%Q)) (Sample.fed 2 100 (Some (1 # 2)))
           small_response_ok small_head_In).
  - simpl. left. reflexivity.
  - simpl. right. left. reflexivity.
  - reflexivity.
  - reflexivity.
  - vm_compute. reflexivity.
  - vm_compute. reflexivity.
  - reflexivity.
Defined.

Lemma single_day_window_all_zero_witness :
  let m := hd Sample.no_metric Sample.single_body in
  Backend.intensity_percentile m = 0%Q
  /\ (Backend.sentiment_percentile m = None
      \/ Backend.sentiment_percentile m = Some 0%Q).
Proof.
  assert (Hb : Backend.narrative_metrics Sample.sqrt_approx Sample.small_db 102 "fed"
                                         (Some 100) None 2 1 (1 # 4)
               = Backend.HTTP_200 Sample.single_body)
    by (vm_compute; reflexivity).
  assert (Hm : In (hd Sample.no_metric Sample.single_body) Sample.single_body)
    by (vm_compute; left; reflexivity).
  exact (single_day_window_all_zero
           Sample.sqrt_approx Sample.small_db 102 "fed" (Some 100) None 2 (1 # 4)
           Sample.single_body _ Hb Hm).
Defined.

Lemma response_row_count_witness :
  Z.of_nat (List.length Sample.small_body) = 102 - 100 + 1.
Proof.
  exact (proj1 (response_row_count
                  Sample.sqrt_approx Sample.small_db 102 "fed" (Some 100) None
                  2 3 (1 # 4) Sample.small_body small_response_ok)).
Defined.

Lemma period_range_round_trip_witness :
  exists start,
    Utils.get_date_range_for_period Sample.strptime_2024 Sample.strftime_2024
                                    19800 "30d" (Some "2024-03-10"%string)
    = Some (start, "2024-03-10"%string)
    /\ Utils.get_date_range_days Sample.strptime_2024 start "2024-03-10"
       = Utils.period_days "30d".
Proof.
  destruct (period_range_round_trip
              Sample.strptime_2024 Sample.strftime_2024 19800 "30d" "2024-03-10"
              19792 eq_refl eq_refl)
    as (start & Hr & Hd & _).
  exists start. split; [exact Hr | exact Hd].
Defined.

Lemma get_latest_date_parsed_witness :
  exists latest,
    Utils.get_latest_date Sample.strptime_2024 Sample.strftime_2024
                          ["2024-03-10"; "2024-02-09"]%string
    = Some (Sample.strftime_2024 latest)
    /\ In latest [19792; 19762]
    /\ forall t, In t [19792; 19762] -> t <= latest.
Proof.
  apply (get_latest_date_parsed
           Sample.strptime_2024 Sample.strftime_2024
           ["2024-03-10"; "2024-02-09"]%string [19792; 19762]).
  - discriminate.
  - reflexivity.
Defined.

Lemma get_latest_date_fallback_witness :
  exists x,
    Utils.get_latest_date Sample.strptime_2024 Sample.strftime_2024
                          ["2024-03-10"; "soon"]%string
    = Some x
    /\ In x ["2024-03-10"; "soon"]%string
    /\ forall y, In y ["2024-03-10"; "soon"]%string -> String.leb y x = true.
Proof.
  apply (get_latest_date_fallback
           Sample.strptime_2024 Sample.strftime_2024
           ["2024-03-10"; "soon"]%string).
  - discriminate.
  - reflexivity.
Defined.

Lemma colors_monotone_witness :
  color_rank (Utils.color_intensity 0) <= color_rank (Utils.color_intensity 1)
  /\ color_rank (Utils.color_sentiment 0) <= color_rank (Utils.color_sentiment 1).
Proof.
  apply (colors_monotone 0 1).
  unfold Qle. simpl. lia.
Defined.

Lemma dashboard_moves_within_range_witness :
  exists moves m1 m2,
    fst (Utils.calculate_horizon_moves
           Sample.parse_march Sample.convert_march 0%nat "2024-03-10"
           [1; 2; 5; 10; 20]
           [frame_of_response Sample.format_march Sample.march_body])
    = inr moves
    /\ In m1 Sample.march_body /\ In m2 Sample.march_body
    /\ Backend.date m1 = 19792 /\ Backend.date m2 = 19792 - 1
    /\ Utils.dict_get moves 1
       = Some (Some (Backend.intensity m1 - Backend.intensity m2)%Q)
    /\ Utils.dict_get moves 5 = Some None.
Proof.
  assert (Hb : Backend.narrative_metrics Sample.sqrt_approx Sample.march_db 19792 "fed"
                                         (Some 19791) None 1 1 (1 # 4)
               = Backend.HTTP_200 Sample.march_body)
    by (vm_compute; reflexivity).
  assert (Hp : forall day, 19791 <= day <= 19792 ->
                           Sample.parse_march (Sample.format_march day)
                           = Some (day * Utils.NS_PER_DAY)).
  { intros day Hd. assert (Hc : day = 19791 \/ day = 19792) by lia.
    destruct Hc as [-> | ->]; reflexivity. }
  assert (Hconv : Sample.convert_march
                    (map (fun m => Utils.DStr (Sample.format_march (Backend.date m)))
                         Sample.march_body)
                  = Some (map (fun m => Backend.date m * Utils.NS_PER_DAY)
                              Sample.march_body))
    by (vm_compute; reflexivity).
  assert (Hr : 19791 <= 19792 <= 19792) by lia.
  assert (Hrep : Forall (fun hz => representable (19792 * Utils.NS_PER_DAY) hz = true)
                        [1; 2; 5; 10; 20])
    by (repeat constructor).
  destruct (dashboard_moves_within_range
              Sample.sqrt_approx Sample.march_db 19792 "fed" (Some 19791) None
              1 1 (1 # 4) Sample.march_body Sample.format_march Sample.parse_march
              Sample.convert_march
              [frame_of_response Sample.format_march Sample.march_body] 0%nat
              "2024-03-10" 19792 [1; 2; 5; 10; 20] Hb eq_refl Hp Hconv eq_refl Hr Hrep)
    as (moves & Hrun & Hmoves).
  assert (H1 : In 1 [1; 2; 5; 10; 20]) by (simpl; tauto).
  assert (H5 : In 5 [1; 2; 5; 10; 20]) by (simpl; tauto).
  assert (Hin : 19791 <= 19792 - 1 <= 19792) by lia.
  destruct (proj1 (Hmoves 1 H1) Hin) as (m1 & m2 & Hm1 & Hm2 & Hd1 & Hd2 & Hg).
  exists moves, m1, m2. split; [exact Hrun|].
  split; [exact Hm1|]. split; [exact Hm2|]. split; [exact Hd1|].
  split; [exact Hd2|]. split; [exact Hg|].
  apply (proj2 (Hmoves 5 H5)). left. vm_compute. reflexivity.
Defined.

Lemma first_window_has_short_baseline_witness :
  Py.len (prior_counts Sample.small_db "fed" (100 - Z.max 2 3) (100 - 3 + 1) 2)
  = Z.max 2 3 - 3 + 1.
Proof.
  assert (Hd : Backend.date (hd Sample.no_metric Sample.small_body) = 100)
    by (vm_compute; reflexivity).
  assert (H2 : 2 <= 2) by lia.
  assert (H3 : 2 <= 3) by lia.
  destruct (first_window_has_short_baseline
              Sample.sqrt_approx Sample.small_db 102 "fed" (Some 100) None
              2 3 (1 # 4) Sample.small_body _
              small_response_ok H2 H3 small_head_In Hd)
    as (rest & _ & _ & Hlen & _).
  exact Hlen.
Defined.
